(** * iotaEHR: the Azure Sphere heart-rate client (Client/AzureIoT/AzureIoT/main.c)

    A shallow embedding of the event handlers of [main.c] and the
    properties of its connection life cycle, device-twin handling, button
    polling and acquisition run.

    The C globals become one [State] record, the handlers become programs
    of a small state monad [M], and everything the handlers ask of the
    outside world (timer reads, GPIO reads, the provisioning service, the
    sensor algorithm, the wall clock) is passed in as an input record.
    Calls into the outside world that matter to an observer are appended
    to the [calls] trace of the state.  [Log_Debug] output is not modelled. *)

From Stdlib Require Import ZArith List String Ascii Bool Lia.
From Stdlib Require Import SpecFloat DecimalString.
Import ListNotations.

Local Open Scope list_scope.
Local Open Scope string_scope.
Local Open Scope Z_scope.

(** ** Machine integers *)

(** [int] and [int32_t] arithmetic of the target, wrap-around written out. *)
Definition wrap32 (x : Z) : Z := (x + 2 ^ 31) mod 2 ^ 32 - 2 ^ 31.

Definition int32_range (x : Z) : Prop := - 2 ^ 31 <= x < 2 ^ 31.

(** ** Types of the collaborators *)

(** applibs/gpio.h *)
Inductive GPIO_Value_Type : Type :=
| GPIO_Value_Low
| GPIO_Value_High.

Definition GPIO_Value_eqb (a b : GPIO_Value_Type) : bool :=
  match a, b with
  | GPIO_Value_Low, GPIO_Value_Low => true
  | GPIO_Value_High, GPIO_Value_High => true
  | _, _ => false
  end.

(** azure_sphere_provisioning.h, the results named in
    [getAzureSphereProvisioningResultString]. *)
Inductive AZURE_SPHERE_PROV_RESULT : Type :=
| AZURE_SPHERE_PROV_RESULT_OK
| AZURE_SPHERE_PROV_RESULT_INVALID_PARAM
| AZURE_SPHERE_PROV_RESULT_NETWORK_NOT_READY
| AZURE_SPHERE_PROV_RESULT_DEVICEAUTH_NOT_READY
| AZURE_SPHERE_PROV_RESULT_PROV_DEVICE_ERROR
| AZURE_SPHERE_PROV_RESULT_GENERIC_ERROR.

Definition is_PROV_RESULT_OK (r : AZURE_SPHERE_PROV_RESULT) : bool :=
  match r with
  | AZURE_SPHERE_PROV_RESULT_OK => true
  | _ => false
  end.

(** iothub_client_core_common.h *)
Inductive IOTHUB_CLIENT_CONNECTION_STATUS : Type :=
| IOTHUB_CLIENT_CONNECTION_AUTHENTICATED
| IOTHUB_CLIENT_CONNECTION_UNAUTHENTICATED.

Definition is_CONNECTION_AUTHENTICATED (r : IOTHUB_CLIENT_CONNECTION_STATUS) : bool :=
  match r with
  | IOTHUB_CLIENT_CONNECTION_AUTHENTICATED => true
  | IOTHUB_CLIENT_CONNECTION_UNAUTHENTICATED => false
  end.

(** The reasons named in [GetReasonString]; the reason is only logged. *)
Inductive IOTHUB_CLIENT_CONNECTION_STATUS_REASON : Type :=
| IOTHUB_CLIENT_CONNECTION_EXPIRED_SAS_TOKEN
| IOTHUB_CLIENT_CONNECTION_DEVICE_DISABLED
| IOTHUB_CLIENT_CONNECTION_BAD_CREDENTIAL
| IOTHUB_CLIENT_CONNECTION_RETRY_EXPIRED
| IOTHUB_CLIENT_CONNECTION_NO_NETWORK
| IOTHUB_CLIENT_CONNECTION_COMMUNICATION_ERROR
| IOTHUB_CLIENT_CONNECTION_OK.

(** A non-NULL [IOTHUB_DEVICE_CLIENT_LL_HANDLE]; the global
    [iothubClientHandle] is an [option handle], [None] being NULL. *)
Definition handle : Type := positive.

(** Calls into the collaborators, in the order they are made. *)
Inductive Call : Type :=
| Call_Destroy (h : handle)
| Call_CreateWithAzureSphereDeviceAuthProvisioning
| Call_SetTimerFdToPeriod (seconds : Z)
| Call_SetOption_KEEP_ALIVE (h : option handle)
| Call_SetDeviceTwinCallback (h : option handle)
| Call_SetConnectionStatusCallback (h : option handle)
| Call_DoWork (h : option handle)
| Call_SendEventAsync (h : option handle) (message : string)
| Call_SendReportedState (h : handle) (reported : string)
| Call_GPIO_SetValue_StatusLed (v : GPIO_Value_Type)
| Call_max30102_init
| Call_max30102_shut_down.

(** ** The globals of main.c *)

Record State : Type := mkState {
  terminationRequired : bool;
  iothubClientHandle : option handle;
  iothubAuthenticated : bool;
  statusLedOn : bool;
  (** level last written to [deviceTwinStatusLedGpioFd] *)
  statusLedGpio : GPIO_Value_Type;
  azureIoTPollPeriodSeconds : Z;
  (** period last programmed into [azureTimerFd] *)
  azureTimerPeriodSeconds : Z;
  nprId : string;
  sendTelemetryButtonState : GPIO_Value_Type;
  (** revision and part id read from the sensor at start-up ([uint8_t]) *)
  max30102_revision : Z;
  max30102_part_id : Z;
  (** callbacks registered on the current client handle (state of the SDK) *)
  twinCallbackSet : bool;
  connectionStatusCallbackSet : bool;
  calls : list Call
}.

Definition AzureIoTDefaultPollPeriodSeconds : Z := 20.
Definition AzureIoTMinReconnectPeriodSeconds : Z := 10.
Definition AzureIoTMaxReconnectPeriodSeconds : Z := 10 * 60.

(** The globals as their initialisers leave them. *)
Definition initial_globals : State :=
  {| terminationRequired := false;
     iothubClientHandle := None;
     iothubAuthenticated := false;
     statusLedOn := false;
     statusLedGpio := GPIO_Value_High;
     azureIoTPollPeriodSeconds := -1;
     azureTimerPeriodSeconds := -1;
     nprId := "";
     sendTelemetryButtonState := GPIO_Value_High;
     max30102_revision := 0;
     max30102_part_id := 0;
     twinCallbackSet := false;
     connectionStatusCallbackSet := false;
     calls := [] |}.

(** The globals when [InitPeripheralsAndHandlers] has returned 0: the LED
    opened at [GPIO_Value_High], the sensor's revision and part id read,
    the poll period and the Azure timer at
    [AzureIoTDefaultPollPeriodSeconds]. *)
Definition started (revision part_id : Z) : State :=
  {| terminationRequired := false;
     iothubClientHandle := None;
     iothubAuthenticated := false;
     statusLedOn := false;
     statusLedGpio := GPIO_Value_High;
     azureIoTPollPeriodSeconds := AzureIoTDefaultPollPeriodSeconds;
     azureTimerPeriodSeconds := AzureIoTDefaultPollPeriodSeconds;
     nprId := "";
     sendTelemetryButtonState := GPIO_Value_High;
     max30102_revision := revision;
     max30102_part_id := part_id;
     twinCallbackSet := false;
     connectionStatusCallbackSet := false;
     calls := [] |}.

Definition set_terminationRequired (b : bool) (s : State) : State :=
  mkState b (iothubClientHandle s) (iothubAuthenticated s) (statusLedOn s)
    (statusLedGpio s) (azureIoTPollPeriodSeconds s) (azureTimerPeriodSeconds s)
    (nprId s) (sendTelemetryButtonState s) (max30102_revision s) (max30102_part_id s)
    (twinCallbackSet s) (connectionStatusCallbackSet s) (calls s).

Definition set_iothubClientHandle (h : option handle) (s : State) : State :=
  mkState (terminationRequired s) h (iothubAuthenticated s) (statusLedOn s)
    (statusLedGpio s) (azureIoTPollPeriodSeconds s) (azureTimerPeriodSeconds s)
    (nprId s) (sendTelemetryButtonState s) (max30102_revision s) (max30102_part_id s)
    (twinCallbackSet s) (connectionStatusCallbackSet s) (calls s).

Definition set_iothubAuthenticated (b : bool) (s : State) : State :=
  mkState (terminationRequired s) (iothubClientHandle s) b (statusLedOn s)
    (statusLedGpio s) (azureIoTPollPeriodSeconds s) (azureTimerPeriodSeconds s)
    (nprId s) (sendTelemetryButtonState s) (max30102_revision s) (max30102_part_id s)
    (twinCallbackSet s) (connectionStatusCallbackSet s) (calls s).

Definition set_statusLedOn (b : bool) (s : State) : State :=
  mkState (terminationRequired s) (iothubClientHandle s) (iothubAuthenticated s) b
    (statusLedGpio s) (azureIoTPollPeriodSeconds s) (azureTimerPeriodSeconds s)
    (nprId s) (sendTelemetryButtonState s) (max30102_revision s) (max30102_part_id s)
    (twinCallbackSet s) (connectionStatusCallbackSet s) (calls s).

Definition set_statusLedGpio (v : GPIO_Value_Type) (s : State) : State :=
  mkState (terminationRequired s) (iothubClientHandle s) (iothubAuthenticated s)
    (statusLedOn s) v (azureIoTPollPeriodSeconds s) (azureTimerPeriodSeconds s)
    (nprId s) (sendTelemetryButtonState s) (max30102_revision s) (max30102_part_id s)
    (twinCallbackSet s) (connectionStatusCallbackSet s) (calls s).

Definition set_azureIoTPollPeriodSeconds (p : Z) (s : State) : State :=
  mkState (terminationRequired s) (iothubClientHandle s) (iothubAuthenticated s)
    (statusLedOn s) (statusLedGpio s) p (azureTimerPeriodSeconds s) (nprId s)
    (sendTelemetryButtonState s) (max30102_revision s) (max30102_part_id s)
    (twinCallbackSet s) (connectionStatusCallbackSet s) (calls s).

Definition set_azureTimerPeriodSeconds (p : Z) (s : State) : State :=
  mkState (terminationRequired s) (iothubClientHandle s) (iothubAuthenticated s)
    (statusLedOn s) (statusLedGpio s) (azureIoTPollPeriodSeconds s) p (nprId s)
    (sendTelemetryButtonState s) (max30102_revision s) (max30102_part_id s)
    (twinCallbackSet s) (connectionStatusCallbackSet s) (calls s).

Definition set_nprId (v : string) (s : State) : State :=
  mkState (terminationRequired s) (iothubClientHandle s) (iothubAuthenticated s)
    (statusLedOn s) (statusLedGpio s) (azureIoTPollPeriodSeconds s)
    (azureTimerPeriodSeconds s) v (sendTelemetryButtonState s) (max30102_revision s)
    (max30102_part_id s) (twinCallbackSet s) (connectionStatusCallbackSet s) (calls s).

Definition set_sendTelemetryButtonState (v : GPIO_Value_Type) (s : State) : State :=
  mkState (terminationRequired s) (iothubClientHandle s) (iothubAuthenticated s)
    (statusLedOn s) (statusLedGpio s) (azureIoTPollPeriodSeconds s)
    (azureTimerPeriodSeconds s) (nprId s) v (max30102_revision s) (max30102_part_id s)
    (twinCallbackSet s) (connectionStatusCallbackSet s) (calls s).

Definition set_twinCallbackSet (b : bool) (s : State) : State :=
  mkState (terminationRequired s) (iothubClientHandle s) (iothubAuthenticated s)
    (statusLedOn s) (statusLedGpio s) (azureIoTPollPeriodSeconds s)
    (azureTimerPeriodSeconds s) (nprId s) (sendTelemetryButtonState s)
    (max30102_revision s) (max30102_part_id s) b (connectionStatusCallbackSet s)
    (calls s).

Definition set_connectionStatusCallbackSet (b : bool) (s : State) : State :=
  mkState (terminationRequired s) (iothubClientHandle s) (iothubAuthenticated s)
    (statusLedOn s) (statusLedGpio s) (azureIoTPollPeriodSeconds s)
    (azureTimerPeriodSeconds s) (nprId s) (sendTelemetryButtonState s)
    (max30102_revision s) (max30102_part_id s) (twinCallbackSet s) b (calls s).

Definition add_call (c : Call) (s : State) : State :=
  mkState (terminationRequired s) (iothubClientHandle s) (iothubAuthenticated s)
    (statusLedOn s) (statusLedGpio s) (azureIoTPollPeriodSeconds s)
    (azureTimerPeriodSeconds s) (nprId s) (sendTelemetryButtonState s)
    (max30102_revision s) (max30102_part_id s) (twinCallbackSet s)
    (connectionStatusCallbackSet s) (calls s ++ [c])%list.

(** ** The monad of the handlers *)

(** How a piece of C code ends. *)
Inductive Result (A : Type) : Type :=
| Returned (a : A) (s : State)   (* ran to its end *)
| Aborted (s : State)            (* called abort() *)
| Undefined                      (* left the defined behaviour of C *)
| Waiting (s : State).           (* still looping when the scripted inputs ran out *)

Arguments Returned {A} a s.
Arguments Aborted {A} s.
Arguments Undefined {A}.
Arguments Waiting {A} s.

Definition M (A : Type) : Type := State -> Result A.

Definition ret {A : Type} (a : A) : M A := fun s => Returned a s.

Definition bind {A B : Type} (c : M A) (k : A -> M B) : M B :=
  fun s =>
    match c s with
    | Returned a s' => k a s'
    | Aborted s' => Aborted s'
    | Undefined => Undefined
    | Waiting s' => Waiting s'
    end.

Declare Scope m_scope.
Delimit Scope m_scope with M.
Notation "x <- c ;; k" := (bind c (fun x => k))
  (at level 61, c at next level, right associativity) : m_scope.
Notation "c ;; k" := (bind c (fun _ => k))
  (at level 61, right associativity) : m_scope.
Local Open Scope m_scope.

Definition gets {A : Type} (f : State -> A) : M A := fun s => Returned (f s) s.
Definition modify (f : State -> State) : M unit := fun s => Returned tt (f s).
Definition call (c : Call) : M unit := modify (add_call c).
Definition abort {A : Type} : M A := fun s => Aborted s.
Definition undefined_behaviour {A : Type} : M A := fun _ => Undefined.
Definition when (b : bool) (c : M unit) : M unit := if b then c else ret tt.
Definition still_running {A : Type} : M A := fun s => Waiting s.

(** The state a run ends in, when it ends in one. *)
Definition final_state {A : Type} (r : Result A) : option State :=
  match r with
  | Returned _ s => Some s
  | Aborted s => Some s
  | Undefined => None
  | Waiting s => Some s
  end.

(** ** C strings and snprintf *)

Definition NUL : ascii := Ascii.zero.

(** The C string that starts at the first byte of [bytes]. *)
Fixpoint c_str (bytes : string) : string :=
  match bytes with
  | EmptyString => EmptyString
  | String c rest => if Ascii.eqb c NUL then EmptyString else String c (c_str rest)
  end.

Fixpoint take (n : nat) (s : string) : string :=
  match n, s with
  | O, _ => EmptyString
  | S n', String c rest => String c (take n' rest)
  | S _, EmptyString => EmptyString
  end.

(** [snprintf(buf, size, ...)] for an expanded format [text]: the return
    value is the length of [text], the buffer holds the first [size - 1]
    characters. *)
Definition snprintf (size : nat) (text : string) : Z * string :=
  (Z.of_nat (String.length text), take (Nat.pred size) text).

(** The conversion ["%d"]. *)
Definition fmt_d (n : Z) : string := NilZero.string_of_int (Z.to_int n).

(** The conversion ["%02X"] of a [uint8_t]. *)
Definition hex_digit (d : Z) : ascii :=
  if d <? 10 then ascii_of_nat (Z.to_nat (48 + d)) else ascii_of_nat (Z.to_nat (55 + d)).

Definition fmt_02X (n : Z) : string :=
  String (hex_digit (n / 16)) (String (hex_digit (n mod 16)) EmptyString).

Definition dquote : string := String (ascii_of_nat 34) EmptyString.

(** [s] between double quotes. *)
Definition quoted (s : string) : string := dquote ++ s ++ dquote.

(** ** Device-twin reports *)

(** [IoTHubDeviceClient_LL_SendReportedState]: the report is queued by
    the SDK; its return value only selects a log line. *)
Definition IoTHubDeviceClient_LL_SendReportedState (h : handle) (reported : string) : M unit :=
  call (Call_SendReportedState h reported).

Definition TwinReportBoolState (propertyName : string) (propertyValue : bool) : M unit :=
  h <- gets iothubClientHandle ;;
  match h with
  | None => ret tt
  | Some h =>
      let '(len, reportedPropertiesString) :=
        snprintf 30 ("{" ++ quoted propertyName ++ ":"
                         ++ (if propertyValue then "true" else "false") ++ "}") in
      if len <? 0 then ret tt
      else IoTHubDeviceClient_LL_SendReportedState h reportedPropertiesString
  end.

Definition TwinReportStringState (propertyName propertyValue : string) : M unit :=
  h <- gets iothubClientHandle ;;
  match h with
  | None => ret tt
  | Some h =>
      let '(len, reportedPropertiesString) :=
        snprintf 40 ("{" ++ quoted propertyName ++ ":" ++ quoted propertyValue ++ "}") in
      if len <? 0 then ret tt
      else IoTHubDeviceClient_LL_SendReportedState h reportedPropertiesString
  end.

(** ** Connection status callback *)

Definition HubConnectionStatusCallback
    (result : IOTHUB_CLIENT_CONNECTION_STATUS)
    (reason : IOTHUB_CLIENT_CONNECTION_STATUS_REASON) : M unit :=
  modify (set_iothubAuthenticated (is_CONNECTION_AUTHENTICATED result)) ;;
  authenticated <- gets iothubAuthenticated ;;
  when authenticated
    (revision <- gets max30102_revision ;;
     part_id <- gets max30102_part_id ;;
     let max30102_revision_string := snd (snprintf 10 ("0x" ++ fmt_02X revision)) in
     let max30102_part_id_string := snd (snprintf 10 ("0x" ++ fmt_02X part_id)) in
     TwinReportStringState "max30102_revision" max30102_revision_string ;;
     TwinReportStringState "max30102_part_id" max30102_part_id_string).

(** ** Provisioning *)

(** What the provisioning service answers to one attempt: the result, the
    handle it leaves in [iothubClientHandle], and whether the following
    [IoTHubDeviceClient_LL_SetOption] returns [IOTHUB_CLIENT_OK]. *)
Record ProvisioningOutcome : Type := {
  prov_result : AZURE_SPHERE_PROV_RESULT;
  prov_handle : option handle;
  setoption_ok : bool
}.

(** Destroying a handle drops the callbacks registered on it. *)
Definition IoTHubDeviceClient_LL_Destroy (h : handle) : M unit :=
  call (Call_Destroy h) ;;
  modify (set_twinCallbackSet false) ;;
  modify (set_connectionStatusCallbackSet false).

(** The request for a client: what the service does with the scope id
    and the timeout it is given is its answer [o].  The scope id is kept
    with the descriptors ([scopeId] of [Peripherals]) and the service's
    read of that buffer is not followed here. *)
Definition IoTHubDeviceClient_LL_CreateWithAzureSphereDeviceAuthProvisioning
    (o : ProvisioningOutcome) : M AZURE_SPHERE_PROV_RESULT :=
  call Call_CreateWithAzureSphereDeviceAuthProvisioning ;;
  modify (set_iothubClientHandle (prov_handle o)) ;;
  modify (set_twinCallbackSet false) ;;
  modify (set_connectionStatusCallbackSet false) ;;
  ret (prov_result o).

Definition SetTimerFdToPeriod_azureTimerFd (seconds : Z) : M unit :=
  call (Call_SetTimerFdToPeriod seconds) ;;
  modify (set_azureTimerPeriodSeconds seconds).

Definition IoTHubDeviceClient_LL_SetOption_KEEP_ALIVE (o : ProvisioningOutcome) : M bool :=
  h <- gets iothubClientHandle ;;
  call (Call_SetOption_KEEP_ALIVE h) ;;
  ret (setoption_ok o).

Definition IoTHubDeviceClient_LL_SetDeviceTwinCallback : M unit :=
  h <- gets iothubClientHandle ;;
  call (Call_SetDeviceTwinCallback h) ;;
  match h with
  | Some _ => modify (set_twinCallbackSet true)
  | None => ret tt
  end.

Definition IoTHubDeviceClient_LL_SetConnectionStatusCallback : M unit :=
  h <- gets iothubClientHandle ;;
  call (Call_SetConnectionStatusCallback h) ;;
  match h with
  | Some _ => modify (set_connectionStatusCallbackSet true)
  | None => ret tt
  end.

Definition SetupAzureClient (o : ProvisioningOutcome) : M unit :=
  old <- gets iothubClientHandle ;;
  match old with
  | Some h => IoTHubDeviceClient_LL_Destroy h
  | None => ret tt
  end ;;
  provResult <- IoTHubDeviceClient_LL_CreateWithAzureSphereDeviceAuthProvisioning o ;;
  if negb (is_PROV_RESULT_OK provResult) then
    period <- gets azureIoTPollPeriodSeconds ;;
    (if period =? AzureIoTDefaultPollPeriodSeconds then
       modify (set_azureIoTPollPeriodSeconds AzureIoTMinReconnectPeriodSeconds)
     else
       modify (set_azureIoTPollPeriodSeconds (wrap32 (period * 2))) ;;
       doubled <- gets azureIoTPollPeriodSeconds ;;
       when (doubled >? AzureIoTMaxReconnectPeriodSeconds)
         (modify (set_azureIoTPollPeriodSeconds AzureIoTMaxReconnectPeriodSeconds))) ;;
    period <- gets azureIoTPollPeriodSeconds ;;
    SetTimerFdToPeriod_azureTimerFd period
  else
    modify (set_azureIoTPollPeriodSeconds AzureIoTDefaultPollPeriodSeconds) ;;
    period <- gets azureIoTPollPeriodSeconds ;;
    SetTimerFdToPeriod_azureTimerFd period ;;
    modify (set_iothubAuthenticated true) ;;
    ok <- IoTHubDeviceClient_LL_SetOption_KEEP_ALIVE o ;;
    if negb ok then ret tt
    else
      IoTHubDeviceClient_LL_SetDeviceTwinCallback ;;
      IoTHubDeviceClient_LL_SetConnectionStatusCallback.

(** ** Telemetry *)

(** [SendTelemetry(key, value)].  [created] tells whether
    [IoTHubMessage_CreateFromString] returned a message handle; the return
    value of [IoTHubDeviceClient_LL_SendEventAsync] only selects a log line. *)
Definition SendTelemetry_eventBuffer (key value : string) : Z * string :=
  snprintf 100 ("{ " ++ quoted key ++ ": " ++ quoted value ++ " }").

Definition SendTelemetry (key value : string) (created : bool) : M unit :=
  let '(len, eventBuffer) := SendTelemetry_eventBuffer key value in
  if len <? 0 then ret tt
  else if negb created then ret tt
  else
    h <- gets iothubClientHandle ;;
    call (Call_SendEventAsync h eventBuffer).

(** ** Single-precision floats *)

(** C [float] on the target is IEEE 754 binary32: precision 24, emax 128. *)
Definition float32 : Type := spec_float.

Definition f32_zero : float32 := S754_zero false.
Definition f32_add (x y : float32) : float32 := SFadd 24 128 x y.
Definition f32_div (x y : float32) : float32 := SFdiv 24 128 x y.

(** The conversion [(float)n] of an [int32_t]. *)
Definition f32_of_int32 (n : Z) : float32 := binary_normalize 24 128 n 0 false.

(** The float [m * 2^e]. *)
Definition f32_of_binary (m e : Z) : float32 := binary_normalize 24 128 m e false.

(** The integer nearest to [num / den], ties to even ([0 <= num], [0 < den]). *)
Definition round_half_even (num den : Z) : Z :=
  let q := num / den in
  let r := num mod den in
  match 2 * r ?= den with
  | Lt => q
  | Gt => q + 1
  | Eq => if Z.even q then q else q + 1
  end.

Definition two_digits (n : Z) : string :=
  String (hex_digit (n / 10)) (String (hex_digit (n mod 10)) EmptyString).

(** The conversion ["%3.2f"]: the value rounded to two decimals from its
    exact binary expansion (a [float] argument is promoted to [double]
    without change of value); the minimum width 3 never pads. *)
Definition fmt_3_2f (x : float32) : string :=
  match x with
  | S754_zero s => (if s then "-" else "") ++ "0.00"
  | S754_infinity s => if s then "-inf" else "inf"
  | S754_nan => "nan"
  | S754_finite s m e =>
      let hundredths :=
        if 0 <=? e then Z.pos m * 2 ^ e * 100
        else round_half_even (Z.pos m * 100) (2 ^ (- e)) in
      (if s then "-" else "") ++ fmt_d (hundredths / 100) ++ "."
        ++ two_digits (hundredths mod 100)
  end.

(** ** The acquisition run *)

(** One pass of the acquisition loop as the outside world decides it:
    the outputs of [rf_heart_rate_and_oxygen_saturation] for the filled
    buffers and the [tv_sec] that [gettimeofday] reads after it. *)
Record Window : Type := {
  n_spo2 : float32;
  ch_spo2_valid : Z;      (* int8_t *)
  n_heart_rate : Z;       (* int32_t *)
  ch_hr_valid : Z;        (* int8_t *)
  time_now : Z
}.

(** The locals [average_hr], [average_spo2], [nbr_readings]. *)
Record Accumulator : Type := {
  average_hr : Z;
  average_spo2 : float32;
  nbr_readings : Z
}.

Definition run_time : Z := 6.

Definition both_valid (w : Window) : bool :=
  negb (ch_hr_valid w =? 0) && negb (ch_spo2_valid w =? 0).

(** The body of the [while] loop after the buffers are filled. *)
Definition accumulate (acc : Accumulator) (w : Window) : Accumulator :=
  if both_valid w then
    {| average_hr := wrap32 (average_hr acc + n_heart_rate w);
       average_spo2 := f32_add (average_spo2 acc) (n_spo2 w);
       nbr_readings := wrap32 (nbr_readings acc + 1) |}
  else acc.

(** [while (difftime(time_now.tv_sec, time_start.tv_sec) < run_time)];
    [None] when the scripted windows run out before the time does. *)
Fixpoint acquisition_loop (time_start now : Z) (script : list Window)
    (acc : Accumulator) : option Accumulator :=
  if now - time_start <? run_time then
    match script with
    | [] => None
    | w :: rest => acquisition_loop time_start (time_now w) rest (accumulate acc w)
    end
  else Some acc.

(** ** The button *)

(** Button is pressed if it is low and different than last known state. *)
Definition button_edge (oldState newState : GPIO_Value_Type) : bool :=
  negb (GPIO_Value_eqb newState oldState) && GPIO_Value_eqb newState GPIO_Value_Low.

(** [IsButtonPressed(fd, oldState)]: [result] and [newState] are what
    [GPIO_GetValue(fd, &newState)] gives, [oldState] is passed as its
    reader and writer. *)
Definition IsButtonPressed (result : Z) (newState : GPIO_Value_Type)
    (get_oldState : State -> GPIO_Value_Type)
    (set_oldState : GPIO_Value_Type -> State -> State) : M bool :=
  if negb (result =? 0) then
    modify (set_terminationRequired true) ;;
    ret false
  else
    oldState <- gets get_oldState ;;
    let isButtonPressed := button_edge oldState newState in
    modify (set_oldState newState) ;;
    ret isButtonPressed.

(** What one button poll reads from the outside world. *)
Record ButtonPollInput : Type := {
  consume_buttonPollTimerFd : Z;     (* ConsumeTimerFdEvent(buttonPollTimerFd) *)
  gpio_result : Z;                   (* GPIO_GetValue(sendTelemetryButtonGpioFd, ..) *)
  gpio_value : GPIO_Value_Type;
  time_start : Z;                    (* gettimeofday(&time_start, NULL) *)
  windows : list Window;
  heart_rate_message_created : bool;
  spo2_message_created : bool
}.

Definition SendTelemetryButtonHandler (i : ButtonPollInput) : M unit :=
  pressed <- IsButtonPressed (gpio_result i) (gpio_value i)
               sendTelemetryButtonState set_sendTelemetryButtonState ;;
  when pressed
    (call Call_max30102_init ;;
     match acquisition_loop (time_start i) (time_start i) (windows i)
             {| average_hr := 0; average_spo2 := f32_zero; nbr_readings := 0 |} with
     | None => still_running
     | Some acc =>
         when (nbr_readings acc >? 0)
           (let '(n_heart_rate_string_len, n_heart_rate_string) :=
              snprintf 10 (fmt_d (Z.quot (average_hr acc) (nbr_readings acc))) in
            when (n_heart_rate_string_len >? 0)
              (SendTelemetry "Heart_rate" n_heart_rate_string
                 (heart_rate_message_created i)) ;;
            let '(n_spo2_string_len, n_spo2_string) :=
              snprintf 10 (fmt_3_2f (f32_div (average_spo2 acc)
                                       (f32_of_int32 (nbr_readings acc)))) in
            when (n_spo2_string_len >? 0)
              (SendTelemetry "SpO2" n_spo2_string (spo2_message_created i))) ;;
         call Call_max30102_shut_down
     end).

Definition ButtonPollTimerEventHandler (i : ButtonPollInput) : M unit :=
  if negb (consume_buttonPollTimerFd i =? 0) then
    modify (set_terminationRequired true)
  else SendTelemetryButtonHandler i.

(** ** JSON documents (parson) *)

(** Modelled from the spec: parson's [JSON_Value] (parson.c is not under
    src/).  A document is a tree of nulls, strings, numbers, booleans,
    arrays and objects; an object is the list of its members in document
    order. *)
#[local] Unset Elimination Schemes.
Inductive JSON_Value : Type :=
| JSONNull
| JSONString (s : string)
| JSONNumber (n : float32)
| JSONBoolean (b : bool)
| JSONArray (items : list JSON_Value)
| JSONObject (members : list (string * JSON_Value)).
#[local] Set Elimination Schemes.

(** A [JSON_Object *]; NULL is [None]. *)
Definition JSON_Object : Type := option (list (string * JSON_Value)).

(** Modelled from the spec: parson's [json_value_get_object], NULL unless
    the value is an object. *)
Definition json_value_get_object (v : option JSON_Value) : JSON_Object :=
  match v with
  | Some (JSONObject members) => Some members
  | _ => None
  end.

Fixpoint lookup_member (name : string) (members : list (string * JSON_Value))
    : option JSON_Value :=
  match members with
  | [] => None
  | (k, v) :: rest => if String.eqb k name then Some v else lookup_member name rest
  end.

(** Modelled from the spec: parson's [json_object_get_value], the member
    of that name, NULL when the object is NULL or has no such member. *)
Definition json_object_get_value (object : JSON_Object) (name : string)
    : option JSON_Value :=
  match object with
  | Some members => lookup_member name members
  | None => None
  end.

(** Modelled from the spec: parson's dotted lookup, which descends one
    object per ["."] of the name. *)
Fixpoint dotget_from (object : JSON_Object) (segment name : string)
    : option JSON_Value :=
  match name with
  | EmptyString => json_object_get_value object segment
  | String c rest =>
      if Ascii.eqb c "."%char then
        dotget_from (json_value_get_object (json_object_get_value object segment))
          EmptyString rest
      else dotget_from object (segment ++ String c EmptyString) rest
  end.

Definition json_object_dotget_object (object : JSON_Object) (name : string)
    : JSON_Object :=
  json_value_get_object (dotget_from object EmptyString name).

(** Modelled from the spec: parson's [json_object_get_boolean], 1 or 0 for
    a boolean member and the error result -1 for a missing member or a
    member of another type. *)
Definition json_object_get_boolean (object : JSON_Object) (name : string) : Z :=
  match json_object_get_value object name with
  | Some (JSONBoolean true) => 1
  | Some (JSONBoolean false) => 0
  | _ => -1
  end.

(** Modelled from the spec: parson's [json_object_get_string], NULL unless
    the member is a string. *)
Definition json_object_get_string (object : JSON_Object) (name : string)
    : option string :=
  match json_object_get_value object name with
  | Some (JSONString s) => Some s
  | _ => None
  end.

(** The conversion [(bool)n] of an [int]. *)
Definition bool_of_int (n : Z) : bool := negb (n =? 0).

(** ** Device-twin updates *)

Definition GPIO_SetValue_deviceTwinStatusLedGpioFd (v : GPIO_Value_Type) : M unit :=
  call (Call_GPIO_SetValue_StatusLed v) ;;
  modify (set_statusLedGpio v).

(** [strcpy(nprId, src)] into [char nprId[12]]. *)
Definition strcpy_nprId (src : option string) : M unit :=
  match src with
  | None => undefined_behaviour
  | Some text =>
      if (String.length (c_str text) <? 12)%nat then modify (set_nprId (c_str text))
      else undefined_behaviour
  end.

(** The object the desired properties are read from: the member
    ["desired"] of the root when it is an object, the root otherwise. *)
Definition desired_properties (rootProperties : JSON_Value) : JSON_Object :=
  let rootObject := json_value_get_object (Some rootProperties) in
  match json_object_dotget_object rootObject "desired" with
  | None => rootObject
  | Some desired => Some desired
  end.

(** The desired property ["StatusLED"] (the first block of
    "Handle the Device Twin Desired Properties here"). *)
Definition apply_StatusLED (desiredProperties : JSON_Object) : M unit :=
  match json_object_dotget_object desiredProperties "StatusLED" with
  | Some LEDState =>
      modify (set_statusLedOn
                (bool_of_int (json_object_get_boolean (Some LEDState) "value"))) ;;
      on <- gets statusLedOn ;;
      GPIO_SetValue_deviceTwinStatusLedGpioFd
        (if on then GPIO_Value_Low else GPIO_Value_High) ;;
      TwinReportBoolState "StatusLED" on
  | None => ret tt
  end.

(** The desired property ["nprId"] (the second block). *)
Definition apply_nprId (desiredProperties : JSON_Object) : M unit :=
  match json_object_dotget_object desiredProperties "nprId" with
  | Some nprIdState =>
      strcpy_nprId (json_object_get_string (Some nprIdState) "value") ;;
      id <- gets nprId ;;
      TwinReportStringState "nprId" id ;;
      TwinReportStringState "nprId_property" id
  | None => ret tt
  end.

(** What the SDK may deliver while it does its work. *)
Inductive SdkCallback : Type :=
| ConnectionStatus (result : IOTHUB_CLIENT_CONNECTION_STATUS)
    (reason : IOTHUB_CLIENT_CONNECTION_STATUS_REASON)
| TwinUpdate (payload : string) (malloc_ok : bool).

(** One turn of the dispatcher's wait. *)
Inductive Dispatch : Type :=
| Wait_failed
| Wait_interrupted (sigterm : bool)
| Ready_buttonPollTimer (i : ButtonPollInput)
| Ready_azureTimer
    (consume_azureTimerFd : Z)          (* ConsumeTimerFdEvent(azureTimerFd) *)
    (networking_result : Z)             (* Networking_IsNetworkingReady(..) *)
    (isNetworkReady : bool)             (* what it stores on success *)
    (provisioning : ProvisioningOutcome)
    (delivered : list SdkCallback).

Section Handlers.

(** parson's [json_parse_string]: the document of a text, NULL ([None])
    when the text is not JSON. *)
Variable json_parse_string : string -> option JSON_Value.

(** [TwinCallback(updateState, payload, payloadSize, ctx)]; [malloc_ok]
    tells whether the buffer for the terminated copy was allocated. *)
Definition TwinCallback (payload : string) (malloc_ok : bool) : M unit :=
  if negb malloc_ok then abort
  else
    let nullTerminatedJsonString := c_str payload in
    match json_parse_string nullTerminatedJsonString with
    | None => ret tt
    | Some rootProperties =>
        let desiredProperties := desired_properties rootProperties in
        apply_StatusLED desiredProperties ;;
        apply_nprId desiredProperties
    end.

(** The SDK calls back only what was registered on the handle. *)
Definition deliver (cb : SdkCallback) : M unit :=
  match cb with
  | ConnectionStatus result reason =>
      registered <- gets connectionStatusCallbackSet ;;
      when registered (HubConnectionStatusCallback result reason)
  | TwinUpdate payload malloc_ok =>
      registered <- gets twinCallbackSet ;;
      when registered (TwinCallback payload malloc_ok)
  end.

Fixpoint deliver_all (cbs : list SdkCallback) : M unit :=
  match cbs with
  | [] => ret tt
  | cb :: rest => deliver cb ;; deliver_all rest
  end.

(** [IoTHubDeviceClient_LL_DoWork]: the SDK sends what is queued and
    runs the callbacks for what it received. *)
Definition IoTHubDeviceClient_LL_DoWork (delivered : list SdkCallback) : M unit :=
  h <- gets iothubClientHandle ;;
  call (Call_DoWork h) ;;
  deliver_all delivered.

Definition AzureTimerEventHandler (consume_azureTimerFd networking_result : Z)
    (isNetworkReady : bool) (provisioning : ProvisioningOutcome)
    (delivered : list SdkCallback) : M unit :=
  if negb (consume_azureTimerFd =? 0) then
    modify (set_terminationRequired true)
  else
    (if negb (networking_result =? -1) then
       authenticated <- gets iothubAuthenticated ;;
       when (isNetworkReady && negb authenticated) (SetupAzureClient provisioning)
     else ret tt) ;;
    authenticated <- gets iothubAuthenticated ;;
    when authenticated (IoTHubDeviceClient_LL_DoWork delivered).

(** Modelled from the spec: the dispatcher's [WaitForEventAndCallHandler]
    (epoll_timerfd_utilities.c is not under src/): it fails when the wait
    fails, and otherwise runs the handler of the one ready source to
    completion and returns 0.  A wait interrupted by a signal returns 0
    with no handler run; on SIGTERM [TerminationHandler] has set the flag. *)
Definition WaitForEventAndCallHandler (d : Dispatch) : M Z :=
  match d with
  | Wait_failed => ret (-1)
  | Wait_interrupted sigterm =>
      when sigterm (modify (set_terminationRequired true)) ;;
      ret 0
  | Ready_buttonPollTimer i => ButtonPollTimerEventHandler i ;; ret 0
  | Ready_azureTimer c n r p cbs => AzureTimerEventHandler c n r p cbs ;; ret 0
  end.

(** The main loop of [main]; it returns the turns it did not take. *)
Fixpoint main_loop (script : list Dispatch) : M (list Dispatch) :=
  stop <- gets terminationRequired ;;
  if stop then ret script
  else
    match script with
    | [] => still_running
    | d :: rest =>
        r <- WaitForEventAndCallHandler d ;;
        when (negb (r =? 0)) (modify (set_terminationRequired true)) ;;
        main_loop rest
    end.

End Handlers.

(** ** Scenarios and specification-side definitions *)

(** A tick of the Azure timer with the timer read, the network ready and
    nothing delivered by the SDK. *)
Definition provisioning_tick (json_parse_string : string -> option JSON_Value)
    (o : ProvisioningOutcome) : M unit :=
  AzureTimerEventHandler json_parse_string 0 0 true o [].

Fixpoint provisioning_ticks (json_parse_string : string -> option JSON_Value)
    (outcomes : list ProvisioningOutcome) : M unit :=
  match outcomes with
  | [] => ret tt
  | o :: rest =>
      provisioning_tick json_parse_string o ;;
      provisioning_ticks json_parse_string rest
  end.

Definition failed (o : ProvisioningOutcome) : Prop :=
  prov_result o <> AZURE_SPHERE_PROV_RESULT_OK.

(** How one failed attempt moves the poll period in [SetupAzureClient]. *)
Definition next_period_on_failure (period : Z) : Z :=
  if period =? AzureIoTDefaultPollPeriodSeconds then AzureIoTMinReconnectPeriodSeconds
  else
    let doubled := wrap32 (period * 2) in
    if doubled >? AzureIoTMaxReconnectPeriodSeconds then AzureIoTMaxReconnectPeriodSeconds
    else doubled.

(** The backoff period the specification gives after [n] consecutive
    failures: the default before any, the minimum on the first, doubled on
    each further one, capped at the maximum. *)
Definition spec_BackoffPeriod (n : nat) : Z :=
  match n with
  | O => AzureIoTDefaultPollPeriodSeconds
  | S k => Z.min (AzureIoTMinReconnectPeriodSeconds * 2 ^ Z.of_nat k)
                 AzureIoTMaxReconnectPeriodSeconds
  end.

(** The backoff period the code holds after [n] consecutive failures. *)
Definition code_BackoffPeriod (n : nat) : Z :=
  match n with
  | O => AzureIoTDefaultPollPeriodSeconds
  | S _ => if Nat.odd n then AzureIoTMinReconnectPeriodSeconds
           else AzureIoTDefaultPollPeriodSeconds
  end.

Definition generic_failure : ProvisioningOutcome :=
  {| prov_result := AZURE_SPHERE_PROV_RESULT_GENERIC_ERROR;
     prov_handle := None;
     setoption_ok := false |}.

Definition provisioned (h : handle) : ProvisioningOutcome :=
  {| prov_result := AZURE_SPHERE_PROV_RESULT_OK;
     prov_handle := Some h;
     setoption_ok := true |}.

(** A parser that knows no document. *)
Definition no_parser (text : string) : option JSON_Value := None.

(** Calls that belong to a provisioning attempt or reprogram the timer. *)
Definition is_provisioning_call (c : Call) : bool :=
  match c with
  | Call_Destroy _
  | Call_CreateWithAzureSphereDeviceAuthProvisioning
  | Call_SetTimerFdToPeriod _
  | Call_SetOption_KEEP_ALIVE _
  | Call_SetDeviceTwinCallback _
  | Call_SetConnectionStatusCallback _ => true
  | _ => false
  end.

Definition is_DoWork_call (c : Call) : bool :=
  match c with
  | Call_DoWork _ => true
  | _ => false
  end.

(** The backoff state is the same in [s] and [s']: same poll period, same
    timer period, no provisioning call made in between. *)
Definition same_backoff (s s' : State) : Prop :=
  azureIoTPollPeriodSeconds s' = azureIoTPollPeriodSeconds s
  /\ azureTimerPeriodSeconds s' = azureTimerPeriodSeconds s
  /\ filter is_provisioning_call (calls s') = filter is_provisioning_call (calls s).

(** No call of [IoTHubDeviceClient_LL_DoWork] was made between [s] and [s']. *)
Definition same_DoWork_calls (s s' : State) : Prop :=
  filter is_DoWork_call (calls s') = filter is_DoWork_call (calls s).

Definition same_ConnectionState (s s' : State) : Prop :=
  iothubAuthenticated s' = iothubAuthenticated s.

Definition is_ConnectionStatus (cb : SdkCallback) : bool :=
  match cb with
  | ConnectionStatus _ _ => true
  | TwinUpdate _ _ => false
  end.

(** A program keeps the relation [R] between the state it starts in and
    every state it ends in. *)
Definition preserves (R : State -> State -> Prop) {A : Type} (c : M A) : Prop :=
  forall s s', final_state (c s) = Some s' -> R s s'.

(** A state in which the client is authenticated on handle 1, with both
    callbacks registered. *)
Definition authenticated_example : State :=
  {| terminationRequired := false;
     iothubClientHandle := Some 1%positive;
     iothubAuthenticated := true;
     statusLedOn := false;
     statusLedGpio := GPIO_Value_High;
     azureIoTPollPeriodSeconds := AzureIoTDefaultPollPeriodSeconds;
     azureTimerPeriodSeconds := AzureIoTDefaultPollPeriodSeconds;
     nprId := "";
     sendTelemetryButtonState := GPIO_Value_High;
     max30102_revision := 3;
     max30102_part_id := 21;
     twinCallbackSet := true;
     connectionStatusCallbackSet := true;
     calls := [] |}.

(** The twin payload [{"StatusLED":{"value":b}}] and its document. *)
Definition StatusLED_payload (b : bool) : string :=
  "{" ++ quoted "StatusLED" ++ ":{" ++ quoted "value" ++ ":"
      ++ (if b then "true" else "false") ++ "}}".

Definition StatusLED_document (b : bool) : JSON_Value :=
  JSONObject [("StatusLED", JSONObject [("value", JSONBoolean b)])].

(** Twin payloads whose StatusLED has no ["value"], or a string for it. *)
Definition StatusLED_without_value_payload : string :=
  "{" ++ quoted "StatusLED" ++ ":{}}".

Definition StatusLED_string_value_payload : string :=
  "{" ++ quoted "StatusLED" ++ ":{" ++ quoted "value" ++ ":" ++ quoted "on" ++ "}}".

(** A parser that knows these four texts. *)
Definition example_parser (text : string) : option JSON_Value :=
  if String.eqb text (StatusLED_payload true) then Some (StatusLED_document true)
  else if String.eqb text (StatusLED_payload false) then Some (StatusLED_document false)
  else if String.eqb text StatusLED_without_value_payload
       then Some (JSONObject [("StatusLED", JSONObject [])])
  else if String.eqb text StatusLED_string_value_payload
       then Some (JSONObject [("StatusLED", JSONObject [("value", JSONString "on")])])
  else None.

(** The state after the property StatusLED was applied with value [on]
    on the client handle [h]: the flag, the LED (on is low), the report. *)
Definition StatusLED_applied (on : bool) (h : handle) (s : State) : State :=
  add_call (Call_SendReportedState h
              ("{" ++ quoted "StatusLED" ++ ":" ++ (if on then "true" else "false") ++ "}"))
    (set_statusLedGpio (if on then GPIO_Value_Low else GPIO_Value_High)
       (add_call (Call_GPIO_SetValue_StatusLed
                    (if on then GPIO_Value_Low else GPIO_Value_High))
          (set_statusLedOn on s))).

(** The member ["value"] of a StatusLED object is there and is a boolean. *)
Definition value_is_boolean (LEDState : list (string * JSON_Value)) : bool :=
  match lookup_member "value" LEDState with
  | Some (JSONBoolean _) => true
  | _ => false
  end.

(** The LED is as in [s] and the calls of [s] are the first ones of [s']. *)
Definition same_StatusLED (s s' : State) : Prop :=
  statusLedOn s' = statusLedOn s
  /\ statusLedGpio s' = statusLedGpio s
  /\ exists more, calls s' = (calls s ++ more)%list.

(** Successive polls of the telemetry button that read the levels
    [levels]; the value is the number of polls that reported a press. *)
Fixpoint poll_levels (levels : list GPIO_Value_Type) : M nat :=
  match levels with
  | [] => ret O
  | level :: rest =>
      pressed <- IsButtonPressed 0 level
                   sendTelemetryButtonState set_sendTelemetryButtonState ;;
      presses <- poll_levels rest ;;
      ret (if pressed then S presses else presses)
  end.

(** The number of steps from high to low in the sequence [last :: levels]. *)
Fixpoint high_to_low_transitions (last : GPIO_Value_Type)
    (levels : list GPIO_Value_Type) : nat :=
  match levels with
  | [] => O
  | level :: rest =>
      (match last, level with
       | GPIO_Value_High, GPIO_Value_Low => 1
       | _, _ => 0
       end + high_to_low_transitions level rest)%nat
  end.

(** A poll of the button on which the read of the GPIO fails. *)
Definition failing_button_poll : ButtonPollInput :=
  {| consume_buttonPollTimerFd := 0;
     gpio_result := -1;
     gpio_value := GPIO_Value_High;
     time_start := 0;
     windows := [];
     heart_rate_message_created := true;
     spo2_message_created := true |}.

(** The accumulator at the start of a run. *)
Definition empty_accumulator : Accumulator :=
  {| average_hr := 0; average_spo2 := f32_zero; nbr_readings := 0 |}.

(** Sums over windows: the heart rates as integers, the SpO2 values as
    floats added from the left in the order of the windows. *)
Definition sum_heart_rate (ws : list Window) : Z :=
  fold_right (fun w total => n_heart_rate w + total) 0 ws.

Definition sum_spo2_from (start : float32) (ws : list Window) : float32 :=
  fold_left (fun total w => f32_add total (n_spo2 w)) ws start.

Definition sum_spo2 (ws : list Window) : float32 := sum_spo2_from f32_zero ws.

(** The button is read low after it was last seen high. *)
Definition press_detected (i : ButtonPollInput) (s : State) : Prop :=
  consume_buttonPollTimerFd i = 0
  /\ gpio_result i = 0
  /\ gpio_value i = GPIO_Value_Low
  /\ sendTelemetryButtonState s = GPIO_Value_High.

(** The run of the poll [i] processes exactly the windows [ws ++ [wl]]:
    the clock read after each window of [ws] is within the run time of the
    start, the one read after [wl] is not. *)
Definition run_processes (i : ButtonPollInput) (ws : list Window) (wl : Window) : Prop :=
  windows i = (ws ++ [wl])%list
  /\ Forall (fun w => time_now w - time_start i < run_time) ws
  /\ run_time <= time_now wl - time_start i.

(** What the handler does after the acquisition loop when the loop leaves
    [count] valid windows with the sums [total_hr] and [total_spo2]. *)
Definition report_averages (i : ButtonPollInput) (total_hr : Z) (total_spo2 : float32)
    (count : Z) : M unit :=
  when (count >? 0)
    (SendTelemetry "Heart_rate" (snd (snprintf 10 (fmt_d (Z.quot total_hr count))))
       (heart_rate_message_created i) ;;
     SendTelemetry "SpO2"
       (snd (snprintf 10 (fmt_3_2f (f32_div total_spo2 (f32_of_int32 count)))))
       (spo2_message_created i)).

Definition is_SendEventAsync_call (c : Call) : bool :=
  match c with
  | Call_SendEventAsync _ _ => true
  | _ => false
  end.

(** The float 98.5. *)
Definition f32_98_5 : float32 := f32_of_binary 197 (-1).

(** A window with both results valid, heart rate 72 and SpO2 98.5, and a
    window with neither valid; [t] is the clock read after it. *)
Definition window_72_98_5 (t : Z) : Window :=
  {| n_spo2 := f32_98_5; ch_spo2_valid := 1;
     n_heart_rate := 72; ch_hr_valid := 1; time_now := t |}.

Definition window_invalid (t : Z) : Window :=
  {| n_spo2 := f32_of_int32 (-999); ch_spo2_valid := 0;
     n_heart_rate := -999; ch_hr_valid := 0; time_now := t |}.

(** A poll that detects a press at second 100 and whose run takes three
    windows, the first one invalid. *)
Definition example_press : ButtonPollInput :=
  {| consume_buttonPollTimerFd := 0;
     gpio_result := 0;
     gpio_value := GPIO_Value_Low;
     time_start := 100;
     windows := [window_invalid 102; window_72_98_5 104; window_72_98_5 106];
     heart_rate_message_created := true;
     spo2_message_created := true |}.

(** A poll that detects a press and whose run finds no valid window. *)
Definition example_press_without_finger : ButtonPollInput :=
  {| consume_buttonPollTimerFd := 0;
     gpio_result := 0;
     gpio_value := GPIO_Value_Low;
     time_start := 100;
     windows := [window_invalid 103; window_invalid 106];
     heart_rate_message_created := true;
     spo2_message_created := true |}.

(** The text [SendTelemetry] formats for a key and a value. *)
Definition code_telemetry_message (key value : string) : string :=
  "{ " ++ quoted key ++ ": " ++ quoted value ++ " }".

(** The telemetry message as the specification writes it, in general and
    in its end-to-end scenario. *)
Definition spec_telemetry_message (key value : string) : string :=
  "{" ++ quoted key ++ ": " ++ quoted value ++ "}".

Definition spec_scenario_message (key value : string) : string :=
  "{" ++ quoted key ++ ":" ++ quoted value ++ "}".

(** All valid windows of a run carry heart rate 72 and SpO2 98.5. *)
Definition valid_windows_72_98_5 (ws : list Window) : Prop :=
  Forall (fun w => both_valid w = true ->
                   n_heart_rate w = 72 /\ n_spo2 w = f32_98_5) ws.

(** The averages of 1 to [n] more values 98.5, added to [total] which
    holds [count] values already, all print as 98.50. *)
Fixpoint averages_print_98_50 (n : nat) (total : float32) (count : Z) : bool :=
  match n with
  | O => true
  | S n' =>
      let total' := f32_add total f32_98_5 in
      let count' := count + 1 in
      String.eqb (fmt_3_2f (f32_div total' (f32_of_int32 count'))) "98.50"
      && averages_print_98_50 n' total' count'
  end.

(** Callbacks are registered only on a client handle that exists. *)
Definition callbacks_on_handle (s : State) : Prop :=
  twinCallbackSet s = true \/ connectionStatusCallbackSet s = true ->
  iothubClientHandle s <> None.

Definition keeps_callbacks_on_handle (s s' : State) : Prop :=
  callbacks_on_handle s -> callbacks_on_handle s'.

(** ** Start-up and shutdown *)

(** [strncpy(dest, src, n)]: the [n] bytes left in [dest], the characters
    of [src] up to its terminator and NUL for the rest. *)
Fixpoint strncpy (n : nat) (src : string) : string :=
  match n with
  | O => EmptyString
  | S n' =>
      match src with
      | EmptyString => String NUL (strncpy n' EmptyString)
      | String c rest =>
          if Ascii.eqb c NUL then String NUL (strncpy n' EmptyString)
          else String c (strncpy n' rest)
      end
  end.

Definition SCOPEID_LENGTH : nat := 20.

(** The file descriptors of main.c, all initialised to -1. *)
Inductive Descriptor : Type :=
| epollFd
| sendMessageButtonGpioFd
| sendTelemetryButtonGpioFd
| deviceTwinStatusLedGpioFd
| buttonPollTimerFd
| azureTimerFd
| i2cFd
| intPinFd.

Definition Descriptor_eqb (a b : Descriptor) : bool :=
  match a, b with
  | epollFd, epollFd
  | sendMessageButtonGpioFd, sendMessageButtonGpioFd
  | sendTelemetryButtonGpioFd, sendTelemetryButtonGpioFd
  | deviceTwinStatusLedGpioFd, deviceTwinStatusLedGpioFd
  | buttonPollTimerFd, buttonPollTimerFd
  | azureTimerFd, azureTimerFd
  | i2cFd, i2cFd
  | intPinFd, intPinFd => true
  | _, _ => false
  end.

(** Calls on the peripherals that start-up and shutdown make besides
    opening descriptors. *)
Inductive PeripheralCall : Type :=
| P_I2CMaster_SetBusSpeed (fd : Z)
| P_I2CMaster_SetTimeout (fd : Z) (milliseconds : Z)
| P_maxim_max30102_i2c_setup
| P_CloseFdAndPrintError (fd : Z) (name : string).

Record Peripherals : Type := {
  fd : Descriptor -> Z;
  scopeId : string;                (* char scopeId[SCOPEID_LENGTH] *)
  io : list PeripheralCall
}.

Definition initial_peripherals : Peripherals :=
  {| fd := fun _ => -1;
     scopeId := strncpy SCOPEID_LENGTH EmptyString;
     io := [] |}.

Definition set_fd (d : Descriptor) (v : Z) (p : Peripherals) : Peripherals :=
  {| fd := fun d' => if Descriptor_eqb d' d then v else fd p d';
     scopeId := scopeId p;
     io := io p |}.

Definition set_scopeId (v : string) (p : Peripherals) : Peripherals :=
  {| fd := fd p; scopeId := v; io := io p |}.

Definition io_call (c : PeripheralCall) (p : Peripherals) : Peripherals :=
  {| fd := fd p; scopeId := scopeId p; io := (io p ++ [c])%list |}.

(** What the system answers during [InitPeripheralsAndHandlers]. *)
Record InitAnswers : Type := {
  CreateEpollFd : Z;
  GPIO_OpenAsInput_SAMPLE_BUTTON_1 : Z;
  GPIO_OpenAsInput_SAMPLE_BUTTON_2 : Z;
  GPIO_OpenAsOutput_SAMPLE_LED : Z;
  GPIO_OpenAsInput_MIKROE_INT : Z;
  I2CMaster_Open : Z;
  I2CMaster_SetBusSpeed : Z;
  max30102_get_revision : Z;                  (* uint8_t *)
  max30102_get_part_id : Z;                   (* uint8_t *)
  CreateTimerFdAndAddToEpoll_buttonPoll : Z;
  CreateTimerFdAndAddToEpoll_azure : Z
}.

(** [InitHR4]: the results of [I2CMaster_SetBusSpeed] and
    [I2CMaster_SetTimeout] only end the function early. *)
Definition InitHR4 (a : InitAnswers) (p : Peripherals) : Peripherals :=
  let p := set_fd intPinFd (GPIO_OpenAsInput_MIKROE_INT a) p in
  let p := set_fd i2cFd (I2CMaster_Open a) p in
  if fd p i2cFd <? 0 then p
  else
    let p := io_call (P_I2CMaster_SetBusSpeed (fd p i2cFd)) p in
    if negb (I2CMaster_SetBusSpeed a =? 0) then p
    else io_call (P_I2CMaster_SetTimeout (fd p i2cFd) 100) p.

(** The two sensor globals, written once at start-up. *)
Definition set_max30102_identity (revision part_id : Z) (s : State) : State :=
  mkState (terminationRequired s) (iothubClientHandle s) (iothubAuthenticated s)
    (statusLedOn s) (statusLedGpio s) (azureIoTPollPeriodSeconds s)
    (azureTimerPeriodSeconds s) (nprId s) (sendTelemetryButtonState s)
    revision part_id (twinCallbackSet s) (connectionStatusCallbackSet s) (calls s).

(** [InitPeripheralsAndHandlers]: 0 on success, -1 on failure.  The LED is
    opened high; the Azure timer is created with the default poll period
    and the test after it looks at [buttonPollTimerFd] again. *)
Definition InitPeripheralsAndHandlers (a : InitAnswers) (s : State) (p : Peripherals)
    : Z * State * Peripherals :=
  let p := set_fd epollFd (CreateEpollFd a) p in
  if fd p epollFd <? 0 then (-1, s, p)
  else
    let p := set_fd sendMessageButtonGpioFd (GPIO_OpenAsInput_SAMPLE_BUTTON_1 a) p in
    if fd p sendMessageButtonGpioFd <? 0 then (-1, s, p)
    else
      let p := set_fd sendTelemetryButtonGpioFd (GPIO_OpenAsInput_SAMPLE_BUTTON_2 a) p in
      if fd p sendTelemetryButtonGpioFd <? 0 then (-1, s, p)
      else
        let p := set_fd deviceTwinStatusLedGpioFd (GPIO_OpenAsOutput_SAMPLE_LED a) p in
        if fd p deviceTwinStatusLedGpioFd <? 0 then (-1, s, p)
        else
          let s := set_statusLedGpio GPIO_Value_High s in
          let p := InitHR4 a p in
          let p := io_call P_maxim_max30102_i2c_setup p in
          let s := set_max30102_identity (max30102_get_revision a)
                     (max30102_get_part_id a) s in
          let p := set_fd buttonPollTimerFd (CreateTimerFdAndAddToEpoll_buttonPoll a) p in
          if fd p buttonPollTimerFd <? 0 then (-1, s, p)
          else
            let s := set_azureIoTPollPeriodSeconds AzureIoTDefaultPollPeriodSeconds s in
            let p := set_fd azureTimerFd (CreateTimerFdAndAddToEpoll_azure a) p in
            let s := if fd p azureTimerFd <? 0 then s
                     else set_azureTimerPeriodSeconds (azureIoTPollPeriodSeconds s) s in
            if fd p buttonPollTimerFd <? 0 then (-1, s, p)
            else (0, s, p).

(** [ClosePeripheralsAndHandlers]: the LED is left off (high) when it was
    opened, then every descriptor goes to [CloseFdAndPrintError]. *)
Definition ClosePeripheralsAndHandlers (s : State) (p : Peripherals)
    : State * Peripherals :=
  let s :=
    if 0 <=? fd p deviceTwinStatusLedGpioFd then
      set_statusLedGpio GPIO_Value_High
        (add_call (Call_GPIO_SetValue_StatusLed GPIO_Value_High) s)
    else s in
  let p := io_call (P_CloseFdAndPrintError (fd p buttonPollTimerFd) "ButtonTimer") p in
  let p := io_call (P_CloseFdAndPrintError (fd p azureTimerFd) "AzureTimer") p in
  let p := io_call (P_CloseFdAndPrintError (fd p sendMessageButtonGpioFd)
                      "SendMessageButton") p in
  let p := io_call (P_CloseFdAndPrintError (fd p sendTelemetryButtonGpioFd)
                      "SendTelemetryButton") p in
  let p := io_call (P_CloseFdAndPrintError (fd p deviceTwinStatusLedGpioFd)
                      "StatusLed") p in
  let p := io_call (P_CloseFdAndPrintError (fd p intPinFd) "MIKROE_INT") p in
  let p := io_call (P_CloseFdAndPrintError (fd p i2cFd) "MIKROE_I2C") p in
  let p := io_call (P_CloseFdAndPrintError (fd p epollFd) "Epoll") p in
  (s, p).

(** How [main] ends: it returns a status, or the process ends inside the
    main loop (abort, undefined behaviour) or is still in it when the
    scripted turns run out. *)
Inductive MainResult : Type :=
| Main_returned (status : Z) (s : State) (p : Peripherals)
| Main_in_loop (r : Result (list Dispatch)) (p : Peripherals).

(** [main(argc, argv)] with [argc] the length of [argv]. *)
Definition main (json_parse_string : string -> option JSON_Value)
    (argv : list string) (a : InitAnswers) (script : list Dispatch) : MainResult :=
  match argv with
  | [_; scope] =>
      let p := set_scopeId (strncpy SCOPEID_LENGTH scope) initial_peripherals in
      let '(result, s, p) := InitPeripheralsAndHandlers a initial_globals p in
      let s := if negb (result =? 0) then set_terminationRequired true s else s in
      match main_loop json_parse_string script s with
      | Returned _ s =>
          let '(s, p) := ClosePeripheralsAndHandlers s p in
          Main_returned 0 s p
      | r => Main_in_loop r p
      end
  | _ => Main_returned (-1) initial_globals initial_peripherals
  end.

(** Answers with which start-up succeeds; descriptors 3 to 9. *)
Definition good_answers (revision part_id : Z) : InitAnswers :=
  {| CreateEpollFd := 3;
     GPIO_OpenAsInput_SAMPLE_BUTTON_1 := 4;
     GPIO_OpenAsInput_SAMPLE_BUTTON_2 := 5;
     GPIO_OpenAsOutput_SAMPLE_LED := 6;
     GPIO_OpenAsInput_MIKROE_INT := 7;
     I2CMaster_Open := 8;
     I2CMaster_SetBusSpeed := 0;
     max30102_get_revision := revision;
     max30102_get_part_id := part_id;
     CreateTimerFdAndAddToEpoll_buttonPoll := 9;
     CreateTimerFdAndAddToEpoll_azure := 10 |}.

(** The opens that [InitPeripheralsAndHandlers] tests. *)
Definition tested_opens_succeed (a : InitAnswers) : bool :=
  (0 <=? CreateEpollFd a)
  && (0 <=? GPIO_OpenAsInput_SAMPLE_BUTTON_1 a)
  && (0 <=? GPIO_OpenAsInput_SAMPLE_BUTTON_2 a)
  && (0 <=? GPIO_OpenAsOutput_SAMPLE_LED a)
  && (0 <=? CreateTimerFdAndAddToEpoll_buttonPoll a).

(** ** The reason of a connection status, for the log *)

Definition reason_name (reason : IOTHUB_CLIENT_CONNECTION_STATUS_REASON) : string :=
  match reason with
  | IOTHUB_CLIENT_CONNECTION_EXPIRED_SAS_TOKEN =>
      "IOTHUB_CLIENT_CONNECTION_EXPIRED_SAS_TOKEN"
  | IOTHUB_CLIENT_CONNECTION_DEVICE_DISABLED =>
      "IOTHUB_CLIENT_CONNECTION_DEVICE_DISABLED"
  | IOTHUB_CLIENT_CONNECTION_BAD_CREDENTIAL =>
      "IOTHUB_CLIENT_CONNECTION_BAD_CREDENTIAL"
  | IOTHUB_CLIENT_CONNECTION_RETRY_EXPIRED =>
      "IOTHUB_CLIENT_CONNECTION_RETRY_EXPIRED"
  | IOTHUB_CLIENT_CONNECTION_NO_NETWORK =>
      "IOTHUB_CLIENT_CONNECTION_NO_NETWORK"
  | IOTHUB_CLIENT_CONNECTION_COMMUNICATION_ERROR =>
      "IOTHUB_CLIENT_CONNECTION_COMMUNICATION_ERROR"
  | IOTHUB_CLIENT_CONNECTION_OK =>
      "IOTHUB_CLIENT_CONNECTION_OK"
  end.

(** [GetReasonString(reason)]: [reasonString] is the function's static
    variable, passed in and out; [None] is a reason code that the switch
    does not list. *)
Definition GetReasonString (reason : option IOTHUB_CLIENT_CONNECTION_STATUS_REASON)
    (reasonString : string) : string * string :=
  match reason with
  | Some r => (reason_name r, reason_name r)
  | None => (reasonString, reasonString)
  end.

(** The strings returned by successive calls, the static variable starting
    at its initialiser. *)
Fixpoint GetReasonString_calls
    (reasons : list (option IOTHUB_CLIENT_CONNECTION_STATUS_REASON))
    (reasonString : string) : list string :=
  match reasons with
  | [] => []
  | reason :: rest =>
      let '(returned, reasonString') := GetReasonString reason reasonString in
      returned :: GetReasonString_calls rest reasonString'
  end.

(** The name of the last listed reason among [reasons], the initialiser
    when there is none. *)
Fixpoint last_listed_reason
    (reasons : list (option IOTHUB_CLIENT_CONNECTION_STATUS_REASON))
    (default : string) : string :=
  match reasons with
  | [] => default
  | Some r :: rest => last_listed_reason rest (reason_name r)
  | None :: rest => last_listed_reason rest default
  end.

(** Answers with which the LED cannot be opened. *)
Definition answers_without_led : InitAnswers :=
  {| CreateEpollFd := 3;
     GPIO_OpenAsInput_SAMPLE_BUTTON_1 := 4;
     GPIO_OpenAsInput_SAMPLE_BUTTON_2 := 5;
     GPIO_OpenAsOutput_SAMPLE_LED := -1;
     GPIO_OpenAsInput_MIKROE_INT := 7;
     I2CMaster_Open := 8;
     I2CMaster_SetBusSpeed := 0;
     max30102_get_revision := 3;
     max30102_get_part_id := 21;
     CreateTimerFdAndAddToEpoll_buttonPoll := 9;
     CreateTimerFdAndAddToEpoll_azure := 10 |}.

(** A document in which no recognised property can be found: it is not an
    object, or it is one without members named desired, StatusLED and
    nprId. *)
Definition without_recognized_property (rootProperties : JSON_Value) : bool :=
  match rootProperties with
  | JSONObject members =>
      match lookup_member "desired" members, lookup_member "StatusLED" members,
            lookup_member "nprId" members with
      | None, None, None => true
      | _, _, _ => false
      end
  | _ => true
  end.

(** The report of a property with a string value. *)
Definition string_report (name value : string) : string :=
  "{" ++ quoted name ++ ":" ++ quoted value ++ "}".

(** A twin payload with the property nprId and the document of a parser
    for it. *)
Definition nprId_payload (value : string) : string :=
  "{" ++ quoted "nprId" ++ ":{" ++ quoted "value" ++ ":" ++ quoted value ++ "}}".

Definition nprId_document (value : string) : JSON_Value :=
  JSONObject [("nprId", JSONObject [("value", JSONString value)])].

Definition nprId_parser (text : string) : option JSON_Value :=
  if String.eqb text (nprId_payload "01019012345")
  then Some (nprId_document "01019012345")
  else if String.eqb text (nprId_payload "010190123456")
       then Some (nprId_document "010190123456")
  else if String.eqb text "{}" then Some (JSONObject [])
  else if String.eqb text ("{" ++ quoted "desired" ++ ":" ++ StatusLED_payload true ++ "}")
       then Some (JSONObject [("desired", StatusLED_document true)])
  else example_parser text.

(** A turn of the Azure timer whose timer event is consumed. *)
Definition is_azure_tick (d : Dispatch) : bool :=
  match d with
  | Ready_azureTimer consume_azureTimerFd _ _ _ _ => consume_azureTimerFd =? 0
  | _ => false
  end.

(** The turns that end the main loop by themselves: the wait fails, a
    SIGTERM interrupts it, or the handler cannot consume its timer event. *)
Definition fatal_turn (d : Dispatch) : bool :=
  match d with
  | Wait_failed => true
  | Wait_interrupted sigterm => sigterm
  | Ready_buttonPollTimer i => negb (consume_buttonPollTimerFd i =? 0)
  | Ready_azureTimer consume_azureTimerFd _ _ _ _ => negb (consume_azureTimerFd =? 0)
  end.

(** The Azure timer runs at the poll period, which is the minimum or the
    default. *)
Definition poll_period_invariant (s : State) : Prop :=
  azureTimerPeriodSeconds s = azureIoTPollPeriodSeconds s
  /\ (azureIoTPollPeriodSeconds s = AzureIoTMinReconnectPeriodSeconds
      \/ azureIoTPollPeriodSeconds s = AzureIoTDefaultPollPeriodSeconds).

Definition keeps_poll_period_invariant (s s' : State) : Prop :=
  poll_period_invariant s -> poll_period_invariant s'.

(** Provisioning succeeds on handle 1 but the keep-alive option cannot be
    set. *)
Definition provisioned_without_keepalive : ProvisioningOutcome :=
  {| prov_result := AZURE_SPHERE_PROV_RESULT_OK;
     prov_handle := Some 1%positive;
     setoption_ok := false |}.

(** ** The outcomes of a button poll *)

(** The state after the calls [cs] are made in this order. *)
Definition log_calls (cs : list Call) (s : State) : State :=
  fold_left (fun st c => add_call c st) cs s.

(** A telemetry send on [h]: a whole message of one of the two keys with
    a value of at most nine characters. *)
Definition is_telemetry_send (h : option handle) (c : Call) : Prop :=
  exists key value,
    (key = "Heart_rate" \/ key = "SpO2")
    /\ (1 <= String.length value <= 9)%nat
    /\ c = Call_SendEventAsync h (code_telemetry_message key value).

(** The clock read after the window is still within the run time. *)
Definition in_time (start : Z) (w : Window) : Prop :=
  time_now w - start < run_time.

(** ** Replacing the client *)

Definition is_Destroy_call (c : Call) : bool :=
  match c with
  | Call_Destroy _ => true
  | _ => false
  end.

(** The release of the client [old], if there is one. *)
Definition release_of (old : option handle) : list Call :=
  match old with
  | Some h => [Call_Destroy h]
  | None => []
  end.

(** ** Runs that do not reach [abort] *)

Definition never_aborts {A : Type} (c : M A) : Prop :=
  forall s s', c s <> Aborted s'.

(** A callback other than a twin update for which the copy of the payload
    cannot be allocated. *)
Definition allocated (cb : SdkCallback) : bool :=
  match cb with
  | ConnectionStatus _ _ => true
  | TwinUpdate _ malloc_ok => malloc_ok
  end.

Definition allocated_turn (d : Dispatch) : bool :=
  match d with
  | Ready_azureTimer _ _ _ _ delivered => forallb allocated delivered
  | _ => true
  end.

(** The calls of [CloseFdAndPrintError] that shutdown makes for the
    descriptors of [p], in the order of the source. *)
Definition close_calls (p : Peripherals) : list PeripheralCall :=
  [P_CloseFdAndPrintError (fd p buttonPollTimerFd) "ButtonTimer";
   P_CloseFdAndPrintError (fd p azureTimerFd) "AzureTimer";
   P_CloseFdAndPrintError (fd p sendMessageButtonGpioFd) "SendMessageButton";
   P_CloseFdAndPrintError (fd p sendTelemetryButtonGpioFd) "SendTelemetryButton";
   P_CloseFdAndPrintError (fd p deviceTwinStatusLedGpioFd) "StatusLed";
   P_CloseFdAndPrintError (fd p intPinFd) "MIKROE_INT";
   P_CloseFdAndPrintError (fd p i2cFd) "MIKROE_I2C";
   P_CloseFdAndPrintError (fd p epollFd) "Epoll"].

(** The poll period is the minimum or the default. *)
Definition poll_period_bounded (s : State) : Prop :=
  azureIoTPollPeriodSeconds s = AzureIoTMinReconnectPeriodSeconds
  \/ azureIoTPollPeriodSeconds s = AzureIoTDefaultPollPeriodSeconds.

Definition keeps_poll_period_bounded (s s' : State) : Prop :=
  poll_period_bounded s -> poll_period_bounded s'.

(** ** JSON texts up to insignificant blanks *)

(** The blanks that JSON allows between its tokens: space, tab, line
    feed, carriage return. *)
Definition is_json_blank (c : ascii) : bool :=
  Ascii.eqb c " "%char || Ascii.eqb c (ascii_of_nat 9)
  || Ascii.eqb c (ascii_of_nat 10) || Ascii.eqb c (ascii_of_nat 13).

Definition dquote_char : ascii := ascii_of_nat 34.
Definition backslash_char : ascii := ascii_of_nat 92.

(** The text without the blanks that stand outside its string literals;
    [in_string] and [escaped] tell where the reading stands. *)
Fixpoint json_compact_from (in_string escaped : bool) (text : string) : string :=
  match text with
  | EmptyString => EmptyString
  | String c rest =>
      if in_string then
        String c
          (if escaped then json_compact_from true false rest
           else if Ascii.eqb c dquote_char then json_compact_from false false rest
           else json_compact_from true (Ascii.eqb c backslash_char) rest)
      else if is_json_blank c then json_compact_from false false rest
      else String c (json_compact_from (Ascii.eqb c dquote_char) false rest)
  end.

Definition json_compact (text : string) : string :=
  json_compact_from false false text.

(** Two texts are the same JSON when they differ only in such blanks. *)
Definition same_json_text (a b : string) : Prop :=
  json_compact a = json_compact b.

(** A text that stands for itself between double quotes: it holds no
    double quote and no backslash. *)
Definition json_plain_char (c : ascii) : bool :=
  negb (Ascii.eqb c dquote_char) && negb (Ascii.eqb c backslash_char).

Fixpoint json_plain (text : string) : bool :=
  match text with
  | EmptyString => true
  | String c rest => json_plain_char c && json_plain rest
  end.

(** The call, if it is a telemetry send, carries a message that is the
    same JSON as the object [{"<key>": "<value>"}] of a key and a value
    that stand for themselves. *)
Definition sends_flat_object (c : Call) : Prop :=
  forall h message,
    c = Call_SendEventAsync h message ->
    exists key value,
      json_plain key = true /\ json_plain value = true
      /\ same_json_text message (spec_telemetry_message key value).

(** The calls of [s] are the first ones of [s'] and every telemetry send
    after them carries such a message. *)
Definition sends_flat_objects (s s' : State) : Prop :=
  exists new, calls s' = (calls s ++ new)%list /\ Forall sends_flat_object new.

(** * Properties *)

(** Symbolic execution of the monadic programs: [run] unfolds the monad
    and evaluates everything that is decided; [step] does the same but
    leaves named sub-programs folded. *)
Ltac run :=
  unfold call, when, bind, gets, modify, ret, abort, undefined_behaviour,
    still_running; cbn.

Ltac step :=
  unfold call, when, bind, gets, modify, ret, abort, undefined_behaviour,
    still_running;
  cbn [terminationRequired iothubClientHandle iothubAuthenticated
       statusLedOn statusLedGpio azureIoTPollPeriodSeconds
       azureTimerPeriodSeconds nprId sendTelemetryButtonState
       max30102_revision max30102_part_id twinCallbackSet
       connectionStatusCallbackSet calls
       set_terminationRequired set_iothubClientHandle
       set_iothubAuthenticated set_statusLedOn set_statusLedGpio
       set_azureIoTPollPeriodSeconds set_azureTimerPeriodSeconds
       set_nprId set_sendTelemetryButtonState set_twinCallbackSet
       set_connectionStatusCallbackSet add_call
       negb andb orb fst snd Z.eqb Pos.eqb].

(** ** Connection life cycle: provisioning and backoff *)

Lemma SetupAzureClient_failure (o : ProvisioningOutcome) (s : State) :
  failed o ->
  exists s',
    SetupAzureClient o s = Returned tt s'
    /\ azureIoTPollPeriodSeconds s' = next_period_on_failure (azureIoTPollPeriodSeconds s)
    /\ azureTimerPeriodSeconds s' = azureIoTPollPeriodSeconds s'
    /\ iothubAuthenticated s' = iothubAuthenticated s
    /\ twinCallbackSet s' = false
    /\ connectionStatusCallbackSet s' = false.
Proof.
  intros Hf. unfold failed in Hf.
  unfold SetupAzureClient, IoTHubDeviceClient_LL_CreateWithAzureSphereDeviceAuthProvisioning,
    IoTHubDeviceClient_LL_Destroy, SetTimerFdToPeriod_azureTimerFd, next_period_on_failure.
  destruct (prov_result o) eqn:Hr; try congruence; run.
  all: destruct (iothubClientHandle s); run.
  all: destruct (azureIoTPollPeriodSeconds s =? _) eqn:Hd; run.
  all: try (eexists; repeat split; reflexivity).
  all: destruct (wrap32 _ >? _) eqn:Hm; run; eexists; repeat split; reflexivity.
Qed.

Lemma SetupAzureClient_success (o : ProvisioningOutcome) (s : State) :
  prov_result o = AZURE_SPHERE_PROV_RESULT_OK ->
  exists s',
    SetupAzureClient o s = Returned tt s'
    /\ azureIoTPollPeriodSeconds s' = AzureIoTDefaultPollPeriodSeconds
    /\ azureTimerPeriodSeconds s' = AzureIoTDefaultPollPeriodSeconds
    /\ iothubAuthenticated s' = true
    /\ iothubClientHandle s' = prov_handle o
    /\ callbacks_on_handle s'.
Proof.
  intros Hr.
  destruct o as [r ph so]; cbn in Hr; subst r.
  destruct s as [t h a l g p tp n b rv pid tc cc cs].
  destruct h, so, ph.
  all: eexists; split; [vm_compute; reflexivity |].
  all: unfold callbacks_on_handle; vm_compute; repeat split;
    try discriminate; intros [H | H]; discriminate H.
Qed.

Lemma provisioning_tick_failure (json_parse_string : string -> option JSON_Value)
    (o : ProvisioningOutcome) (s : State) :
  failed o ->
  iothubAuthenticated s = false ->
  exists s',
    provisioning_tick json_parse_string o s = Returned tt s'
    /\ azureIoTPollPeriodSeconds s' = next_period_on_failure (azureIoTPollPeriodSeconds s)
    /\ azureTimerPeriodSeconds s' = azureIoTPollPeriodSeconds s'
    /\ iothubAuthenticated s' = false.
Proof.
  intros Hf Ha.
  destruct (SetupAzureClient_failure o s Hf) as (s' & Hrun & Hp & Ht & Hauth & _).
  exists s'. unfold provisioning_tick, AzureTimerEventHandler. step.
  rewrite Ha. step. rewrite Hrun. step. rewrite Hauth, Ha. auto.
Qed.

Lemma provisioning_ticks_failures (json_parse_string : string -> option JSON_Value)
    (outcomes : list ProvisioningOutcome) :
  Forall failed outcomes ->
  forall s,
    iothubAuthenticated s = false ->
    azureTimerPeriodSeconds s = azureIoTPollPeriodSeconds s ->
    exists s',
      provisioning_ticks json_parse_string outcomes s = Returned tt s'
      /\ azureIoTPollPeriodSeconds s'
         = Nat.iter (List.length outcomes) next_period_on_failure (azureIoTPollPeriodSeconds s)
      /\ azureTimerPeriodSeconds s' = azureIoTPollPeriodSeconds s'
      /\ iothubAuthenticated s' = false.
Proof.
  induction 1 as [| o rest Ho _ IH]; intros s Ha Ht.
  - exists s. cbn. auto.
  - destruct (provisioning_tick_failure json_parse_string o s Ho Ha)
      as (s1 & Hrun & Hp & Ht1 & Ha1).
    destruct (IH s1 Ha1 Ht1) as (s' & Hrun' & Hp' & Ht' & Ha').
    exists s'. cbn [provisioning_ticks List.length]. unfold bind at 1. rewrite Hrun.
    rewrite Nat.iter_succ_r, <- Hp. auto.
Qed.

Lemma iter_next_period_from_default (n : nat) :
  Nat.iter n next_period_on_failure AzureIoTDefaultPollPeriodSeconds = code_BackoffPeriod n.
Proof.
  induction n as [| n IH]; [reflexivity |].
  change (Nat.iter (S n) next_period_on_failure AzureIoTDefaultPollPeriodSeconds)
    with (next_period_on_failure
            (Nat.iter n next_period_on_failure AzureIoTDefaultPollPeriodSeconds)).
  rewrite IH. unfold code_BackoffPeriod.
  rewrite Nat.odd_succ, <- Nat.negb_odd.
  destruct n as [| n]; [reflexivity |].
  destruct (Nat.odd (S n)); reflexivity.
Qed.

(** C1 (what the code does): after [n] consecutive failed provisioning
    attempts from start-up the poll period and the timer hold 10 s when
    [n] is odd and 20 s when it is even: the doubled value 20 is taken for
    the default again, so the third failure gives 10 s where the
    specification gives 40 s, and the maximum is never reached.  A
    successful attempt then sets both to the default 20 s. *)
Theorem C1_backoff_period_after_failures
    (json_parse_string : string -> option JSON_Value)
    (outcomes : list ProvisioningOutcome) (revision part_id : Z) :
  Forall failed outcomes ->
  exists s,
    provisioning_ticks json_parse_string outcomes (started revision part_id)
      = Returned tt s
    /\ iothubAuthenticated s = false
    /\ azureIoTPollPeriodSeconds s = code_BackoffPeriod (List.length outcomes)
    /\ azureTimerPeriodSeconds s = code_BackoffPeriod (List.length outcomes)
    /\ (forall h, exists s',
          provisioning_tick json_parse_string (provisioned h) s
            = Returned tt (add_call (Call_DoWork (Some h)) s')
          /\ azureIoTPollPeriodSeconds s' = AzureIoTDefaultPollPeriodSeconds
          /\ iothubAuthenticated s' = true)
    /\ map code_BackoffPeriod [0; 1; 2; 3; 4; 5; 6]%nat = [20; 10; 20; 10; 20; 10; 20]
    /\ map spec_BackoffPeriod [0; 1; 2; 3; 4; 5; 6]%nat = [20; 10; 20; 40; 80; 160; 320].
Proof.
  intros Hf.
  destruct (provisioning_ticks_failures json_parse_string outcomes Hf
              (started revision part_id) eq_refl eq_refl)
    as (s & Hrun & Hp & Ht & Ha).
  cbn [started azureIoTPollPeriodSeconds] in Hp.
  rewrite iter_next_period_from_default in Hp.
  exists s. repeat split; try assumption; try congruence; try reflexivity.
  intros h.
  destruct (SetupAzureClient_success (provisioned h) s eq_refl)
    as (s' & Hrun' & Hp' & Ht' & Ha' & Hh' & _).
  exists s'. unfold provisioning_tick, AzureTimerEventHandler,
    IoTHubDeviceClient_LL_DoWork. step.
  rewrite Ha. step. rewrite Hrun'. step. rewrite Ha', Hh'. auto.
Qed.

Lemma C1_backoff_period_after_failures_witness :
  Forall failed [generic_failure; generic_failure; generic_failure]
  /\ exists s,
       provisioning_ticks no_parser [generic_failure; generic_failure; generic_failure]
         (started 3 21) = Returned tt s
       /\ azureIoTPollPeriodSeconds s = 10.
Proof.
  assert (Hf : Forall failed [generic_failure; generic_failure; generic_failure])
    by (repeat constructor; discriminate).
  split; [exact Hf |].
  destruct (C1_backoff_period_after_failures no_parser _ 3 21 Hf)
    as (s & Hrun & _ & Hp & _).
  exists s. split; [exact Hrun | exact Hp].
Defined.

(** ** Preservation of a relation by the programs of the monad *)

Section Preservation.

Variable R : State -> State -> Prop.
Hypothesis R_refl : forall s, R s s.
Hypothesis R_trans : forall s1 s2 s3, R s1 s2 -> R s2 s3 -> R s1 s3.

Lemma preserves_ret {A : Type} (a : A) : preserves R (ret a).
Proof. intros s s' H. cbn in H. injection H as <-. apply R_refl. Qed.

Lemma preserves_gets {A : Type} (f : State -> A) : preserves R (gets f).
Proof. intros s s' H. cbn in H. injection H as <-. apply R_refl. Qed.

Lemma preserves_abort {A : Type} : preserves R (@abort A).
Proof. intros s s' H. cbn in H. injection H as <-. apply R_refl. Qed.

Lemma preserves_undefined {A : Type} : preserves R (@undefined_behaviour A).
Proof. intros s s' H. discriminate H. Qed.

Lemma preserves_still_running {A : Type} : preserves R (@still_running A).
Proof. intros s s' H. cbn in H. injection H as <-. apply R_refl. Qed.

Lemma preserves_modify (f : State -> State) :
  (forall s, R s (f s)) -> preserves R (modify f).
Proof. intros Hf s s' H. cbn in H. injection H as <-. apply Hf. Qed.

Lemma preserves_bind {A B : Type} (c : M A) (k : A -> M B) :
  preserves R c -> (forall a, preserves R (k a)) -> preserves R (bind c k).
Proof.
  intros Hc Hk s s' H. unfold bind in H.
  destruct (c s) as [a s1 | s1 | | s1] eqn:E.
  - apply R_trans with s1.
    + apply Hc. rewrite E. reflexivity.
    + apply (Hk a). exact H.
  - apply Hc. rewrite E. exact H.
  - discriminate H.
  - apply Hc. rewrite E. exact H.
Qed.

Lemma preserves_when (b : bool) (c : M unit) :
  preserves R c -> preserves R (when b c).
Proof. intros Hc. destruct b; [exact Hc | apply preserves_ret]. Qed.

End Preservation.

(** Breaks a program into its steps, leaving the side conditions of
    [modify]. *)
Ltac preservation R_refl R_trans :=
  repeat first
    [ apply (preserves_ret _ R_refl)
    | apply (preserves_gets _ R_refl)
    | apply (preserves_abort _ R_refl)
    | apply preserves_undefined
    | apply (preserves_still_running _ R_refl)
    | apply (preserves_bind _ R_trans)
    | apply (preserves_when _ R_refl)
    | apply preserves_modify
    | progress intros
    | match goal with
      | |- preserves _ (match ?x with _ => _ end) => destruct x
      | |- preserves _ (let '(_, _) := ?x in _) => destruct x
      end ].

(** What touches only the LED, the stored identifier and the queue of
    reports keeps any relation that these updates keep. *)
Section CallbackFrame.

Variable R : State -> State -> Prop.
Hypothesis R_refl : forall s, R s s.
Hypothesis R_trans : forall s1 s2 s3, R s1 s2 -> R s2 s3 -> R s1 s3.
Hypothesis R_statusLedOn : forall v s, R s (set_statusLedOn v s).
Hypothesis R_statusLedGpio : forall v s, R s (set_statusLedGpio v s).
Hypothesis R_nprId : forall v s, R s (set_nprId v s).
Hypothesis R_report : forall h text s, R s (add_call (Call_SendReportedState h text) s).
Hypothesis R_led : forall v s, R s (add_call (Call_GPIO_SetValue_StatusLed v) s).

Ltac frame_steps := preservation R_refl R_trans; auto.

Lemma TwinReportBoolState_preserves (name : string) (v : bool) :
  preserves R (TwinReportBoolState name v).
Proof.
  unfold TwinReportBoolState, IoTHubDeviceClient_LL_SendReportedState, call.
  frame_steps.
Qed.

Lemma TwinReportStringState_preserves (name v : string) :
  preserves R (TwinReportStringState name v).
Proof.
  unfold TwinReportStringState, IoTHubDeviceClient_LL_SendReportedState, call.
  frame_steps.
Qed.

Lemma TwinCallback_preserves (json_parse_string : string -> option JSON_Value)
    (payload : string) (malloc_ok : bool) :
  preserves R (TwinCallback json_parse_string payload malloc_ok).
Proof.
  unfold TwinCallback, apply_StatusLED, apply_nprId,
    GPIO_SetValue_deviceTwinStatusLedGpioFd, strcpy_nprId, call.
  frame_steps;
    try first [apply TwinReportBoolState_preserves
              | apply TwinReportStringState_preserves].
Qed.

Lemma HubConnectionStatusCallback_preserves
    (result : IOTHUB_CLIENT_CONNECTION_STATUS)
    (reason : IOTHUB_CLIENT_CONNECTION_STATUS_REASON) :
  (forall b s, R s (set_iothubAuthenticated b s)) ->
  preserves R (HubConnectionStatusCallback result reason).
Proof.
  intros R_auth. unfold HubConnectionStatusCallback.
  frame_steps; try apply TwinReportStringState_preserves.
Qed.

(** The callbacks the SDK delivers keep [R] when the connection-status
    callback does, or when none is delivered. *)
Lemma deliver_all_preserves (json_parse_string : string -> option JSON_Value)
    (cbs : list SdkCallback) :
  (forall b s, R s (set_iothubAuthenticated b s))
  \/ Forall (fun cb => is_ConnectionStatus cb = false) cbs ->
  preserves R (deliver_all json_parse_string cbs).
Proof.
  intros H.
  induction cbs as [| cb rest IH]; cbn [deliver_all]; [frame_steps |].
  assert (Hrest : preserves R (deliver_all json_parse_string rest)).
  { apply IH. destruct H as [H | H]; [left; exact H | right].
    inversion H; assumption. }
  destruct cb as [result reason | payload malloc_ok]; unfold deliver.
  - destruct H as [H | H]; [| inversion H; discriminate].
    frame_steps; try (apply HubConnectionStatusCallback_preserves; exact H).
  - frame_steps; try apply TwinCallback_preserves.
Qed.

End CallbackFrame.

Lemma same_backoff_refl (s : State) : same_backoff s s.
Proof. repeat split. Qed.

Lemma same_backoff_trans (s1 s2 s3 : State) :
  same_backoff s1 s2 -> same_backoff s2 s3 -> same_backoff s1 s3.
Proof.
  unfold same_backoff. intros (H1 & H2 & H3) (H4 & H5 & H6).
  repeat split; congruence.
Qed.

Lemma same_backoff_add_call (c : Call) (s : State) :
  is_provisioning_call c = false -> same_backoff s (add_call c s).
Proof.
  intros Hc. repeat split. cbn. rewrite filter_app. cbn. rewrite Hc.
  apply app_nil_r.
Qed.

Lemma same_ConnectionState_refl (s : State) : same_ConnectionState s s.
Proof. reflexivity. Qed.

Lemma same_ConnectionState_trans (s1 s2 s3 : State) :
  same_ConnectionState s1 s2 -> same_ConnectionState s2 s3 ->
  same_ConnectionState s1 s3.
Proof. unfold same_ConnectionState. congruence. Qed.

Lemma same_DoWork_calls_refl (s : State) : same_DoWork_calls s s.
Proof. reflexivity. Qed.

Lemma same_DoWork_calls_trans (s1 s2 s3 : State) :
  same_DoWork_calls s1 s2 -> same_DoWork_calls s2 s3 -> same_DoWork_calls s1 s3.
Proof. unfold same_DoWork_calls. congruence. Qed.

Lemma same_DoWork_calls_add_call (c : Call) (s : State) :
  is_DoWork_call c = false -> same_DoWork_calls s (add_call c s).
Proof.
  intros Hc. unfold same_DoWork_calls. cbn. rewrite filter_app. cbn. rewrite Hc.
  apply app_nil_r.
Qed.

(** The work step of the SDK keeps the backoff state whatever it delivers. *)
Lemma DoWork_backoff (json_parse_string : string -> option JSON_Value)
    (cbs : list SdkCallback) :
  preserves same_backoff (IoTHubDeviceClient_LL_DoWork json_parse_string cbs).
Proof.
  unfold IoTHubDeviceClient_LL_DoWork, call.
  preservation same_backoff_refl same_backoff_trans.
  - apply same_backoff_add_call. reflexivity.
  - apply deliver_all_preserves;
      try (intros; first [apply same_backoff_add_call | idtac]; repeat split; fail).
    + exact same_backoff_trans.
    + left. intros. repeat split.
Qed.

(** It keeps the connection state when it delivers no connection status. *)
Lemma DoWork_ConnectionState (json_parse_string : string -> option JSON_Value)
    (cbs : list SdkCallback) :
  Forall (fun cb => is_ConnectionStatus cb = false) cbs ->
  preserves same_ConnectionState (IoTHubDeviceClient_LL_DoWork json_parse_string cbs).
Proof.
  intros Hcbs. unfold IoTHubDeviceClient_LL_DoWork, call.
  preservation same_ConnectionState_refl same_ConnectionState_trans.
  - reflexivity.
  - apply deliver_all_preserves; try (intros; reflexivity).
    + exact same_ConnectionState_trans.
    + right. exact Hcbs.
Qed.

(** It is one call of [IoTHubDeviceClient_LL_DoWork]. *)
Lemma DoWork_called_once (json_parse_string : string -> option JSON_Value)
    (cbs : list SdkCallback) (s s' : State) :
  final_state (IoTHubDeviceClient_LL_DoWork json_parse_string cbs s) = Some s' ->
  filter is_DoWork_call (calls s')
  = (filter is_DoWork_call (calls s) ++ [Call_DoWork (iothubClientHandle s)])%list.
Proof.
  intros H.
  assert (Hd : preserves same_DoWork_calls (deliver_all json_parse_string cbs)).
  { apply deliver_all_preserves;
      try (intros; first [apply same_DoWork_calls_add_call | idtac]; reflexivity).
    - exact same_DoWork_calls_trans.
    - left. intros. reflexivity. }
  apply Hd in H. unfold same_DoWork_calls in H. rewrite H.
  cbn. rewrite filter_app. reflexivity.
Qed.

(** ** The tick of the Azure timer when the network is not ready *)

Lemma AzureTimerEventHandler_without_network
    (json_parse_string : string -> option JSON_Value)
    (consume_azureTimerFd networking_result : Z) (isNetworkReady : bool)
    (provisioning : ProvisioningOutcome) (delivered : list SdkCallback) (s : State) :
  networking_result = -1 \/ isNetworkReady = false ->
  AzureTimerEventHandler json_parse_string consume_azureTimerFd networking_result
    isNetworkReady provisioning delivered s
  = if negb (consume_azureTimerFd =? 0) then Returned tt (set_terminationRequired true s)
    else if iothubAuthenticated s
         then IoTHubDeviceClient_LL_DoWork json_parse_string delivered s
         else Returned tt s.
Proof.
  intros Hnet. unfold AzureTimerEventHandler.
  destruct (consume_azureTimerFd =? 0); cbn [negb]; [| reflexivity].
  destruct Hnet as [-> | ->]; step.
  - destruct (iothubAuthenticated s); reflexivity.
  - destruct (negb (networking_result =? -1)); step;
      destruct (iothubAuthenticated s); reflexivity.
Qed.

(** C2 (amended): on a tick for which the network is reported not ready
    (the query fails or answers false) no provisioning attempt is made and
    the poll period and the timer period stay as they are; an
    unauthenticated client is left untouched, but for an authenticated one
    the work step of the SDK is still called, once, and the connection
    state changes only if that step delivers a connection status.  When
    the timer event cannot be consumed the tick only raises the
    termination flag. *)
Theorem C2_tick_without_network
    (json_parse_string : string -> option JSON_Value)
    (consume_azureTimerFd networking_result : Z) (isNetworkReady : bool)
    (provisioning : ProvisioningOutcome) (delivered : list SdkCallback) (s : State) :
  networking_result = -1 \/ isNetworkReady = false ->
  let tick :=
    AzureTimerEventHandler json_parse_string consume_azureTimerFd networking_result
      isNetworkReady provisioning delivered s in
  (iothubAuthenticated s = false -> consume_azureTimerFd = 0 -> tick = Returned tt s)
  /\ (iothubAuthenticated s = true -> consume_azureTimerFd = 0 ->
      tick = IoTHubDeviceClient_LL_DoWork json_parse_string delivered s)
  /\ (consume_azureTimerFd <> 0 -> tick = Returned tt (set_terminationRequired true s))
  /\ forall s',
       final_state tick = Some s' ->
       same_backoff s s'
       /\ (Forall (fun cb => is_ConnectionStatus cb = false) delivered ->
           same_ConnectionState s s')
       /\ filter is_DoWork_call (calls s')
          = (filter is_DoWork_call (calls s)
             ++ if (consume_azureTimerFd =? 0) && iothubAuthenticated s
                then [Call_DoWork (iothubClientHandle s)] else [])%list.
Proof.
  intros Hnet tick. subst tick.
  rewrite (AzureTimerEventHandler_without_network _ _ _ _ _ _ _ Hnet).
  split; [| split; [| split]].
  - intros -> ->. reflexivity.
  - intros -> ->. reflexivity.
  - intros Hc. apply Z.eqb_neq in Hc. rewrite Hc. reflexivity.
  - intros s' Hs'.
    destruct (consume_azureTimerFd =? 0); cbn [negb andb] in *.
    + destruct (iothubAuthenticated s) eqn:Ha.
      * split; [exact (DoWork_backoff _ _ _ _ Hs') |].
        split; [intros Hcbs; exact (DoWork_ConnectionState _ _ Hcbs _ _ Hs') |].
        exact (DoWork_called_once _ _ _ _ Hs').
      * injection Hs' as <-. rewrite app_nil_r.
        split; [apply same_backoff_refl | split; [| reflexivity]].
        intros _. reflexivity.
    + injection Hs' as <-. rewrite app_nil_r.
      split; [repeat split | split; [| reflexivity]].
      intros _. reflexivity.
Qed.

Lemma C2_tick_without_network_witness :
  (0 = -1 \/ false = false)
  /\ AzureTimerEventHandler no_parser 0 0 false generic_failure [] (started 3 21)
     = Returned tt (started 3 21).
Proof.
  split; [right; reflexivity |].
  exact (proj1 (C2_tick_without_network no_parser 0 0 false generic_failure []
                  (started 3 21) (or_intror eq_refl)) eq_refl eq_refl).
Defined.

(** C2 (as stated) fails: with the client authenticated, a tick on which
    the network is reported not ready still calls the work step of the SDK. *)
Lemma C2_counterexample :
  AzureTimerEventHandler no_parser 0 0 false generic_failure [] authenticated_example
  = Returned tt (add_call (Call_DoWork (Some 1%positive)) authenticated_example)
  /\ calls (add_call (Call_DoWork (Some 1%positive)) authenticated_example)
     <> calls authenticated_example.
Proof.
  split; [vm_compute; reflexivity | discriminate].
Qed.

(** ** Connection status notifications *)

(** C6: a connection-status notification whose result is not
    "authenticated" makes the client unauthenticated and leaves everything
    else, the poll period and the timer period included, as it is; no
    notification of any result changes the two periods; a successful
    provisioning attempt afterwards sets both to the default. *)
Theorem C6_status_notification_keeps_backoff
    (result : IOTHUB_CLIENT_CONNECTION_STATUS)
    (reason : IOTHUB_CLIENT_CONNECTION_STATUS_REASON) (s : State) :
  result <> IOTHUB_CLIENT_CONNECTION_AUTHENTICATED ->
  HubConnectionStatusCallback result reason s
    = Returned tt (set_iothubAuthenticated false s)
  /\ iothubAuthenticated (set_iothubAuthenticated false s) = false
  /\ azureIoTPollPeriodSeconds (set_iothubAuthenticated false s)
     = azureIoTPollPeriodSeconds s
  /\ azureTimerPeriodSeconds (set_iothubAuthenticated false s)
     = azureTimerPeriodSeconds s
  /\ (forall result' reason' s',
        final_state (HubConnectionStatusCallback result' reason' s) = Some s' ->
        same_backoff s s')
  /\ (forall o, prov_result o = AZURE_SPHERE_PROV_RESULT_OK ->
        exists s',
          SetupAzureClient o (set_iothubAuthenticated false s) = Returned tt s'
          /\ azureIoTPollPeriodSeconds s' = AzureIoTDefaultPollPeriodSeconds
          /\ azureTimerPeriodSeconds s' = AzureIoTDefaultPollPeriodSeconds
          /\ iothubAuthenticated s' = true).
Proof.
  intros Hresult.
  split; [| split; [| split; [| split; [| split]]]]; try reflexivity.
  - destruct result; [congruence | reflexivity].
  - intros result' reason' s' Hs'.
    revert s s' Hs'.
    apply HubConnectionStatusCallback_preserves;
      try (intros; first [apply same_backoff_add_call | idtac]; repeat split; fail).
    exact same_backoff_trans.
  - intros o Ho.
    destruct (SetupAzureClient_success o (set_iothubAuthenticated false s) Ho)
      as (s' & Hrun & Hp & Ht & Ha & _).
    exists s'. auto.
Qed.

Lemma C6_status_notification_keeps_backoff_witness :
  IOTHUB_CLIENT_CONNECTION_UNAUTHENTICATED <> IOTHUB_CLIENT_CONNECTION_AUTHENTICATED
  /\ HubConnectionStatusCallback IOTHUB_CLIENT_CONNECTION_UNAUTHENTICATED
       IOTHUB_CLIENT_CONNECTION_EXPIRED_SAS_TOKEN authenticated_example
     = Returned tt (set_iothubAuthenticated false authenticated_example).
Proof.
  assert (H : IOTHUB_CLIENT_CONNECTION_UNAUTHENTICATED
              <> IOTHUB_CLIENT_CONNECTION_AUTHENTICATED) by discriminate.
  split; [exact H |].
  exact (proj1 (C6_status_notification_keeps_backoff
                  IOTHUB_CLIENT_CONNECTION_UNAUTHENTICATED
                  IOTHUB_CLIENT_CONNECTION_EXPIRED_SAS_TOKEN authenticated_example H)).
Defined.

(** ** Device-twin updates *)

(** C7: a twin update whose payload does not parse leaves every global as
    it is and makes no call at all, so no report is queued. *)
Theorem C7_unparsable_twin_update
    (json_parse_string : string -> option JSON_Value) (payload : string) (s : State) :
  json_parse_string (c_str payload) = None ->
  TwinCallback json_parse_string payload true s = Returned tt s.
Proof.
  intros Hparse. unfold TwinCallback. cbn [negb]. cbv zeta.
  rewrite Hparse. reflexivity.
Qed.

Lemma C7_unparsable_twin_update_witness :
  example_parser (c_str "{StatusLED") = None
  /\ TwinCallback example_parser "{StatusLED" true authenticated_example
     = Returned tt authenticated_example.
Proof.
  split; [reflexivity |].
  exact (C7_unparsable_twin_update example_parser "{StatusLED" authenticated_example
           eq_refl).
Defined.

Lemma apply_StatusLED_boolean (b : bool) (h : handle) (s : State) :
  iothubClientHandle s = Some h ->
  apply_StatusLED (desired_properties (StatusLED_document b)) s
  = Returned tt (StatusLED_applied b h s).
Proof.
  intros Hh. destruct s as [t ch a l g p tp n bs rv pid tc cc cs].
  cbn in Hh. subst ch. destruct b; vm_compute; reflexivity.
Qed.

Lemma TwinCallback_StatusLED (json_parse_string : string -> option JSON_Value)
    (b : bool) (h : handle) (s : State) :
  json_parse_string (c_str (StatusLED_payload b)) = Some (StatusLED_document b) ->
  iothubClientHandle s = Some h ->
  TwinCallback json_parse_string (StatusLED_payload b) true s
  = Returned tt (StatusLED_applied b h s).
Proof.
  intros Hparse Hh. unfold TwinCallback. cbn [negb]. cbv zeta.
  rewrite Hparse. unfold bind at 1.
  rewrite (apply_StatusLED_boolean b h s Hh). reflexivity.
Qed.

Lemma log_calls_app (cs1 cs2 : list Call) (s : State) :
  log_calls (cs1 ++ cs2) s = log_calls cs2 (log_calls cs1 s).
Proof. unfold log_calls. apply fold_left_app. Qed.

Lemma log_calls_frame (cs : list Call) :
  forall s,
    statusLedOn (log_calls cs s) = statusLedOn s
    /\ statusLedGpio (log_calls cs s) = statusLedGpio s
    /\ nprId (log_calls cs s) = nprId s
    /\ iothubClientHandle (log_calls cs s) = iothubClientHandle s
    /\ calls (log_calls cs s) = (calls s ++ cs)%list.
Proof.
  induction cs as [| c cs IH]; intros s.
  - cbn [log_calls fold_left]. rewrite app_nil_r. repeat split.
  - change (log_calls (c :: cs) s) with (log_calls cs (add_call c s)).
    destruct (IH (add_call c s)) as (H1 & H2 & H3 & H4 & H5).
    rewrite H1, H2, H3, H4, H5. cbn [statusLedOn statusLedGpio nprId iothubClientHandle
                                      calls add_call].
    rewrite <- app_assoc. repeat split.
Qed.

(** An update that was applied once is applied again with the same
    writes: the second application adds the calls of the first and changes
    no global. *)
Lemma TwinCallback_again (json_parse_string : string -> option JSON_Value)
    (payload : string) (malloc_ok : bool) (s once : State) :
  TwinCallback json_parse_string payload malloc_ok s = Returned tt once ->
  exists sends,
    calls once = (calls s ++ sends)%list
    /\ TwinCallback json_parse_string payload malloc_ok once
       = Returned tt (log_calls sends once).
Proof.
  unfold TwinCallback. destruct malloc_ok; [| discriminate]. cbn [negb]. cbv zeta.
  destruct (json_parse_string (c_str payload)) as [rootProperties |].
  2: { intros Hrun. injection Hrun as <-. exists [].
       split; [symmetry; apply app_nil_r | reflexivity]. }
  generalize (desired_properties rootProperties). intros desiredProperties.
  unfold apply_StatusLED, apply_nprId, strcpy_nprId.
  destruct (json_object_dotget_object desiredProperties "StatusLED") as [LEDState |];
    [generalize (bool_of_int (json_object_get_boolean (Some LEDState) "value"));
     intros on |];
    (destruct (json_object_dotget_object desiredProperties "nprId") as [nprIdState |];
     [destruct (json_object_get_string (Some nprIdState) "value") as [value |];
      [generalize (c_str value); intros id;
       destruct (String.length id <? 12)%nat |] |]).
  all: destruct s as [t [h |] a l g p tp n b rv pid tc cc cs].
  all: try destruct on.
  all: lazy -[app]; intros Hrun; try discriminate Hrun.
  all: injection Hrun as <-.
  all: eexists; split;
    [cbn [calls]; rewrite <- ?app_assoc; cbn [app];
     first [reflexivity | symmetry; apply app_nil_r] |].
  all: lazy -[app]; reflexivity.
Qed.

(** C8: applying a desired payload twice leaves every global as one
    application does: for every payload that is applied, the second
    application writes the same values again and repeats the calls of the
    first, reports included, none deduplicated.  For the payload
    [{"StatusLED":{"value":true}}] the flag is on and the pin low after
    one application and after two, and the report [{"StatusLED":true}] is
    queued twice. *)
Theorem C8_twin_apply_idempotent :
  (forall (json_parse_string : string -> option JSON_Value) (payload : string)
          (malloc_ok : bool) (s once : State),
      TwinCallback json_parse_string payload malloc_ok s = Returned tt once ->
      exists sends,
        calls once = (calls s ++ sends)%list
        /\ TwinCallback json_parse_string payload malloc_ok once
           = Returned tt (log_calls sends once)
        /\ statusLedOn (log_calls sends once) = statusLedOn once
        /\ statusLedGpio (log_calls sends once) = statusLedGpio once
        /\ nprId (log_calls sends once) = nprId once
        /\ calls (log_calls sends once) = (calls s ++ sends ++ sends)%list)
  /\ (forall (json_parse_string : string -> option JSON_Value) (h : handle) (s : State),
        json_parse_string (c_str (StatusLED_payload true))
        = Some (StatusLED_document true) ->
        iothubClientHandle s = Some h ->
        let once := StatusLED_applied true h s in
        let twice := StatusLED_applied true h once in
        TwinCallback json_parse_string (StatusLED_payload true) true s = Returned tt once
        /\ TwinCallback json_parse_string (StatusLED_payload true) true once
           = Returned tt twice
        /\ statusLedOn once = true /\ statusLedGpio once = GPIO_Value_Low
        /\ statusLedOn twice = statusLedOn once
        /\ statusLedGpio twice = statusLedGpio once
        /\ nprId twice = nprId s
        /\ calls twice
           = (calls s
              ++ [Call_GPIO_SetValue_StatusLed GPIO_Value_Low;
                  Call_SendReportedState h ("{" ++ quoted "StatusLED" ++ ":true}");
                  Call_GPIO_SetValue_StatusLed GPIO_Value_Low;
                  Call_SendReportedState h ("{" ++ quoted "StatusLED" ++ ":true}")])%list).
Proof.
  split.
  - intros json_parse_string payload malloc_ok s once Hrun.
    destruct (TwinCallback_again json_parse_string payload malloc_ok s once Hrun)
      as (sends & Hcalls & Hagain).
    exists sends.
    destruct (log_calls_frame sends once) as (Hon & Hgpio & Hid & _ & Hlog).
    repeat split; try assumption.
    rewrite Hlog, Hcalls. symmetry. apply app_assoc.
  - intros json_parse_string h s Hparse Hh once twice.
    split; [exact (TwinCallback_StatusLED json_parse_string true h s Hparse Hh) |].
    split; [exact (TwinCallback_StatusLED json_parse_string true h once Hparse Hh) |].
    subst once twice. unfold StatusLED_applied.
    cbn [statusLedOn statusLedGpio nprId calls add_call set_statusLedGpio
         set_statusLedOn].
    rewrite <- !app_assoc. repeat split.
Qed.

Lemma C8_twin_apply_idempotent_witness :
  example_parser (c_str (StatusLED_payload true)) = Some (StatusLED_document true)
  /\ iothubClientHandle authenticated_example = Some 1%positive
  /\ TwinCallback example_parser (StatusLED_payload true) true authenticated_example
     = Returned tt (StatusLED_applied true 1%positive authenticated_example)
  /\ exists sends,
       TwinCallback example_parser (StatusLED_payload false) true
         (StatusLED_applied false 1%positive authenticated_example)
       = Returned tt
           (log_calls sends (StatusLED_applied false 1%positive authenticated_example)).
Proof.
  split; [reflexivity | split; [reflexivity |]].
  split.
  - exact (proj1 (proj2 C8_twin_apply_idempotent example_parser 1%positive
                    authenticated_example eq_refl eq_refl)).
  - destruct (proj1 C8_twin_apply_idempotent example_parser (StatusLED_payload false)
                true authenticated_example
                (StatusLED_applied false 1%positive authenticated_example) eq_refl)
      as (sends & _ & Hagain & _).
    exists sends. exact Hagain.
Defined.

Lemma get_boolean_error (LEDState : list (string * JSON_Value)) :
  value_is_boolean LEDState = false ->
  json_object_get_boolean (Some LEDState) "value" = -1.
Proof.
  unfold value_is_boolean, json_object_get_boolean, json_object_get_value.
  destruct (lookup_member "value" LEDState) as [[| | | [|] | |] |];
    intros H; first [discriminate H | reflexivity].
Qed.

Lemma same_StatusLED_refl (s : State) : same_StatusLED s s.
Proof. repeat split. exists []. symmetry. apply app_nil_r. Qed.

Lemma same_StatusLED_trans (s1 s2 s3 : State) :
  same_StatusLED s1 s2 -> same_StatusLED s2 s3 -> same_StatusLED s1 s3.
Proof.
  intros (H1 & H2 & l1 & H3) (H4 & H5 & l2 & H6).
  repeat split; try congruence.
  exists (l1 ++ l2)%list. rewrite H6, H3. symmetry. apply app_assoc.
Qed.

Lemma same_StatusLED_set_nprId (v : string) (s : State) :
  same_StatusLED s (set_nprId v s).
Proof. repeat split. exists []. symmetry. apply app_nil_r. Qed.

Lemma same_StatusLED_report (h : handle) (text : string) (s : State) :
  same_StatusLED s (add_call (Call_SendReportedState h text) s).
Proof. repeat split. eexists. reflexivity. Qed.

Lemma apply_nprId_StatusLED (desiredProperties : JSON_Object) :
  preserves same_StatusLED (apply_nprId desiredProperties).
Proof.
  unfold apply_nprId, strcpy_nprId, TwinReportStringState,
    IoTHubDeviceClient_LL_SendReportedState, call.
  preservation same_StatusLED_refl same_StatusLED_trans;
    first [apply same_StatusLED_set_nprId | apply same_StatusLED_report].
Qed.

(** C9: when the desired properties hold a StatusLED object whose member
    ["value"] is missing or is not a boolean, the property is applied all
    the same: the error result -1 of the reader counts as true, so the
    flag is set, the pin is driven low and the report [{"StatusLED":true}]
    is queued, before the property nprId is looked at. *)
Theorem C9_StatusLED_without_boolean_value
    (json_parse_string : string -> option JSON_Value) (payload : string)
    (rootProperties : JSON_Value) (LEDState : list (string * JSON_Value))
    (h : handle) (s : State) :
  json_parse_string (c_str payload) = Some rootProperties ->
  json_object_dotget_object (desired_properties rootProperties) "StatusLED"
    = Some LEDState ->
  value_is_boolean LEDState = false ->
  iothubClientHandle s = Some h ->
  json_object_get_boolean (Some LEDState) "value" = -1
  /\ bool_of_int (-1) = true
  /\ TwinCallback json_parse_string payload true s
     = apply_nprId (desired_properties rootProperties) (StatusLED_applied true h s)
  /\ (json_object_dotget_object (desired_properties rootProperties) "nprId" = None ->
      TwinCallback json_parse_string payload true s
      = Returned tt (StatusLED_applied true h s))
  /\ statusLedOn (StatusLED_applied true h s) = true
  /\ statusLedGpio (StatusLED_applied true h s) = GPIO_Value_Low
  /\ calls (StatusLED_applied true h s)
     = (calls s ++ [Call_GPIO_SetValue_StatusLed GPIO_Value_Low;
                    Call_SendReportedState h ("{" ++ quoted "StatusLED" ++ ":true}")])%list
  /\ forall s',
       final_state (TwinCallback json_parse_string payload true s) = Some s' ->
       same_StatusLED (StatusLED_applied true h s) s'.
Proof.
  intros Hparse Hled Hvalue Hh.
  pose proof (get_boolean_error LEDState Hvalue) as Herr.
  assert (Hrun : TwinCallback json_parse_string payload true s
                 = apply_nprId (desired_properties rootProperties)
                     (StatusLED_applied true h s)).
  { unfold TwinCallback. cbn [negb]. cbv zeta. rewrite Hparse.
    unfold bind at 1. unfold apply_StatusLED. rewrite Hled, Herr.
    unfold GPIO_SetValue_deviceTwinStatusLedGpioFd, TwinReportBoolState,
      IoTHubDeviceClient_LL_SendReportedState.
    step. rewrite Hh. reflexivity. }
  split; [exact Herr |]. split; [reflexivity |]. split; [exact Hrun |].
  split; [| split; [reflexivity | split; [reflexivity | split]]].
  - intros Hnpr. rewrite Hrun. unfold apply_nprId. rewrite Hnpr. reflexivity.
  - unfold StatusLED_applied.
    cbn [calls add_call set_statusLedGpio set_statusLedOn].
    rewrite <- app_assoc. reflexivity.
  - intros s' Hs'. rewrite Hrun in Hs'.
    exact (apply_nprId_StatusLED _ _ _ Hs').
Qed.

Lemma C9_StatusLED_without_boolean_value_witness :
  example_parser (c_str StatusLED_string_value_payload)
    = Some (JSONObject [("StatusLED", JSONObject [("value", JSONString "on")])])
  /\ TwinCallback example_parser StatusLED_string_value_payload true authenticated_example
     = Returned tt (StatusLED_applied true 1%positive authenticated_example).
Proof.
  split; [reflexivity |].
  refine (proj1 (proj2 (proj2 (proj2
            (C9_StatusLED_without_boolean_value example_parser
               StatusLED_string_value_payload
               (JSONObject [("StatusLED", JSONObject [("value", JSONString "on")])])
               [("value", JSONString "on")] 1%positive authenticated_example
               eq_refl eq_refl eq_refl eq_refl)))) eq_refl).
Defined.

(** ** The button *)

Lemma IsButtonPressed_read (newState : GPIO_Value_Type) (s : State) :
  IsButtonPressed 0 newState sendTelemetryButtonState set_sendTelemetryButtonState s
  = Returned (button_edge (sendTelemetryButtonState s) newState)
      (set_sendTelemetryButtonState newState s).
Proof. reflexivity. Qed.

Lemma button_edge_high_to_low (oldState newState : GPIO_Value_Type) :
  button_edge oldState newState = true
  <-> oldState = GPIO_Value_High /\ newState = GPIO_Value_Low.
Proof.
  destruct oldState, newState; cbn; split; intros H;
    first [discriminate H | destruct H; discriminate | auto].
Qed.

Lemma poll_levels_counts (levels : list GPIO_Value_Type) :
  forall s,
    exists s',
      poll_levels levels s
      = Returned (high_to_low_transitions (sendTelemetryButtonState s) levels) s'
      /\ terminationRequired s' = terminationRequired s
      /\ calls s' = calls s.
Proof.
  induction levels as [| level rest IH]; intros s.
  - exists s. repeat split.
  - destruct (IH (set_sendTelemetryButtonState level s)) as (s' & Hrun & Ht & Hc).
    exists s'. cbn [poll_levels]. unfold bind at 1. rewrite IsButtonPressed_read.
    unfold bind at 1. rewrite Hrun. cbn [ret high_to_low_transitions].
    split; [| split; assumption].
    cbn [sendTelemetryButtonState set_sendTelemetryButtonState].
    destruct (sendTelemetryButtonState s), level; reflexivity.
Qed.

(** C4: a poll reports a press exactly when the level read is low and the
    level of the poll before was high, and it remembers the level read;
    so polls report as many presses as the levels step from high to low,
    and the levels H,H,L,L,H,L after a high level give two. *)
Theorem C4_button_edge_detection :
  (forall newState s,
      exists pressed,
        IsButtonPressed 0 newState sendTelemetryButtonState
          set_sendTelemetryButtonState s
        = Returned pressed (set_sendTelemetryButtonState newState s)
        /\ (pressed = true
            <-> sendTelemetryButtonState s = GPIO_Value_High
                /\ newState = GPIO_Value_Low))
  /\ (forall levels s,
        exists s',
          poll_levels levels s
          = Returned (high_to_low_transitions (sendTelemetryButtonState s) levels) s'
          /\ terminationRequired s' = terminationRequired s)
  /\ (forall revision part_id,
        exists s',
          poll_levels [GPIO_Value_High; GPIO_Value_High; GPIO_Value_Low;
                       GPIO_Value_Low; GPIO_Value_High; GPIO_Value_Low]
            (started revision part_id)
          = Returned 2%nat s').
Proof.
  split; [| split].
  - intros newState s.
    exists (button_edge (sendTelemetryButtonState s) newState).
    rewrite IsButtonPressed_read.
    split; [reflexivity | apply button_edge_high_to_low].
  - intros levels s.
    destruct (poll_levels_counts levels s) as (s' & Hrun & Ht & _).
    exists s'. auto.
  - intros revision part_id.
    destruct (poll_levels_counts
                [GPIO_Value_High; GPIO_Value_High; GPIO_Value_Low;
                 GPIO_Value_Low; GPIO_Value_High; GPIO_Value_Low]
                (started revision part_id)) as (s' & Hrun & _).
    exists s'. exact Hrun.
Qed.

(** ** The main loop *)

Lemma main_loop_stops (json_parse_string : string -> option JSON_Value)
    (script : list Dispatch) (s : State) :
  terminationRequired s = true ->
  main_loop json_parse_string script s = Returned script s.
Proof.
  intros Ht. destruct script; cbn [main_loop]; step; rewrite Ht; reflexivity.
Qed.

(** C10: when the read of the button fails during a poll, the poll
    reports no press, raises the termination flag and touches nothing
    else, and the main loop ends with this turn: the turns that would
    follow are not taken. *)
Theorem C10_button_read_failure_is_fatal
    (json_parse_string : string -> option JSON_Value)
    (i : ButtonPollInput) (rest : list Dispatch) (s : State) :
  terminationRequired s = false ->
  consume_buttonPollTimerFd i = 0 ->
  gpio_result i <> 0 ->
  IsButtonPressed (gpio_result i) (gpio_value i)
    sendTelemetryButtonState set_sendTelemetryButtonState s
  = Returned false (set_terminationRequired true s)
  /\ ButtonPollTimerEventHandler i s = Returned tt (set_terminationRequired true s)
  /\ main_loop json_parse_string (Ready_buttonPollTimer i :: rest) s
     = Returned rest (set_terminationRequired true s).
Proof.
  intros Ht Hconsume Hgpio. apply Z.eqb_neq in Hgpio.
  assert (Hpressed : IsButtonPressed (gpio_result i) (gpio_value i)
                       sendTelemetryButtonState set_sendTelemetryButtonState s
                     = Returned false (set_terminationRequired true s)).
  { unfold IsButtonPressed. rewrite Hgpio. reflexivity. }
  assert (Hhandler : ButtonPollTimerEventHandler i s
                     = Returned tt (set_terminationRequired true s)).
  { unfold ButtonPollTimerEventHandler, SendTelemetryButtonHandler.
    rewrite Hconsume. cbn [Z.eqb negb]. unfold bind at 1. rewrite Hpressed.
    reflexivity. }
  split; [exact Hpressed | split; [exact Hhandler |]].
  cbn [main_loop]. unfold bind at 1. unfold gets at 1. rewrite Ht.
  unfold WaitForEventAndCallHandler. unfold bind at 1. unfold bind at 1.
  rewrite Hhandler. cbn [ret Z.eqb negb when]. unfold bind at 1.
  apply main_loop_stops. reflexivity.
Qed.

Lemma C10_button_read_failure_is_fatal_witness :
  terminationRequired (started 3 21) = false
  /\ consume_buttonPollTimerFd failing_button_poll = 0
  /\ gpio_result failing_button_poll <> 0
  /\ main_loop no_parser
       [Ready_buttonPollTimer failing_button_poll; Wait_failed] (started 3 21)
     = Returned [Wait_failed] (set_terminationRequired true (started 3 21)).
Proof.
  assert (H : gpio_result failing_button_poll <> 0) by discriminate.
  split; [reflexivity | split; [reflexivity | split; [exact H |]]].
  exact (proj2 (proj2 (C10_button_read_failure_is_fatal no_parser failing_button_poll
                         [Wait_failed] (started 3 21) eq_refl eq_refl H))).
Defined.

(** ** The acquisition run *)

Lemma wrap32_small (x : Z) : int32_range x -> wrap32 x = x.
Proof.
  unfold int32_range, wrap32.
  change (2 ^ 31) with 2147483648. change (2 ^ 32) with 4294967296.
  intros H. rewrite Z.mod_small; lia.
Qed.

Lemma wrap32_add_l (a b : Z) : wrap32 (wrap32 a + b) = wrap32 (a + b).
Proof.
  unfold wrap32.
  replace ((a + 2 ^ 31) mod 2 ^ 32 - 2 ^ 31 + b + 2 ^ 31)
    with ((a + 2 ^ 31) mod 2 ^ 32 + b) by ring.
  rewrite Zplus_mod_idemp_l. f_equal. f_equal. ring.
Qed.

Lemma average_spo2_fold (ws : list Window) :
  forall acc,
    average_spo2 (fold_left accumulate ws acc)
    = sum_spo2_from (average_spo2 acc) (filter both_valid ws).
Proof.
  induction ws as [| w rest IH]; intros acc; [reflexivity |].
  cbn [fold_left filter]. rewrite IH. unfold accumulate.
  destruct (both_valid w); reflexivity.
Qed.

Lemma average_hr_fold (ws : list Window) :
  forall acc,
    wrap32 (average_hr (fold_left accumulate ws acc))
    = wrap32 (average_hr acc + sum_heart_rate (filter both_valid ws)).
Proof.
  induction ws as [| w rest IH]; intros acc.
  - cbn. f_equal. lia.
  - cbn [fold_left filter]. rewrite IH. unfold accumulate.
    destruct (both_valid w); [| reflexivity].
    cbn [average_hr]. rewrite wrap32_add_l. f_equal.
    change (sum_heart_rate (w :: filter both_valid rest))
      with (n_heart_rate w + sum_heart_rate (filter both_valid rest)).
    lia.
Qed.

Lemma nbr_readings_fold (ws : list Window) :
  forall acc,
    wrap32 (nbr_readings (fold_left accumulate ws acc))
    = wrap32 (nbr_readings acc + Z.of_nat (List.length (filter both_valid ws))).
Proof.
  induction ws as [| w rest IH]; intros acc.
  - cbn. f_equal. lia.
  - cbn [fold_left filter]. rewrite IH. unfold accumulate.
    destruct (both_valid w); [| reflexivity].
    cbn [nbr_readings List.length].
    rewrite wrap32_add_l. f_equal. lia.
Qed.

Lemma wrap32_idempotent (x : Z) : wrap32 (wrap32 x) = wrap32 x.
Proof.
  replace (wrap32 x) with (wrap32 x + 0) at 1 by lia.
  rewrite wrap32_add_l. f_equal. lia.
Qed.

Lemma accumulate_wrapped (ws : list Window) :
  forall acc,
    wrap32 (average_hr acc) = average_hr acc ->
    wrap32 (nbr_readings acc) = nbr_readings acc ->
    wrap32 (average_hr (fold_left accumulate ws acc))
    = average_hr (fold_left accumulate ws acc)
    /\ wrap32 (nbr_readings (fold_left accumulate ws acc))
       = nbr_readings (fold_left accumulate ws acc).
Proof.
  induction ws as [| w rest IH]; intros acc Hhr Hn; [auto |].
  cbn [fold_left]. apply IH; unfold accumulate;
    destruct (both_valid w); cbn [average_hr nbr_readings];
    auto using wrap32_idempotent.
Qed.

(** The accumulator after the windows [ws]: the sums and the count of the
    windows with both validity flags set. *)
Lemma accumulate_valid_windows (ws : list Window) :
  let valid := filter both_valid ws in
  int32_range (sum_heart_rate valid) ->
  int32_range (Z.of_nat (List.length valid)) ->
  fold_left accumulate ws empty_accumulator
  = {| average_hr := sum_heart_rate valid;
       average_spo2 := sum_spo2 valid;
       nbr_readings := Z.of_nat (List.length valid) |}.
Proof.
  intros valid Hhr Hn.
  destruct (accumulate_wrapped ws empty_accumulator eq_refl eq_refl) as [Whr Wn].
  pose proof (average_hr_fold ws empty_accumulator) as Ehr.
  pose proof (nbr_readings_fold ws empty_accumulator) as En.
  pose proof (average_spo2_fold ws empty_accumulator) as Espo2.
  rewrite Whr in Ehr. rewrite Wn in En.
  cbn [empty_accumulator average_hr nbr_readings average_spo2] in Ehr, En, Espo2.
  rewrite Z.add_0_l in Ehr, En.
  rewrite wrap32_small in Ehr by exact Hhr.
  rewrite wrap32_small in En by exact Hn.
  destruct (fold_left accumulate ws empty_accumulator) as [hr spo2 n].
  cbn [average_hr nbr_readings average_spo2] in Ehr, En, Espo2.
  subst hr spo2 n. reflexivity.
Qed.

(** The loop takes the windows up to the first one after which the run
    time has passed. *)
Lemma acquisition_loop_processes (start : Z) (ws : list Window) (wl : Window) :
  Forall (fun w => time_now w - start < run_time) ws ->
  run_time <= time_now wl - start ->
  forall now acc,
    now - start < run_time ->
    acquisition_loop start now (ws ++ [wl]) acc
    = Some (fold_left accumulate (ws ++ [wl]) acc).
Proof.
  intros Hws Hwl. induction Hws as [| w rest Hw _ IH]; intros now acc Hnow.
  - cbn [app acquisition_loop fold_left].
    apply Z.ltb_lt in Hnow. rewrite Hnow.
    destruct (Z.ltb_spec (time_now wl - start) run_time); [lia | reflexivity].
  - cbn [app acquisition_loop fold_left].
    apply Z.ltb_lt in Hnow. rewrite Hnow. apply IH. exact Hw.
Qed.

(** While the clock stays within the run time the loop does not end. *)
Lemma acquisition_loop_waits (start : Z) (ws : list Window) :
  Forall (fun w => time_now w - start < run_time) ws ->
  forall now acc,
    now - start < run_time ->
    acquisition_loop start now ws acc = None.
Proof.
  intros Hws. induction Hws as [| w rest Hw _ IH]; intros now acc Hnow;
    cbn [acquisition_loop]; apply Z.ltb_lt in Hnow; rewrite Hnow;
    [reflexivity | apply IH; exact Hw].
Qed.

Lemma fmt_d_nonempty (n : Z) : (Z.of_nat (String.length (fmt_d n)) >? 0) = true.
Proof.
  unfold fmt_d.
  destruct (Z.to_int n) as [u | u]; destruct u; cbn; reflexivity.
Qed.

Lemma length_append (a b : string) :
  String.length (a ++ b) = (String.length a + String.length b)%nat.
Proof.
  induction a as [| c a IH]; cbn; [reflexivity | rewrite IH; reflexivity].
Qed.

Lemma fmt_3_2f_nonempty (x : float32) :
  (Z.of_nat (String.length (fmt_3_2f x)) >? 0) = true.
Proof.
  apply Z.gtb_lt.
  destruct x as [s | s | | s m e]; cbn [fmt_3_2f].
  - destruct s; cbn; lia.
  - destruct s; cbn; lia.
  - cbn; lia.
  - rewrite !length_append. cbn [String.length]. lia.
Qed.

(** A poll that detects a press runs the acquisition: the sensor is
    started, the averages over the valid windows are reported, the sensor
    is shut down. *)
Lemma SendTelemetryButtonHandler_run (i : ButtonPollInput) (ws : list Window)
    (wl : Window) (s : State) :
  press_detected i s ->
  run_processes i ws wl ->
  let valid := filter both_valid (ws ++ [wl]) in
  int32_range (sum_heart_rate valid) ->
  int32_range (Z.of_nat (List.length valid)) ->
  ButtonPollTimerEventHandler i s
  = (call Call_max30102_init ;;
     report_averages i (sum_heart_rate valid) (sum_spo2 valid)
       (Z.of_nat (List.length valid)) ;;
     call Call_max30102_shut_down)
      (set_sendTelemetryButtonState GPIO_Value_Low s).
Proof.
  intros (Hconsume & Hresult & Hvalue & Hold) (Hwindows & Hws & Hwl) valid Hhr Hn.
  unfold ButtonPollTimerEventHandler, SendTelemetryButtonHandler.
  rewrite Hconsume, Hresult, Hvalue, Hwindows. cbn [Z.eqb negb].
  unfold bind at 1. rewrite IsButtonPressed_read, Hold.
  cbn [button_edge GPIO_Value_eqb negb andb when].
  rewrite (acquisition_loop_processes _ ws wl Hws Hwl) by (unfold run_time; lia).
  fold empty_accumulator.
  rewrite (accumulate_valid_windows (ws ++ [wl]) Hhr Hn). fold valid.
  cbn [nbr_readings average_hr average_spo2].
  unfold report_averages, snprintf. cbn [fst snd].
  rewrite fmt_d_nonempty, fmt_3_2f_nonempty. reflexivity.
Qed.

(** C3: a run that detects a press and processes k windows adds up the
    heart rate and the SpO2 of exactly the v windows with both validity
    flags set and counts them; the averages sent divide these sums by v;
    with v = 0 nothing is sent: the run only starts and stops the sensor.
    (The integer sums are those of the code as long as they fit 32 bits.) *)
Theorem C3_acquisition_accumulator (i : ButtonPollInput) (ws : list Window)
    (wl : Window) (s : State) :
  press_detected i s ->
  run_processes i ws wl ->
  let valid := filter both_valid (ws ++ [wl]) in
  let v := Z.of_nat (List.length valid) in
  int32_range (sum_heart_rate valid) ->
  int32_range v ->
  (List.length valid <= List.length (ws ++ [wl]))%nat
  /\ acquisition_loop (time_start i) (time_start i) (windows i) empty_accumulator
     = Some {| average_hr := sum_heart_rate valid;
               average_spo2 := sum_spo2 valid;
               nbr_readings := v |}
  /\ (v = 0 ->
      ButtonPollTimerEventHandler i s
      = Returned tt
          (add_call Call_max30102_shut_down
             (add_call Call_max30102_init
                (set_sendTelemetryButtonState GPIO_Value_Low s)))
      /\ filter is_SendEventAsync_call
           (calls (add_call Call_max30102_shut_down
                     (add_call Call_max30102_init
                        (set_sendTelemetryButtonState GPIO_Value_Low s))))
         = filter is_SendEventAsync_call (calls s))
  /\ (0 < v ->
      ButtonPollTimerEventHandler i s
      = (call Call_max30102_init ;;
         (SendTelemetry "Heart_rate"
            (snd (snprintf 10 (fmt_d (Z.quot (sum_heart_rate valid) v))))
            (heart_rate_message_created i) ;;
          SendTelemetry "SpO2"
            (snd (snprintf 10 (fmt_3_2f (f32_div (sum_spo2 valid) (f32_of_int32 v)))))
            (spo2_message_created i)) ;;
         call Call_max30102_shut_down)
          (set_sendTelemetryButtonState GPIO_Value_Low s)).
Proof.
  intros Hpress Hrun valid v Hhr Hv.
  pose proof (SendTelemetryButtonHandler_run i ws wl s Hpress Hrun Hhr Hv) as Hhandler.
  fold valid in Hhandler. fold v in Hhandler.
  destruct Hrun as (Hwindows & Hws & Hwl).
  assert (Hloop : acquisition_loop (time_start i) (time_start i) (windows i)
                    empty_accumulator
                  = Some {| average_hr := sum_heart_rate valid;
                            average_spo2 := sum_spo2 valid;
                            nbr_readings := v |}).
  { rewrite Hwindows.
    rewrite (acquisition_loop_processes _ ws wl Hws Hwl) by (unfold run_time; lia).
    rewrite (accumulate_valid_windows (ws ++ [wl]) Hhr Hv). reflexivity. }
  assert (Hle : (List.length valid <= List.length (ws ++ [wl]))%nat)
    by apply filter_length_le.
  clearbody v. clearbody valid.
  split; [exact Hle | split; [exact Hloop | split]].
  - intros Hzero. rewrite Hhandler, Hzero. split; [reflexivity |].
    cbn [calls add_call set_sendTelemetryButtonState].
    rewrite !filter_app. cbn. rewrite !app_nil_r. reflexivity.
  - intros Hpos. rewrite Hhandler. unfold report_averages.
    apply Z.gtb_lt in Hpos. rewrite Hpos. reflexivity.
Qed.

Lemma C3_acquisition_accumulator_witness :
  press_detected example_press (started 3 21)
  /\ run_processes example_press [window_invalid 102; window_72_98_5 104]
       (window_72_98_5 106)
  /\ acquisition_loop 100 100 (windows example_press) empty_accumulator
     = Some {| average_hr := 144; average_spo2 := f32_of_int32 197; nbr_readings := 2 |}.
Proof.
  assert (Hpress : press_detected example_press (started 3 21))
    by (repeat split).
  assert (Hrun : run_processes example_press [window_invalid 102; window_72_98_5 104]
                   (window_72_98_5 106)).
  { split; [reflexivity | split].
    - repeat constructor.
    - discriminate. }
  split; [exact Hpress | split; [exact Hrun |]].
  refine (proj1 (proj2 (C3_acquisition_accumulator example_press _ _ (started 3 21)
                          Hpress Hrun _ _))).
  - split; [discriminate | reflexivity].
  - split; [discriminate | reflexivity].
Defined.

(** ** Telemetry messages *)

Lemma take_all (n : nat) (text : string) :
  (String.length text <= n)%nat -> take n text = text.
Proof.
  revert n. induction text as [| c rest IH]; intros n Hn.
  - destruct n; reflexivity.
  - destruct n as [| n]; cbn in Hn; [lia |].
    cbn [take]. rewrite IH by lia. reflexivity.
Qed.

Lemma code_telemetry_message_length (key value : string) :
  String.length (code_telemetry_message key value)
  = (String.length key + String.length value + 10)%nat.
Proof.
  unfold code_telemetry_message, quoted, dquote.
  rewrite !length_append. cbn [String.length]. lia.
Qed.

(** A message that fits the buffer of 100 bytes is sent as formatted. *)
Lemma SendTelemetry_fits (key value : string) (s : State) :
  (String.length key + String.length value <= 89)%nat ->
  SendTelemetry_eventBuffer key value
  = (Z.of_nat (String.length key + String.length value + 10),
     code_telemetry_message key value)
  /\ SendTelemetry key value true s
     = Returned tt
         (add_call (Call_SendEventAsync (iothubClientHandle s)
                      (code_telemetry_message key value)) s).
Proof.
  intros Hfits.
  assert (Hbuffer : SendTelemetry_eventBuffer key value
                    = (Z.of_nat (String.length key + String.length value + 10),
                       code_telemetry_message key value)).
  { unfold SendTelemetry_eventBuffer, snprintf.
    fold (code_telemetry_message key value).
    rewrite code_telemetry_message_length.
    rewrite take_all; [reflexivity |].
    rewrite code_telemetry_message_length. cbn [Nat.pred]. lia. }
  split; [exact Hbuffer |].
  unfold SendTelemetry. rewrite Hbuffer.
  destruct (Z.ltb_spec (Z.of_nat (String.length key + String.length value + 10)) 0);
    [lia | reflexivity].
Qed.

Lemma valid_windows_72_98_5_filter (ws : list Window) :
  valid_windows_72_98_5 ws ->
  Forall (fun w => n_heart_rate w = 72 /\ n_spo2 w = f32_98_5) (filter both_valid ws).
Proof.
  induction 1 as [| w rest Hw _ IH]; cbn [filter]; [constructor |].
  destruct (both_valid w); [constructor; auto | exact IH].
Qed.

Lemma sum_heart_rate_72 (ws : list Window) :
  Forall (fun w => n_heart_rate w = 72 /\ n_spo2 w = f32_98_5) ws ->
  sum_heart_rate ws = 72 * Z.of_nat (List.length ws).
Proof.
  induction 1 as [| w rest [Hhr _] _ IH]; [reflexivity |].
  change (sum_heart_rate (w :: rest)) with (n_heart_rate w + sum_heart_rate rest).
  rewrite Hhr, IH. cbn [List.length]. lia.
Qed.

Lemma averages_print_98_50_sound (n : nat) :
  forall total count ws,
    averages_print_98_50 n total count = true ->
    Forall (fun w => n_heart_rate w = 72 /\ n_spo2 w = f32_98_5) ws ->
    (1 <= List.length ws <= n)%nat ->
    fmt_3_2f (f32_div (sum_spo2_from total ws)
                (f32_of_int32 (count + Z.of_nat (List.length ws))))
    = "98.50".
Proof.
  induction n as [| n IH]; intros total count ws Hcheck Hws Hlen; [lia |].
  destruct Hws as [| w rest [_ Hspo2] Hrest]; [cbn in Hlen; lia |].
  cbn [averages_print_98_50] in Hcheck.
  apply andb_prop in Hcheck. destruct Hcheck as [Hhere Hnext].
  apply String.eqb_eq in Hhere.
  unfold sum_spo2_from. cbn [fold_left]. rewrite Hspo2.
  destruct rest as [| w' rest'].
  - cbn [fold_left List.length]. exact Hhere.
  - replace (count + Z.of_nat (List.length (w :: w' :: rest')))
      with (count + 1 + Z.of_nat (List.length (w' :: rest')))
      by (cbn [List.length]; lia).
    apply (IH (f32_add total f32_98_5) (count + 1) (w' :: rest') Hnext Hrest).
    cbn [List.length] in *. lia.
Qed.

Lemma averages_print_98_50_checked : averages_print_98_50 1000 f32_zero 0 = true.
Proof. vm_compute. reflexivity. Qed.

(** The end-to-end run: every valid window carries heart rate 72 and SpO2
    98.5. *)
Lemma ButtonPollTimerEventHandler_72_98_5 (i : ButtonPollInput) (ws : list Window)
    (wl : Window) (s : State) :
  press_detected i s ->
  run_processes i ws wl ->
  valid_windows_72_98_5 (ws ++ [wl]) ->
  (1 <= List.length (filter both_valid (ws ++ [wl])) <= 1000)%nat ->
  heart_rate_message_created i = true ->
  spo2_message_created i = true ->
  ButtonPollTimerEventHandler i s
  = Returned tt
      (add_call Call_max30102_shut_down
         (add_call (Call_SendEventAsync (iothubClientHandle s)
                      (code_telemetry_message "SpO2" "98.50"))
            (add_call (Call_SendEventAsync (iothubClientHandle s)
                         (code_telemetry_message "Heart_rate" "72"))
               (add_call Call_max30102_init
                  (set_sendTelemetryButtonState GPIO_Value_Low s))))).
Proof.
  intros Hpress Hrun Hall Hcount Hhr_created Hspo2_created.
  pose proof (valid_windows_72_98_5_filter _ Hall) as Hvalid.
  pose proof (sum_heart_rate_72 _ Hvalid) as Hsum.
  pose proof (averages_print_98_50_sound 1000 f32_zero 0 _
                averages_print_98_50_checked Hvalid Hcount) as Hspo2.
  rewrite (SendTelemetryButtonHandler_run i ws wl s Hpress Hrun).
  - fold (sum_spo2 (filter both_valid (ws ++ [wl]))) in Hspo2.
    rewrite Z.add_0_l in Hspo2. unfold report_averages.
    rewrite Hsum, Hspo2, Hhr_created, Hspo2_created.
    rewrite Z.quot_mul by lia.
    replace (Z.of_nat (List.length (filter both_valid (ws ++ [wl]))) >? 0)
      with true by (symmetry; apply Z.gtb_lt; lia).
    change (snd (snprintf 10 (fmt_d 72))) with "72".
    change (snd (snprintf 10 "98.50")) with "98.50".
    unfold call, when, bind, modify.
    rewrite (proj2 (SendTelemetry_fits "Heart_rate" "72" _ ltac:(cbn; lia))).
    rewrite (proj2 (SendTelemetry_fits "SpO2" "98.50" _ ltac:(cbn; lia))).
    reflexivity.
  - rewrite Hsum. unfold int32_range. change (2 ^ 31) with 2147483648. lia.
  - unfold int32_range. change (2 ^ 31) with 2147483648. lia.
Qed.

Lemma take_length (n : nat) (text : string) : (String.length (take n text) <= n)%nat.
Proof.
  revert text. induction n as [| n IH]; intros text; [cbn; lia |].
  destruct text as [| c rest]; cbn [take String.length]; [lia |].
  specialize (IH rest). lia.
Qed.

Lemma take_nonempty (n : nat) (text : string) :
  (1 <= String.length text)%nat -> (1 <= String.length (take (S n) text))%nat.
Proof. destruct text as [| c rest]; cbn [take String.length]; lia. Qed.

(** A message of a short key and value is sent whole if it is created,
    and dropped if not. *)
Lemma SendTelemetry_short (key value : string) (created : bool) (s : State) :
  (String.length key + String.length value <= 89)%nat ->
  SendTelemetry key value created s
  = Returned tt
      (if created
       then add_call (Call_SendEventAsync (iothubClientHandle s)
                        (code_telemetry_message key value)) s
       else s).
Proof.
  intros Hfits. destruct created.
  - exact (proj2 (SendTelemetry_fits key value s Hfits)).
  - unfold SendTelemetry.
    rewrite (proj1 (SendTelemetry_fits key value s Hfits)).
    destruct (Z.ltb_spec (Z.of_nat (String.length key + String.length value + 10)) 0);
      [lia | reflexivity].
Qed.

Lemma string_append_assoc (a b c : string) : (a ++ b) ++ c = a ++ b ++ c.
Proof. induction a as [| x a IH]; cbn; [reflexivity | rewrite IH; reflexivity]. Qed.

Lemma json_plain_append (a b : string) :
  json_plain (a ++ b) = json_plain a && json_plain b.
Proof.
  induction a as [| x a IH]; cbn [String.append json_plain]; [reflexivity |].
  rewrite IH. apply andb_assoc.
Qed.

Lemma json_plain_take (n : nat) (text : string) :
  json_plain text = true -> json_plain (take n text) = true.
Proof.
  revert text. induction n as [| n IH]; intros text Htext; [reflexivity |].
  destruct text as [| c rest]; [reflexivity |].
  cbn [take json_plain] in *. apply andb_prop in Htext. destruct Htext as [Hc Hrest].
  rewrite Hc, (IH rest Hrest). reflexivity.
Qed.

Lemma json_plain_string_of_uint (d : Decimal.uint) :
  json_plain (NilEmpty.string_of_uint d) = true.
Proof. induction d; cbn [NilEmpty.string_of_uint json_plain]; auto. Qed.

Lemma json_plain_fmt_d (n : Z) : json_plain (fmt_d n) = true.
Proof.
  unfold fmt_d, NilZero.string_of_int, NilZero.string_of_uint.
  destruct (Z.to_int n) as [d | d]; destruct d;
    first [reflexivity | apply (json_plain_string_of_uint (_ d)) | idtac].
  all: cbn [json_plain]; rewrite json_plain_string_of_uint; reflexivity.
Qed.

Lemma json_plain_hex_digit (d : Z) :
  0 <= d < 10 -> json_plain_char (hex_digit d) = true.
Proof.
  intros Hd.
  assert (H : d = 0 \/ d = 1 \/ d = 2 \/ d = 3 \/ d = 4 \/ d = 5 \/ d = 6 \/ d = 7
              \/ d = 8 \/ d = 9) by lia.
  repeat (destruct H as [-> | H]; [reflexivity |]). subst d. reflexivity.
Qed.

Lemma json_plain_two_digits (n : Z) :
  0 <= n < 100 -> json_plain (two_digits n) = true.
Proof.
  intros Hn. unfold two_digits. cbn [json_plain].
  rewrite !json_plain_hex_digit; [reflexivity | |].
  - apply Z.mod_pos_bound. lia.
  - split; [apply Z.div_pos; lia | apply Z.div_lt_upper_bound; lia].
Qed.

Lemma json_plain_fmt_3_2f (x : float32) : json_plain (fmt_3_2f x) = true.
Proof.
  destruct x as [s | s | | s m e]; cbn [fmt_3_2f].
  - destruct s; reflexivity.
  - destruct s; reflexivity.
  - reflexivity.
  - rewrite !json_plain_append, json_plain_fmt_d, json_plain_two_digits
      by (apply Z.mod_pos_bound; lia).
    destruct s; reflexivity.
Qed.

(** Inside a string literal a text that stands for itself is kept as it
    is and leaves the reading inside the literal. *)
Lemma json_compact_in_string (text rest : string) :
  json_plain text = true ->
  json_compact_from true false (text ++ rest)
  = text ++ json_compact_from true false rest.
Proof.
  induction text as [| c text IH]; intros Hplain; [reflexivity |].
  cbn [json_plain] in Hplain. apply andb_prop in Hplain. destruct Hplain as [Hc Htext].
  unfold json_plain_char in Hc. apply andb_prop in Hc. destruct Hc as [Hq Hb].
  apply negb_true_iff in Hq. apply negb_true_iff in Hb.
  cbn [String.append json_compact_from]. rewrite Hq, Hb, (IH Htext). reflexivity.
Qed.

(** The text the code writes and the text the specification writes are the
    same JSON, the object written without blanks. *)
Lemma telemetry_message_compact (key value : string) :
  json_plain key = true ->
  json_plain value = true ->
  json_compact (code_telemetry_message key value) = spec_scenario_message key value
  /\ json_compact (spec_telemetry_message key value) = spec_scenario_message key value.
Proof.
  intros Hkey Hvalue.
  unfold json_compact, code_telemetry_message, spec_telemetry_message,
    spec_scenario_message, quoted, dquote.
  rewrite !string_append_assoc.
  cbn [String.append json_compact_from is_json_blank Ascii.eqb Bool.eqb orb
       dquote_char backslash_char ascii_of_nat ascii_of_pos ascii_of_N
       N.of_nat Pos.of_succ_nat Pos.succ].
  rewrite !(json_compact_in_string key) by exact Hkey.
  cbn [String.append json_compact_from is_json_blank Ascii.eqb Bool.eqb orb
       dquote_char backslash_char ascii_of_nat ascii_of_pos ascii_of_N
       N.of_nat Pos.of_succ_nat Pos.succ].
  rewrite !(json_compact_in_string value) by exact Hvalue.
  split; reflexivity.
Qed.

Lemma sends_flat_objects_refl (s : State) : sends_flat_objects s s.
Proof. exists []. split; [symmetry; apply app_nil_r | constructor]. Qed.

Lemma sends_flat_objects_trans (s1 s2 s3 : State) :
  sends_flat_objects s1 s2 -> sends_flat_objects s2 s3 -> sends_flat_objects s1 s3.
Proof.
  intros (new1 & H1 & F1) (new2 & H2 & F2).
  exists (new1 ++ new2)%list. split.
  - rewrite H2, H1. symmetry. apply app_assoc.
  - apply Forall_app. split; assumption.
Qed.

Lemma sends_flat_objects_call (c : Call) (s : State) :
  sends_flat_object c -> sends_flat_objects s (add_call c s).
Proof. intros Hc. exists [c]. split; [reflexivity | repeat constructor; exact Hc]. Qed.

Lemma SendTelemetry_flat_object (key value : string) (created : bool) :
  json_plain key = true ->
  json_plain value = true ->
  (String.length key + String.length value <= 89)%nat ->
  preserves sends_flat_objects (SendTelemetry key value created).
Proof.
  intros Hkey Hvalue Hfits s s' Hs'.
  rewrite (SendTelemetry_short key value created s Hfits) in Hs'.
  cbn [final_state] in Hs'. injection Hs' as <-.
  destruct created; [| apply sends_flat_objects_refl].
  apply sends_flat_objects_call. intros h message Hc. injection Hc as _ <-.
  exists key, value. split; [exact Hkey | split; [exact Hvalue |]].
  unfold same_json_text.
  destruct (telemetry_message_compact key value Hkey Hvalue) as [-> ->]. reflexivity.
Qed.

(** Every telemetry send of a button poll carries the object of its key
    and value. *)
Lemma ButtonPollTimerEventHandler_flat_objects (i : ButtonPollInput) :
  preserves sends_flat_objects (ButtonPollTimerEventHandler i).
Proof.
  unfold ButtonPollTimerEventHandler, SendTelemetryButtonHandler, IsButtonPressed,
    call, snprintf.
  cbv beta iota zeta.
  assert (Hsend : forall key text created,
             json_plain key = true -> json_plain text = true ->
             (String.length key <= 10)%nat ->
             preserves sends_flat_objects (SendTelemetry key (take 9 text) created)).
  { intros key text created Hkey Htext Hlen.
    apply SendTelemetry_flat_object;
      [exact Hkey | apply json_plain_take; exact Htext |].
    pose proof (take_length 9 text). lia. }
  generalize dependent SendTelemetry. intros send Hsend.
  preservation sends_flat_objects_refl sends_flat_objects_trans;
    try (apply sends_flat_objects_refl);
    try (exists []; split; [symmetry; apply app_nil_r | constructor]);
    try (apply sends_flat_objects_call; intros h message Hc; discriminate Hc);
    try (apply Hsend;
         first [reflexivity | apply json_plain_fmt_d | apply json_plain_fmt_3_2f
               | cbn; lia]).
Qed.

(** C5: the message of a telemetry send is the object
    [{"<key>": "<value>"}] with the value between quotes: the code's
    template writes it with a blank inside each brace, which is the same
    JSON as both writings of the specification.  This holds for every key
    and value that stand for themselves between quotes and fit the buffer,
    and every send that a button poll makes is of this kind, whatever the
    sensor reads.  A run with 1 to 1000 valid windows that all carry heart
    rate 72 and SpO2 98.5, both messages created, makes exactly two sends,
    [{"Heart_rate":"72"}] and then [{"SpO2":"98.50"}]. *)
Theorem C5_telemetry_message :
  (forall key value s,
      json_plain key = true ->
      json_plain value = true ->
      (String.length key + String.length value <= 89)%nat ->
      exists message,
        SendTelemetry key value true s
        = Returned tt (add_call (Call_SendEventAsync (iothubClientHandle s) message) s)
        /\ same_json_text message (spec_telemetry_message key value)
        /\ json_compact message = spec_scenario_message key value)
  /\ (forall i s s',
        final_state (ButtonPollTimerEventHandler i s) = Some s' ->
        exists new,
          calls s' = (calls s ++ new)%list /\ Forall sends_flat_object new)
  /\ (forall i ws wl s,
        press_detected i s ->
        run_processes i ws wl ->
        valid_windows_72_98_5 (ws ++ [wl]) ->
        (1 <= List.length (filter both_valid (ws ++ [wl])) <= 1000)%nat ->
        heart_rate_message_created i = true ->
        spo2_message_created i = true ->
        exists s' heart_rate spo2,
          ButtonPollTimerEventHandler i s = Returned tt s'
          /\ calls s'
             = (calls s
                ++ [Call_max30102_init;
                    Call_SendEventAsync (iothubClientHandle s) heart_rate;
                    Call_SendEventAsync (iothubClientHandle s) spo2;
                    Call_max30102_shut_down])%list
          /\ json_compact heart_rate = "{" ++ quoted "Heart_rate" ++ ":" ++ quoted "72" ++ "}"
          /\ json_compact spo2 = "{" ++ quoted "SpO2" ++ ":" ++ quoted "98.50" ++ "}").
Proof.
  split; [| split].
  - intros key value s Hkey Hvalue Hfits.
    exists (code_telemetry_message key value).
    split; [exact (proj2 (SendTelemetry_fits key value s Hfits)) |].
    destruct (telemetry_message_compact key value Hkey Hvalue) as [Hcode Hspec].
    split; [unfold same_json_text; rewrite Hcode, Hspec; reflexivity | exact Hcode].
  - intros i s s' Hs'.
    exact (ButtonPollTimerEventHandler_flat_objects i s s' Hs').
  - intros i ws wl s Hpress Hrun Hall Hcount Hhr Hspo2.
    do 3 eexists. split.
    + exact (ButtonPollTimerEventHandler_72_98_5 i ws wl s Hpress Hrun Hall Hcount
               Hhr Hspo2).
    + split.
      * cbn [calls add_call set_sendTelemetryButtonState].
        rewrite <- !app_assoc. reflexivity.
      * split; vm_compute; reflexivity.
Qed.

Lemma C5_telemetry_message_witness :
  json_plain "Heart_rate" = true
  /\ json_plain "72" = true
  /\ (exists message,
        SendTelemetry "Heart_rate" "72" true (started 3 21)
        = Returned tt (add_call (Call_SendEventAsync None message) (started 3 21))
        /\ json_compact message = "{" ++ quoted "Heart_rate" ++ ":" ++ quoted "72" ++ "}")
  /\ press_detected example_press (started 3 21)
  /\ run_processes example_press [window_invalid 102; window_72_98_5 104]
       (window_72_98_5 106)
  /\ valid_windows_72_98_5 (windows example_press)
  /\ exists s' heart_rate spo2,
       ButtonPollTimerEventHandler example_press (started 3 21) = Returned tt s'
       /\ calls s'
          = [Call_max30102_init;
             Call_SendEventAsync None heart_rate;
             Call_SendEventAsync None spo2;
             Call_max30102_shut_down]
       /\ json_compact heart_rate = "{" ++ quoted "Heart_rate" ++ ":" ++ quoted "72" ++ "}"
       /\ json_compact spo2 = "{" ++ quoted "SpO2" ++ ":" ++ quoted "98.50" ++ "}".
Proof.
  assert (Hpress : press_detected example_press (started 3 21))
    by (repeat split).
  assert (Hrun : run_processes example_press [window_invalid 102; window_72_98_5 104]
                   (window_72_98_5 106)).
  { split; [reflexivity | split].
    - repeat constructor.
    - discriminate. }
  assert (Hall : valid_windows_72_98_5 (windows example_press)).
  { repeat constructor; discriminate. }
  assert (Hfits : (String.length "Heart_rate" + String.length "72" <= 89)%nat)
    by (cbn; lia).
  split; [reflexivity | split; [reflexivity |]].
  split.
  { destruct (proj1 C5_telemetry_message "Heart_rate" "72" (started 3 21)
                eq_refl eq_refl Hfits) as (message & Hsend & _ & Hcompact).
    exists message. split; [exact Hsend | exact Hcompact]. }
  split; [exact Hpress | split; [exact Hrun | split; [exact Hall |]]].
  refine (proj2 (proj2 C5_telemetry_message) example_press _ _ (started 3 21)
            Hpress Hrun Hall _ eq_refl eq_refl).
  cbn. lia.
Defined.

(** ** Callbacks run on an existing client handle *)

Lemma keeps_callbacks_on_handle_refl (s : State) : keeps_callbacks_on_handle s s.
Proof. intros H. exact H. Qed.

Lemma keeps_callbacks_on_handle_trans (s1 s2 s3 : State) :
  keeps_callbacks_on_handle s1 s2 -> keeps_callbacks_on_handle s2 s3 ->
  keeps_callbacks_on_handle s1 s3.
Proof. unfold keeps_callbacks_on_handle. auto. Qed.

Ltac callbacks_steps :=
  preservation keeps_callbacks_on_handle_refl keeps_callbacks_on_handle_trans;
  try assumption;
  try (unfold keeps_callbacks_on_handle, callbacks_on_handle; cbn; auto; fail).

Lemma SetupAzureClient_callbacks (o : ProvisioningOutcome) :
  preserves keeps_callbacks_on_handle (SetupAzureClient o).
Proof.
  intros s s' Hs' _.
  destruct (prov_result o) eqn:Hr.
  1: destruct (SetupAzureClient_success o s Hr) as (s1 & Hrun & _ & _ & _ & _ & Hcb);
     rewrite Hrun in Hs'; injection Hs' as <-; exact Hcb.
  all: assert (Hf : failed o) by (unfold failed; rewrite Hr; discriminate);
    destruct (SetupAzureClient_failure o s Hf) as (s1 & Hrun & _ & _ & _ & Htw & Hcs);
    rewrite Hrun in Hs'; injection Hs' as <-;
    intros [H | H]; congruence.
Qed.

Lemma deliver_all_callbacks (json_parse_string : string -> option JSON_Value)
    (cbs : list SdkCallback) :
  preserves keeps_callbacks_on_handle (deliver_all json_parse_string cbs).
Proof.
  apply deliver_all_preserves;
    first [ exact keeps_callbacks_on_handle_trans
          | left; intros; unfold keeps_callbacks_on_handle, callbacks_on_handle;
            cbn; auto; fail
          | intros; unfold keeps_callbacks_on_handle, callbacks_on_handle;
            cbn; auto; fail ].
Qed.

Lemma AzureTimerEventHandler_callbacks
    (json_parse_string : string -> option JSON_Value)
    (consume_azureTimerFd networking_result : Z) (isNetworkReady : bool)
    (provisioning : ProvisioningOutcome) (delivered : list SdkCallback) :
  preserves keeps_callbacks_on_handle
    (AzureTimerEventHandler json_parse_string consume_azureTimerFd networking_result
       isNetworkReady provisioning delivered).
Proof.
  unfold AzureTimerEventHandler, IoTHubDeviceClient_LL_DoWork, call.
  generalize (SetupAzureClient_callbacks provisioning).
  generalize (SetupAzureClient provisioning) as setup.
  generalize (deliver_all_callbacks json_parse_string delivered).
  generalize (deliver_all json_parse_string delivered) as work.
  intros work Hwork setup Hsetup.
  callbacks_steps.
Qed.

Lemma ButtonPollTimerEventHandler_callbacks (i : ButtonPollInput) :
  preserves keeps_callbacks_on_handle (ButtonPollTimerEventHandler i).
Proof.
  unfold ButtonPollTimerEventHandler, SendTelemetryButtonHandler, IsButtonPressed,
    SendTelemetry, call.
  callbacks_steps.
Qed.

Lemma main_loop_callbacks (json_parse_string : string -> option JSON_Value)
    (script : list Dispatch) :
  preserves keeps_callbacks_on_handle (main_loop json_parse_string script).
Proof.
  induction script as [| d rest IH]; cbn [main_loop].
  - callbacks_steps.
  - unfold WaitForEventAndCallHandler.
    generalize dependent (main_loop json_parse_string rest). intros loop Hloop.
    destruct d as [| sigterm | i | c n r p cbs].
    + callbacks_steps.
    + callbacks_steps.
    + generalize (ButtonPollTimerEventHandler_callbacks i).
      generalize (ButtonPollTimerEventHandler i) as handler. intros handler Hhandler.
      callbacks_steps.
    + generalize (AzureTimerEventHandler_callbacks json_parse_string c n r p cbs).
      generalize (AzureTimerEventHandler json_parse_string c n r p cbs) as handler.
      intros handler Hhandler.
      callbacks_steps.
Qed.

(** From start-up on, whenever the main loop stands, a registered callback
    has a client handle to report on; so the SDK runs [TwinCallback] only
    while [iothubClientHandle] is not NULL. *)
Lemma callbacks_on_handle_invariant (json_parse_string : string -> option JSON_Value)
    (script : list Dispatch) (revision part_id : Z) (s' : State) :
  final_state (main_loop json_parse_string script (started revision part_id)) = Some s' ->
  callbacks_on_handle s'.
Proof.
  intros Hs'. apply (main_loop_callbacks json_parse_string script _ _ Hs').
  intros [H | H]; discriminate H.
Qed.

Lemma deliver_TwinUpdate (json_parse_string : string -> option JSON_Value)
    (payload : string) (malloc_ok : bool) (s : State) :
  callbacks_on_handle s ->
  (twinCallbackSet s = false ->
   deliver json_parse_string (TwinUpdate payload malloc_ok) s = Returned tt s)
  /\ (twinCallbackSet s = true ->
      iothubClientHandle s <> None
      /\ deliver json_parse_string (TwinUpdate payload malloc_ok) s
         = TwinCallback json_parse_string payload malloc_ok s).
Proof.
  intros Hcb. unfold deliver. step. split; intros Ht; rewrite Ht.
  - reflexivity.
  - split; [apply Hcb; left; exact Ht | reflexivity].
Qed.

(** ** Worked runs *)

(** Two failed attempts and a successful one from start-up: the poll period
    goes 10, 20, 20 and the client ends authenticated on the new handle. *)
Example provisioning_fails_twice_then_succeeds :
  exists s1 s2 s3,
    provisioning_tick no_parser generic_failure (started 3 21) = Returned tt s1
    /\ provisioning_tick no_parser generic_failure s1 = Returned tt s2
    /\ provisioning_tick no_parser (provisioned 7%positive) s2 = Returned tt s3
    /\ map azureIoTPollPeriodSeconds [s1; s2; s3] = [10; 20; 20]
    /\ map azureTimerPeriodSeconds [s1; s2; s3] = [10; 20; 20]
    /\ iothubAuthenticated s3 = true
    /\ iothubClientHandle s3 = Some 7%positive.
Proof.
  do 3 eexists.
  split; [vm_compute; reflexivity |].
  split; [vm_compute; reflexivity |].
  split; [vm_compute; reflexivity |].
  vm_compute. repeat split.
Qed.

(** A run during which no window is valid sends nothing. *)
Example run_without_finger :
  ButtonPollTimerEventHandler example_press_without_finger (started 3 21)
  = Returned tt
      (add_call Call_max30102_shut_down
         (add_call Call_max30102_init
            (set_sendTelemetryButtonState GPIO_Value_Low (started 3 21)))).
Proof. vm_compute. reflexivity. Qed.

(** A run whose clock never reaches the run time is still going on when
    the scripted windows end. *)
Example run_still_going :
  acquisition_loop 100 100 [window_72_98_5 101; window_72_98_5 102] empty_accumulator
  = None.
Proof. reflexivity. Qed.

(** The button held low is one press: the second poll sees no change. *)
Example held_button_is_one_press :
  exists s',
    poll_levels [GPIO_Value_Low; GPIO_Value_Low; GPIO_Value_Low] (started 3 21)
    = Returned 1%nat s'.
Proof. eexists. vm_compute. reflexivity. Qed.

(** An update with a StatusLED whose value is the string ["on"] and then
    one with value false: the LED goes on, then off. *)
Example StatusLED_string_then_false :
  exists s1 s2,
    TwinCallback example_parser StatusLED_string_value_payload true authenticated_example
      = Returned tt s1
    /\ TwinCallback example_parser (StatusLED_payload false) true s1 = Returned tt s2
    /\ map statusLedOn [s1; s2] = [true; false]
    /\ map statusLedGpio [s1; s2] = [GPIO_Value_Low; GPIO_Value_High].
Proof.
  do 2 eexists.
  split; [vm_compute; reflexivity |].
  split; [vm_compute; reflexivity |].
  vm_compute. repeat split.
Qed.

(** Printing: a negative integer, a tie rounded to even, a byte in hex. *)
Example formats :
  fmt_d (-42) = "-42"
  /\ fmt_3_2f (f32_of_binary 1 (-3)) = "0.12"
  /\ fmt_3_2f (f32_of_binary 3 (-3)) = "0.38"
  /\ fmt_3_2f f32_98_5 = "98.50"
  /\ fmt_02X 21 = "15"
  /\ fmt_02X 255 = "FF".
Proof. vm_compute. repeat split. Qed.

(** * Further properties of the code *)

(** ** Start-up *)

Lemma c_str_fixed_cons (c : ascii) (rest : string) :
  c_str (String c rest) = String c rest ->
  Ascii.eqb c NUL = false /\ c_str rest = rest.
Proof.
  cbn [c_str]. destruct (Ascii.eqb c NUL); intros H; [discriminate H |].
  injection H as H. auto.
Qed.

(** X1: the scope id that [main] stores with [strncpy] in its buffer of
    [n] = 20 bytes reads back as the argument when the argument is shorter
    than the buffer; an argument of [n] characters or more fills the
    buffer with its first [n] characters and leaves no terminator in it. *)
Theorem X1_scopeId_terminator (n : nat) (scope : string) :
  c_str scope = scope ->
  String.length (strncpy n scope) = n
  /\ ((String.length scope < n)%nat -> c_str (strncpy n scope) = scope)
  /\ ((n <= String.length scope)%nat ->
      strncpy n scope = take n scope /\ c_str (strncpy n scope) = strncpy n scope).
Proof.
  revert scope. induction n as [| n IH]; intros scope Hscope.
  - split; [reflexivity | split; [cbn; lia | intros _; split; reflexivity]].
  - destruct scope as [| c rest].
    + split; [cbn; f_equal; apply (IH EmptyString eq_refl) |].
      split; [intros _; reflexivity | cbn; lia].
    + destruct (c_str_fixed_cons c rest Hscope) as [Hc Hrest].
      destruct (IH rest Hrest) as (Hlen & Hshort & Hlong).
      cbn [strncpy]. rewrite Hc. cbn [String.length c_str take]. rewrite Hc.
      split; [f_equal; exact Hlen |]. split.
      * intros H. rewrite Hshort by lia. reflexivity.
      * intros H. destruct (Hlong ltac:(lia)) as [Htake Hfull].
        rewrite Hfull, Htake. split; reflexivity.
Qed.

Lemma X1_scopeId_terminator_witness :
  c_str "0ne00000ABC" = "0ne00000ABC"
  /\ c_str (strncpy SCOPEID_LENGTH "0ne00000ABC") = "0ne00000ABC".
Proof.
  split; [reflexivity |].
  refine (proj1 (proj2 (X1_scopeId_terminator SCOPEID_LENGTH "0ne00000ABC" eq_refl)) _).
  unfold SCOPEID_LENGTH. cbn [String.length]. lia.
Defined.

Lemma ltb_0_leb (v : Z) : (v <? 0) = negb (0 <=? v).
Proof. apply Z.ltb_antisym. Qed.

Lemma InitPeripheralsAndHandlers_status (a : InitAnswers) (s : State) (p : Peripherals) :
  fst (fst (InitPeripheralsAndHandlers a s p))
  = (if tested_opens_succeed a then 0 else -1).
Proof.
  unfold InitPeripheralsAndHandlers, tested_opens_succeed, InitHR4.
  cbn [fd set_fd io_call Descriptor_eqb].
  rewrite !ltb_0_leb.
  destruct (0 <=? CreateEpollFd a); cbn [negb andb]; [| reflexivity].
  destruct (0 <=? GPIO_OpenAsInput_SAMPLE_BUTTON_1 a); cbn [negb andb]; [| reflexivity].
  destruct (0 <=? GPIO_OpenAsInput_SAMPLE_BUTTON_2 a); cbn [negb andb]; [| reflexivity].
  destruct (0 <=? GPIO_OpenAsOutput_SAMPLE_LED a); cbn [negb andb]; [| reflexivity].
  destruct (0 <=? CreateTimerFdAndAddToEpoll_buttonPoll a); reflexivity.
Qed.

(** X2: [InitPeripheralsAndHandlers] returns 0 exactly when the epoll
    descriptor, the two buttons, the LED and the button timer were opened,
    and -1 otherwise; whether the Azure timer was created has no
    influence, the test after its creation looks at the button timer: on
    a failed creation start-up still succeeds, with [azureTimerFd]
    negative and the timer period never programmed. *)
Theorem X2_init_status (a : InitAnswers) (s : State) (p : Peripherals) :
  let '(status, s', p') := InitPeripheralsAndHandlers a s p in
  status = (if tested_opens_succeed a then 0 else -1)
  /\ (tested_opens_succeed a = true ->
      fd p' azureTimerFd = CreateTimerFdAndAddToEpoll_azure a
      /\ azureIoTPollPeriodSeconds s' = AzureIoTDefaultPollPeriodSeconds
      /\ azureTimerPeriodSeconds s'
         = if CreateTimerFdAndAddToEpoll_azure a <? 0
           then azureTimerPeriodSeconds s
           else AzureIoTDefaultPollPeriodSeconds).
Proof.
  unfold InitPeripheralsAndHandlers, tested_opens_succeed, InitHR4.
  cbn [fd set_fd io_call Descriptor_eqb].
  rewrite !ltb_0_leb.
  destruct (0 <=? CreateEpollFd a); cbn [negb andb]; [| split; [reflexivity | discriminate]].
  destruct (0 <=? GPIO_OpenAsInput_SAMPLE_BUTTON_1 a); cbn [negb andb];
    [| split; [reflexivity | discriminate]].
  destruct (0 <=? GPIO_OpenAsInput_SAMPLE_BUTTON_2 a); cbn [negb andb];
    [| split; [reflexivity | discriminate]].
  destruct (0 <=? GPIO_OpenAsOutput_SAMPLE_LED a); cbn [negb andb];
    [| split; [reflexivity | discriminate]].
  destruct (0 <=? CreateTimerFdAndAddToEpoll_buttonPoll a); cbn [negb andb];
    [| split; [reflexivity | discriminate]].
  split; [reflexivity |]. intros _.
  destruct (0 <=? CreateTimerFdAndAddToEpoll_azure a); cbn; repeat split.
Qed.

(** X3: start-up opens in a fixed order and stops at the first tested open
    that fails: from the initial descriptors, each one holds the system's
    answer when all tested opens before it succeeded and is still -1
    otherwise.  The opens of the sensor (interrupt pin, I2C bus) are not
    tested. *)
Theorem X3_init_descriptors (a : InitAnswers) (s : State) :
  let '(_, _, p') := InitPeripheralsAndHandlers a s initial_peripherals in
  let ok1 := 0 <=? CreateEpollFd a in
  let ok2 := ok1 && (0 <=? GPIO_OpenAsInput_SAMPLE_BUTTON_1 a) in
  let ok3 := ok2 && (0 <=? GPIO_OpenAsInput_SAMPLE_BUTTON_2 a) in
  let ok4 := ok3 && (0 <=? GPIO_OpenAsOutput_SAMPLE_LED a) in
  let ok5 := ok4 && (0 <=? CreateTimerFdAndAddToEpoll_buttonPoll a) in
  fd p' epollFd = CreateEpollFd a
  /\ fd p' sendMessageButtonGpioFd
     = (if ok1 then GPIO_OpenAsInput_SAMPLE_BUTTON_1 a else -1)
  /\ fd p' sendTelemetryButtonGpioFd
     = (if ok2 then GPIO_OpenAsInput_SAMPLE_BUTTON_2 a else -1)
  /\ fd p' deviceTwinStatusLedGpioFd
     = (if ok3 then GPIO_OpenAsOutput_SAMPLE_LED a else -1)
  /\ fd p' intPinFd = (if ok4 then GPIO_OpenAsInput_MIKROE_INT a else -1)
  /\ fd p' i2cFd = (if ok4 then I2CMaster_Open a else -1)
  /\ fd p' buttonPollTimerFd
     = (if ok4 then CreateTimerFdAndAddToEpoll_buttonPoll a else -1)
  /\ fd p' azureTimerFd = (if ok5 then CreateTimerFdAndAddToEpoll_azure a else -1).
Proof.
  unfold InitPeripheralsAndHandlers, InitHR4.
  cbn [fd set_fd io_call Descriptor_eqb initial_peripherals].
  rewrite !ltb_0_leb.
  destruct (0 <=? CreateEpollFd a); cbn [negb andb]; [| repeat split].
  destruct (0 <=? GPIO_OpenAsInput_SAMPLE_BUTTON_1 a); cbn [negb andb]; [| repeat split].
  destruct (0 <=? GPIO_OpenAsInput_SAMPLE_BUTTON_2 a); cbn [negb andb]; [| repeat split].
  destruct (0 <=? GPIO_OpenAsOutput_SAMPLE_LED a); cbn [negb andb]; [| repeat split].
  destruct (0 <=? I2CMaster_Open a); cbn [negb];
    destruct (I2CMaster_SetBusSpeed a =? 0); cbn [negb fd io_call];
    destruct (0 <=? CreateTimerFdAndAddToEpoll_buttonPoll a); cbn [negb andb fd];
    repeat split.
Qed.

(** X4: when the tested opens succeed and the Azure timer is created,
    start-up turns the globals of the program's start into [started]: the
    LED high, the sensor's identity stored, the poll period and the timer
    period at the default, nothing else touched and no call made on the
    cloud client. *)
Theorem X4_init_gives_started (a : InitAnswers) (p : Peripherals) :
  tested_opens_succeed a = true ->
  0 <= CreateTimerFdAndAddToEpoll_azure a ->
  let '(status, s', _) := InitPeripheralsAndHandlers a initial_globals p in
  status = 0 /\ s' = started (max30102_get_revision a) (max30102_get_part_id a).
Proof.
  intros Hok Hazure. apply Z.leb_le in Hazure.
  unfold tested_opens_succeed in Hok.
  apply andb_prop in Hok. destruct Hok as [Hok H5].
  apply andb_prop in Hok. destruct Hok as [Hok H4].
  apply andb_prop in Hok. destruct Hok as [Hok H3].
  apply andb_prop in Hok. destruct Hok as [H1 H2].
  unfold InitPeripheralsAndHandlers, InitHR4.
  cbn [fd set_fd io_call Descriptor_eqb].
  rewrite !ltb_0_leb, H1, H2, H3, H4. cbn [negb].
  destruct (0 <=? I2CMaster_Open a); cbn [negb];
    destruct (I2CMaster_SetBusSpeed a =? 0); cbn [negb fd io_call];
    rewrite H5, Hazure; cbn [negb]; split; reflexivity.
Qed.

Lemma X4_init_gives_started_witness :
  tested_opens_succeed (good_answers 3 21) = true
  /\ 0 <= CreateTimerFdAndAddToEpoll_azure (good_answers 3 21)
  /\ snd (fst (InitPeripheralsAndHandlers (good_answers 3 21) initial_globals
                 initial_peripherals))
     = started 3 21.
Proof.
  assert (Hazure : 0 <= CreateTimerFdAndAddToEpoll_azure (good_answers 3 21))
    by discriminate.
  split; [reflexivity | split; [exact Hazure |]].
  pose proof (X4_init_gives_started (good_answers 3 21) initial_peripherals
                eq_refl Hazure) as H.
  destruct (InitPeripheralsAndHandlers (good_answers 3 21) initial_globals
              initial_peripherals) as [[status s'] p'].
  exact (proj2 H).
Defined.

(** ** The program as a whole *)

(** X5: started with anything but exactly one argument, [main] returns -1
    at once: nothing is opened, no global is touched. *)
Theorem X5_main_usage (json_parse_string : string -> option JSON_Value)
    (argv : list string) (a : InitAnswers) (script : list Dispatch) :
  List.length argv <> 2%nat ->
  main json_parse_string argv a script
  = Main_returned (-1) initial_globals initial_peripherals.
Proof.
  intros Hargc.
  destruct argv as [| prog [| scope [| extra more]]]; try reflexivity.
  cbn in Hargc. congruence.
Qed.

Lemma X5_main_usage_witness :
  List.length ["app"] <> 2%nat
  /\ main no_parser ["app"] (good_answers 3 21) [Wait_failed]
     = Main_returned (-1) initial_globals initial_peripherals.
Proof.
  assert (H : List.length ["app"] <> 2%nat) by discriminate.
  split; [exact H |].
  exact (X5_main_usage no_parser ["app"] (good_answers 3 21) [Wait_failed] H).
Defined.

(** Start-up makes no call on the cloud client and leaves the termination
    flag and the scope id alone. *)
Lemma InitPeripheralsAndHandlers_frame (a : InitAnswers) (s : State) (p : Peripherals) :
  let '(_, s', p') := InitPeripheralsAndHandlers a s p in
  calls s' = calls s
  /\ terminationRequired s' = terminationRequired s
  /\ iothubAuthenticated s' = iothubAuthenticated s
  /\ scopeId p' = scopeId p.
Proof.
  unfold InitPeripheralsAndHandlers, InitHR4.
  cbn [fd set_fd io_call Descriptor_eqb].
  destruct (CreateEpollFd a <? 0); [repeat split |].
  destruct (GPIO_OpenAsInput_SAMPLE_BUTTON_1 a <? 0); [repeat split |].
  destruct (GPIO_OpenAsInput_SAMPLE_BUTTON_2 a <? 0); [repeat split |].
  destruct (GPIO_OpenAsOutput_SAMPLE_LED a <? 0); [repeat split |].
  destruct (I2CMaster_Open a <? 0);
    [| destruct (I2CMaster_SetBusSpeed a =? 0); cbn [negb fd io_call]];
    (destruct (CreateTimerFdAndAddToEpoll_buttonPoll a <? 0); [repeat split |]);
    destruct (CreateTimerFdAndAddToEpoll_azure a <? 0); repeat split.
Qed.

(** X6: when a tested open of start-up fails, [main] does not enter the
    main loop, whatever events are pending, and returns 0, the status of
    success.  On the way it puts the LED off when the LED was opened, its
    only call besides those of start-up, and hands each of its eight
    descriptors, as start-up left them, opened or still -1, to
    [CloseFdAndPrintError], in the order of the source. *)
Theorem X6_main_after_failed_startup
    (json_parse_string : string -> option JSON_Value)
    (prog scope : string) (a : InitAnswers) (script : list Dispatch) :
  tested_opens_succeed a = false ->
  exists status0 s0 p0 s p,
    InitPeripheralsAndHandlers a initial_globals
      (set_scopeId (strncpy SCOPEID_LENGTH scope) initial_peripherals)
    = (status0, s0, p0)
    /\ main json_parse_string [prog; scope] a script = Main_returned 0 s p
    /\ terminationRequired s = true
    /\ iothubAuthenticated s = false
    /\ calls s = (if 0 <=? fd p deviceTwinStatusLedGpioFd
                  then [Call_GPIO_SetValue_StatusLed GPIO_Value_High] else [])
    /\ (forall d, fd p d = fd p0 d)
    /\ scopeId p = scopeId p0
    /\ io p = (io p0 ++ close_calls p0)%list.
Proof.
  intros Hfail. unfold main.
  pose proof (InitPeripheralsAndHandlers_status a initial_globals
                (set_scopeId (strncpy SCOPEID_LENGTH scope) initial_peripherals))
    as Hstatus.
  pose proof (InitPeripheralsAndHandlers_frame a initial_globals
                (set_scopeId (strncpy SCOPEID_LENGTH scope) initial_peripherals))
    as Hframe.
  destruct (InitPeripheralsAndHandlers a initial_globals
              (set_scopeId (strncpy SCOPEID_LENGTH scope) initial_peripherals))
    as [[status s0] p0].
  rewrite Hfail in Hstatus. cbn [fst] in Hstatus. subst status.
  destruct Hframe as (Hcalls & _ & Hauth & _).
  cbn [Z.eqb negb].
  rewrite main_loop_stops by reflexivity.
  unfold ClosePeripheralsAndHandlers. cbn [fd io_call].
  do 5 eexists. split; [reflexivity |]. split; [reflexivity |].
  cbn [fd io scopeId io_call].
  split; [| split; [| split; [| split; [reflexivity | split; [reflexivity |]]]]].
  - destruct (0 <=? fd p0 deviceTwinStatusLedGpioFd); reflexivity.
  - destruct (0 <=? fd p0 deviceTwinStatusLedGpioFd);
      cbn [iothubAuthenticated set_statusLedGpio add_call set_terminationRequired];
      exact Hauth.
  - destruct (0 <=? fd p0 deviceTwinStatusLedGpioFd);
      cbn [calls set_statusLedGpio add_call set_terminationRequired];
      rewrite Hcalls; reflexivity.
  - unfold close_calls. rewrite <- !app_assoc. reflexivity.
Qed.

Lemma X6_main_after_failed_startup_witness :
  tested_opens_succeed answers_without_led = false
  /\ exists s p,
       main no_parser ["app"; "0ne00000ABC"] answers_without_led
         [Ready_buttonPollTimer example_press]
       = Main_returned 0 s p
       /\ calls s = []
       /\ io p = [P_CloseFdAndPrintError (-1) "ButtonTimer";
                  P_CloseFdAndPrintError (-1) "AzureTimer";
                  P_CloseFdAndPrintError 4 "SendMessageButton";
                  P_CloseFdAndPrintError 5 "SendTelemetryButton";
                  P_CloseFdAndPrintError (-1) "StatusLed";
                  P_CloseFdAndPrintError (-1) "MIKROE_INT";
                  P_CloseFdAndPrintError (-1) "MIKROE_I2C";
                  P_CloseFdAndPrintError 3 "Epoll"].
Proof.
  split; [reflexivity |].
  destruct (X6_main_after_failed_startup no_parser "app" "0ne00000ABC"
              answers_without_led [Ready_buttonPollTimer example_press] eq_refl)
    as (status0 & s0 & p0 & s & p & Hinit & Hmain & _ & _ & Hcalls & Hfd & _ & Hio).
  exists s, p. split; [exact Hmain |].
  assert (Hp0 : p0 = snd (InitPeripheralsAndHandlers answers_without_led initial_globals
                            (set_scopeId (strncpy SCOPEID_LENGTH "0ne00000ABC")
                               initial_peripherals)))
    by (rewrite Hinit; reflexivity).
  split.
  - rewrite Hfd, Hp0 in Hcalls. exact Hcalls.
  - rewrite Hio, Hp0. reflexivity.
Defined.

(** X7: whenever [main] returns with the LED's descriptor open, it returns
    0 and its last call has put the LED off (the pin high), whatever the
    twin updates of the run had set. *)
Theorem X7_led_off_at_exit (json_parse_string : string -> option JSON_Value)
    (argv : list string) (a : InitAnswers) (script : list Dispatch)
    (status : Z) (s : State) (p : Peripherals) :
  main json_parse_string argv a script = Main_returned status s p ->
  0 <= fd p deviceTwinStatusLedGpioFd ->
  status = 0
  /\ statusLedGpio s = GPIO_Value_High
  /\ exists before,
       calls s = (before ++ [Call_GPIO_SetValue_StatusLed GPIO_Value_High])%list.
Proof.
  intros Hmain Hled. unfold main in Hmain.
  destruct argv as [| prog [| scope [| extra more]]];
    try (injection Hmain as _ _ <-; cbn in Hled; lia).
  destruct (InitPeripheralsAndHandlers a initial_globals
              (set_scopeId (strncpy SCOPEID_LENGTH scope) initial_peripherals))
    as [[result s0] p0].
  destruct (main_loop json_parse_string script
              (if negb (result =? 0) then set_terminationRequired true s0 else s0))
    as [rest s1 | s1 | | s1]; try discriminate Hmain.
  unfold ClosePeripheralsAndHandlers in Hmain. injection Hmain as <- <- <-.
  cbn [fd io_call] in Hled. apply Z.leb_le in Hled. rewrite Hled.
  split; [reflexivity | split; [reflexivity |]].
  eexists. reflexivity.
Qed.

Lemma X7_led_off_at_exit_witness :
  exists s p,
    main example_parser ["app"; "0ne00000ABC"] (good_answers 3 21) [Wait_failed]
    = Main_returned 0 s p
    /\ 0 <= fd p deviceTwinStatusLedGpioFd
    /\ statusLedGpio s = GPIO_Value_High.
Proof.
  eassert (Hmain : main example_parser ["app"; "0ne00000ABC"] (good_answers 3 21)
                     [Wait_failed]
                   = Main_returned 0 _ _) by (vm_compute; reflexivity).
  do 2 eexists. split; [exact Hmain |].
  assert (Hled : 0 <= 6) by lia.
  split; [exact Hled |].
  exact (proj1 (proj2 (X7_led_off_at_exit _ _ _ _ _ _ _ Hmain Hled))).
Defined.

(** ** The reason string of the log *)

Lemma GetReasonString_calls_last
    (reasons : list (option IOTHUB_CLIENT_CONNECTION_STATUS_REASON)) :
  forall reasonString fallback,
    reasons <> [] ->
    last (GetReasonString_calls reasons reasonString) fallback
    = last_listed_reason reasons reasonString.
Proof.
  induction reasons as [| reason rest IH]; intros reasonString fallback Hne;
    [congruence |].
  destruct rest as [| reason' rest'].
  - destruct reason; reflexivity.
  - assert (Hrest : reason' :: rest' <> []) by discriminate.
    destruct reason as [r |].
    + pose proof (IH (reason_name r) fallback Hrest) as H.
      destruct reason'; exact H.
    + pose proof (IH reasonString fallback Hrest) as H.
      destruct reason'; exact H.
Qed.

(** X8: [GetReasonString] keeps its answer in a static variable and its
    switch has no default, so for a reason code that the switch does not
    list it returns what the call before returned: after any calls the
    string is the name of the last listed reason passed so far, and
    "unknown reason" only when there was none yet. *)
Theorem X8_reason_string_is_sticky
    (reasons : list (option IOTHUB_CLIENT_CONNECTION_STATUS_REASON))
    (reason : option IOTHUB_CLIENT_CONNECTION_STATUS_REASON) :
  last (GetReasonString_calls (reasons ++ [reason]) "unknown reason") ""
  = last_listed_reason (reasons ++ [reason]) "unknown reason"
  /\ (forall r, reason = Some r ->
        last_listed_reason (reasons ++ [reason]) "unknown reason" = reason_name r)
  /\ (reason = None ->
      last_listed_reason (reasons ++ [reason]) "unknown reason"
      = last_listed_reason reasons "unknown reason").
Proof.
  split.
  - apply GetReasonString_calls_last. destruct reasons; discriminate.
  - generalize "unknown reason" as initial.
    induction reasons as [| first rest IH]; intros initial.
    + split; [intros r -> | intros ->]; reflexivity.
    + destruct first as [r0 |]; cbn [app last_listed_reason]; apply IH.
Qed.

(** ** More on device-twin updates *)

Lemma c_str_append_NUL (before after : string) :
  c_str (before ++ String NUL after) = c_str before.
Proof.
  induction before as [| c rest IH]; [reflexivity |].
  cbn [append c_str]. rewrite IH. reflexivity.
Qed.

(** X9: the parser is given the payload as a C string, so a NUL byte in a
    twin payload ends it: the update is handled as if the payload stopped
    before that byte. *)
Theorem X9_twin_payload_ends_at_NUL
    (json_parse_string : string -> option JSON_Value)
    (payload after : string) (malloc_ok : bool) (s : State) :
  TwinCallback json_parse_string (payload ++ String NUL after) malloc_ok s
  = TwinCallback json_parse_string payload malloc_ok s.
Proof.
  unfold TwinCallback. rewrite c_str_append_NUL. reflexivity.
Qed.

Lemma dotget_object_undotted (object : JSON_Object) :
  json_object_dotget_object object "desired"
  = json_value_get_object (json_object_get_value object "desired")
  /\ json_object_dotget_object object "StatusLED"
     = json_value_get_object (json_object_get_value object "StatusLED")
  /\ json_object_dotget_object object "nprId"
     = json_value_get_object (json_object_get_value object "nprId").
Proof. repeat split. Qed.

(** X10: a twin update that parses but holds no recognised property (the
    document is not an object, or has no member named desired, StatusLED
    or nprId) changes nothing and queues no report, whatever else it
    holds. *)
Theorem X10_unrecognized_properties_ignored
    (json_parse_string : string -> option JSON_Value)
    (payload : string) (rootProperties : JSON_Value) (s : State) :
  json_parse_string (c_str payload) = Some rootProperties ->
  without_recognized_property rootProperties = true ->
  TwinCallback json_parse_string payload true s = Returned tt s.
Proof.
  intros Hparse Hnone. unfold TwinCallback. cbn [negb]. cbv zeta.
  rewrite Hparse. unfold apply_StatusLED, apply_nprId, desired_properties.
  destruct (dotget_object_undotted (json_value_get_object (Some rootProperties)))
    as (Hd & Hl & Hn).
  rewrite Hd. 
  destruct rootProperties as [| text | number | b | items | members];
    try reflexivity.
  cbn [json_value_get_object json_object_get_value] in *.
  cbn [without_recognized_property] in Hnone.
  destruct (lookup_member "desired" members); [discriminate Hnone |].
  cbn [json_value_get_object]. rewrite Hl, Hn.
  destruct (lookup_member "StatusLED" members); [discriminate Hnone |].
  destruct (lookup_member "nprId" members); [discriminate Hnone |].
  reflexivity.
Qed.

Lemma X10_unrecognized_properties_ignored_witness :
  nprId_parser (c_str "{}") = Some (JSONObject [])
  /\ TwinCallback nprId_parser "{}" true authenticated_example
     = Returned tt authenticated_example.
Proof.
  split; [reflexivity |].
  exact (X10_unrecognized_properties_ignored nprId_parser "{}" (JSONObject [])
           authenticated_example eq_refl eq_refl).
Defined.

(** X11: a document that carries the properties under a member "desired"
    (the full twin) is applied exactly as the document of these properties
    alone (a patch). *)
Theorem X11_desired_member_is_unwrapped
    (json_parse_string : string -> option JSON_Value)
    (full patch : string) (desired rest : list (string * JSON_Value))
    (malloc_ok : bool) (s : State) :
  json_parse_string (c_str full)
    = Some (JSONObject (("desired", JSONObject desired) :: rest)) ->
  json_parse_string (c_str patch) = Some (JSONObject desired) ->
  json_object_dotget_object (Some desired) "desired" = None ->
  TwinCallback json_parse_string full malloc_ok s
  = TwinCallback json_parse_string patch malloc_ok s.
Proof.
  intros Hfull Hpatch Hflat. unfold TwinCallback. cbv zeta.
  rewrite Hfull, Hpatch.
  assert (Hsame : desired_properties (JSONObject (("desired", JSONObject desired) :: rest))
                  = desired_properties (JSONObject desired)).
  { unfold desired_properties. cbn [json_value_get_object]. rewrite Hflat.
    reflexivity. }
  rewrite Hsame. reflexivity.
Qed.

Lemma X11_desired_member_is_unwrapped_witness :
  TwinCallback nprId_parser
    ("{" ++ quoted "desired" ++ ":" ++ StatusLED_payload true ++ "}") true
    authenticated_example
  = TwinCallback nprId_parser (StatusLED_payload true) true authenticated_example.
Proof.
  exact (X11_desired_member_is_unwrapped nprId_parser
           ("{" ++ quoted "desired" ++ ":" ++ StatusLED_payload true ++ "}")
           (StatusLED_payload true)
           [("StatusLED", JSONObject [("value", JSONBoolean true)])] [] true
           authenticated_example eq_refl eq_refl eq_refl).
Defined.

Lemma string_report_length (name value : string) :
  String.length (string_report name value)
  = (String.length name + String.length value + 7)%nat.
Proof.
  unfold string_report, quoted, dquote.
  rewrite !length_append. cbn [String.length]. lia.
Qed.

(** A report of at most 39 characters is queued whole. *)
Lemma TwinReportStringState_whole (name value : string) (h : handle) (s : State) :
  iothubClientHandle s = Some h ->
  (String.length name + String.length value <= 32)%nat ->
  TwinReportStringState name value s
  = Returned tt (add_call (Call_SendReportedState h (string_report name value)) s).
Proof.
  intros Hh Hfits. unfold TwinReportStringState, IoTHubDeviceClient_LL_SendReportedState.
  unfold bind at 1. unfold gets at 1. rewrite Hh.
  fold (string_report name value). unfold snprintf.
  rewrite take_all by (rewrite string_report_length; cbn [Nat.pred]; lia).
  destruct (Z.ltb_spec (Z.of_nat (String.length (string_report name value))) 0);
    [lia | reflexivity].
Qed.

(** X12: a desired property nprId whose value is a string of fewer than 12
    characters is stored in [nprId] and echoed in two reports, first under
    the name nprId, then under the name nprId_property, both whole. *)
Theorem X12_nprId_is_stored_and_echoed_twice
    (desiredProperties : JSON_Object) (nprIdState : list (string * JSON_Value))
    (value : string) (h : handle) (s : State) :
  json_object_dotget_object desiredProperties "nprId" = Some nprIdState ->
  json_object_get_string (Some nprIdState) "value" = Some value ->
  c_str value = value ->
  (String.length value < 12)%nat ->
  iothubClientHandle s = Some h ->
  apply_nprId desiredProperties s
  = Returned tt
      (add_call (Call_SendReportedState h (string_report "nprId_property" value))
         (add_call (Call_SendReportedState h (string_report "nprId" value))
            (set_nprId value s))).
Proof.
  intros Hobject Hvalue Hc Hlen Hh.
  unfold apply_nprId, strcpy_nprId. rewrite Hobject, Hvalue, Hc.
  apply Nat.ltb_lt in Hlen. rewrite Hlen.
  unfold bind at 1. unfold modify at 1.
  unfold bind at 1. unfold gets at 1. cbn [nprId set_nprId].
  unfold bind at 1.
  rewrite (TwinReportStringState_whole "nprId" value h (set_nprId value s) Hh)
    by (apply Nat.ltb_lt in Hlen; cbn [String.length]; lia).
  apply TwinReportStringState_whole; [exact Hh |].
  apply Nat.ltb_lt in Hlen. cbn [String.length]. lia.
Qed.

Lemma X12_nprId_is_stored_and_echoed_twice_witness :
  TwinCallback nprId_parser (nprId_payload "01019012345") true authenticated_example
  = Returned tt
      (add_call (Call_SendReportedState 1%positive
                   (string_report "nprId_property" "01019012345"))
         (add_call (Call_SendReportedState 1%positive
                      (string_report "nprId" "01019012345"))
            (set_nprId "01019012345" authenticated_example))).
Proof.
  pose proof (X12_nprId_is_stored_and_echoed_twice
                (desired_properties (nprId_document "01019012345"))
                [("value", JSONString "01019012345")] "01019012345" 1%positive
                authenticated_example eq_refl eq_refl eq_refl
                ltac:(cbn; lia) eq_refl) as H.
  unfold TwinCallback. cbn [negb]. cbv zeta.
  change (nprId_parser (c_str (nprId_payload "01019012345")))
    with (Some (nprId_document "01019012345")).
  unfold bind at 1.
  change (apply_StatusLED (desired_properties (nprId_document "01019012345"))
            authenticated_example)
    with (Returned tt authenticated_example).
  exact H.
Defined.

Lemma apply_StatusLED_returns (desiredProperties : JSON_Object) (s : State) :
  exists s', apply_StatusLED desiredProperties s = Returned tt s'.
Proof.
  unfold apply_StatusLED, GPIO_SetValue_deviceTwinStatusLedGpioFd,
    TwinReportBoolState, IoTHubDeviceClient_LL_SendReportedState.
  destruct (json_object_dotget_object desiredProperties "StatusLED");
    [| eexists; reflexivity].
  step. destruct (iothubClientHandle s); [| eexists; reflexivity].
  unfold snprintf.
  match goal with
  | |- context [if ?len <? 0 then _ else _] => destruct (len <? 0)
  end; eexists; reflexivity.
Qed.

(** X13: the copy of nprId into its buffer of 12 bytes is not guarded: a
    desired property nprId whose value is missing or not a string (the
    copy reads NULL), or a string of 12 characters or more (the copy runs
    over the buffer), takes the update out of the defined behaviour of C,
    whatever else the update holds. *)
Theorem X13_nprId_copy_is_unguarded
    (json_parse_string : string -> option JSON_Value) (payload : string)
    (rootProperties : JSON_Value) (nprIdState : list (string * JSON_Value))
    (s : State) :
  json_parse_string (c_str payload) = Some rootProperties ->
  json_object_dotget_object (desired_properties rootProperties) "nprId"
    = Some nprIdState ->
  match json_object_get_string (Some nprIdState) "value" with
  | None => True
  | Some value => (12 <= String.length (c_str value))%nat
  end ->
  TwinCallback json_parse_string payload true s = Undefined.
Proof.
  intros Hparse Hobject Hvalue. unfold TwinCallback. cbn [negb]. cbv zeta.
  rewrite Hparse. unfold bind at 1.
  destruct (apply_StatusLED_returns (desired_properties rootProperties) s)
    as [s1 Hled].
  rewrite Hled. unfold apply_nprId, strcpy_nprId. rewrite Hobject.
  destruct (json_object_get_string (Some nprIdState) "value") as [value |];
    [| reflexivity].
  destruct (Nat.ltb_spec (String.length (c_str value)) 12); [lia | reflexivity].
Qed.

Lemma X13_nprId_copy_is_unguarded_witness :
  TwinCallback nprId_parser (nprId_payload "010190123456") true authenticated_example
  = Undefined.
Proof.
  refine (X13_nprId_copy_is_unguarded nprId_parser (nprId_payload "010190123456")
            (nprId_document "010190123456") [("value", JSONString "010190123456")]
            authenticated_example eq_refl eq_refl _).
  cbn. lia.
Defined.

(** ** More on the connection status *)

(** X14: a notification "authenticated" marks the client authenticated and
    queues two reports with the sensor's revision and part id as two
    upper-case hex digits after 0x, both whole; without a client handle it
    only marks the client.  The poll period is not among what it writes. *)
Theorem X14_authenticated_notification_reports_sensor
    (reason : IOTHUB_CLIENT_CONNECTION_STATUS_REASON) (s : State) :
  HubConnectionStatusCallback IOTHUB_CLIENT_CONNECTION_AUTHENTICATED reason s
  = Returned tt
      match iothubClientHandle s with
      | Some h =>
          add_call (Call_SendReportedState h
                      (string_report "max30102_part_id"
                         ("0x" ++ fmt_02X (max30102_part_id s))))
            (add_call (Call_SendReportedState h
                         (string_report "max30102_revision"
                            ("0x" ++ fmt_02X (max30102_revision s))))
               (set_iothubAuthenticated true s))
      | None => set_iothubAuthenticated true s
      end.
Proof.
  unfold HubConnectionStatusCallback. step.
  cbn [is_CONNECTION_AUTHENTICATED]. cbv beta.
  cbn [max30102_revision max30102_part_id set_iothubAuthenticated].
  assert (Hsame : iothubClientHandle (set_iothubAuthenticated true s)
                  = iothubClientHandle s) by reflexivity.
  destruct (iothubClientHandle s) as [h |] eqn:Hh.
  - unfold snprintf. cbn [snd Nat.pred].
    rewrite !take_all by (unfold fmt_02X; cbn [String.length append]; lia).
    rewrite (TwinReportStringState_whole "max30102_revision" _ h _ Hsame)
      by (unfold fmt_02X; cbn [String.length append]; lia).
    apply TwinReportStringState_whole; [exact Hsame |].
    unfold fmt_02X. cbn [String.length append]. lia.
  - unfold TwinReportStringState. step. rewrite ?Hsame, ?Hh. step.
    rewrite ?Hsame, ?Hh. reflexivity.
Qed.

(** ** More on the connection life cycle *)

Lemma deliver_all_unregistered (json_parse_string : string -> option JSON_Value)
    (cbs : list SdkCallback) (s : State) :
  twinCallbackSet s = false ->
  connectionStatusCallbackSet s = false ->
  deliver_all json_parse_string cbs s = Returned tt s.
Proof.
  intros Ht Hc. induction cbs as [| cb rest IH]; [reflexivity |].
  cbn [deliver_all]. unfold bind at 1.
  destruct cb as [result reason | payload malloc_ok]; unfold deliver; step;
    rewrite ?Ht, ?Hc; exact IH.
Qed.

Lemma AzureTimerEventHandler_unregistered
    (json_parse_string : string -> option JSON_Value)
    (networking_result : Z) (isNetworkReady : bool)
    (provisioning : ProvisioningOutcome) (delivered : list SdkCallback) (s : State) :
  iothubAuthenticated s = true ->
  twinCallbackSet s = false ->
  connectionStatusCallbackSet s = false ->
  AzureTimerEventHandler json_parse_string 0 networking_result isNetworkReady
    provisioning delivered s
  = Returned tt (add_call (Call_DoWork (iothubClientHandle s)) s).
Proof.
  intros Ha Ht Hc. unfold AzureTimerEventHandler, IoTHubDeviceClient_LL_DoWork.
  cbn [Z.eqb negb].
  destruct (negb (networking_result =? -1)); step; rewrite Ha;
    rewrite ?andb_false_r; step; rewrite ?Ha; step;
    apply deliver_all_unregistered; assumption.
Qed.

Lemma main_loop_cons (json_parse_string : string -> option JSON_Value)
    (d : Dispatch) (rest : list Dispatch) (s : State) :
  terminationRequired s = false ->
  main_loop json_parse_string (d :: rest) s
  = match WaitForEventAndCallHandler json_parse_string d s with
    | Returned r s1 =>
        main_loop json_parse_string rest
          (if negb (r =? 0) then set_terminationRequired true s1 else s1)
    | Aborted s1 => Aborted s1
    | Undefined => Undefined
    | Waiting s1 => Waiting s1
    end.
Proof.
  intros Hrun. cbn [main_loop]. unfold bind at 1. unfold gets at 1. rewrite Hrun.
  unfold bind at 1.
  destruct (WaitForEventAndCallHandler json_parse_string d s) as [r s1 | s1 | | s1];
    try reflexivity.
  unfold bind at 1. unfold when.
  destruct (negb (r =? 0)); reflexivity.
Qed.

Lemma SetupAzureClient_without_keepalive (o : ProvisioningOutcome) (s : State) :
  prov_result o = AZURE_SPHERE_PROV_RESULT_OK ->
  setoption_ok o = false ->
  exists s1,
    SetupAzureClient o s = Returned tt s1
    /\ iothubAuthenticated s1 = true
    /\ twinCallbackSet s1 = false
    /\ connectionStatusCallbackSet s1 = false
    /\ terminationRequired s1 = terminationRequired s
    /\ iothubClientHandle s1 = prov_handle o.
Proof.
  intros Hr Hso.
  destruct o as [r ph so]; cbn in Hr, Hso; subst r so.
  destruct s as [t h a l g p tp n b rv pid tc cc cs].
  destruct h, ph.
  all: eexists; split; [vm_compute; reflexivity |].
  all: vm_compute; repeat split.
Qed.

Lemma main_loop_unregistered (json_parse_string : string -> option JSON_Value)
    (script : list Dispatch) (h : option handle) :
  forallb is_azure_tick script = true ->
  forall s,
    iothubAuthenticated s = true ->
    twinCallbackSet s = false ->
    connectionStatusCallbackSet s = false ->
    terminationRequired s = false ->
    iothubClientHandle s = h ->
    main_loop json_parse_string script s
    = Waiting (fold_left (fun st _ => add_call (Call_DoWork h) st) script s).
Proof.
  induction script as [| d rest IH]; intros Hticks s Ha Ht Hc Hterm Hh.
  - cbn [main_loop fold_left]. step. rewrite Hterm. reflexivity.
  - cbn [forallb] in Hticks. apply andb_prop in Hticks.
    destruct Hticks as [Hd Hrest].
    destruct d as [| sigterm | i | c n r p cbs]; try discriminate Hd.
    cbn [is_azure_tick] in Hd. apply Z.eqb_eq in Hd. subst c.
    rewrite main_loop_cons by exact Hterm.
    cbn [WaitForEventAndCallHandler]. unfold bind at 1.
    rewrite AzureTimerEventHandler_unregistered by assumption.
    cbn [ret Z.eqb negb fold_left]. rewrite Hh.
    apply (IH Hrest); assumption.
Qed.

(** X15: when provisioning succeeds but the keep-alive option cannot be
    set, the client is marked authenticated with no callback registered;
    from then on every tick of the Azure timer, whatever the network
    answers and whatever the service holds for the device, is one call of
    the SDK's work step and nothing else: no twin update or connection
    status reaches the program and provisioning is not attempted again. *)
Theorem X15_stuck_without_keepalive
    (json_parse_string : string -> option JSON_Value)
    (o : ProvisioningOutcome) (script : list Dispatch) (s : State) :
  prov_result o = AZURE_SPHERE_PROV_RESULT_OK ->
  setoption_ok o = false ->
  terminationRequired s = false ->
  forallb is_azure_tick script = true ->
  exists s1,
    SetupAzureClient o s = Returned tt s1
    /\ iothubAuthenticated s1 = true
    /\ twinCallbackSet s1 = false
    /\ connectionStatusCallbackSet s1 = false
    /\ main_loop json_parse_string script s1
       = Waiting (fold_left (fun st _ => add_call (Call_DoWork (prov_handle o)) st)
                    script s1).
Proof.
  intros Hr Hso Hrun Hticks.
  destruct (SetupAzureClient_without_keepalive o s Hr Hso)
    as (s1 & Hsetup & Ha & Ht & Hc & Hterm & Hh).
  exists s1. repeat (split; [assumption |]).
  rewrite Hrun in Hterm.
  apply main_loop_unregistered; assumption.
Qed.

Lemma X15_stuck_without_keepalive_witness :
  exists s1,
    SetupAzureClient provisioned_without_keepalive (started 3 21) = Returned tt s1
    /\ main_loop example_parser
         [Ready_azureTimer 0 0 true (provisioned 2%positive)
            [TwinUpdate (StatusLED_payload true) true;
             ConnectionStatus IOTHUB_CLIENT_CONNECTION_UNAUTHENTICATED
               IOTHUB_CLIENT_CONNECTION_EXPIRED_SAS_TOKEN]] s1
       = Waiting (add_call (Call_DoWork (Some 1%positive)) s1).
Proof.
  destruct (X15_stuck_without_keepalive example_parser provisioned_without_keepalive
              [Ready_azureTimer 0 0 true (provisioned 2%positive)
                 [TwinUpdate (StatusLED_payload true) true;
                  ConnectionStatus IOTHUB_CLIENT_CONNECTION_UNAUTHENTICATED
                    IOTHUB_CLIENT_CONNECTION_EXPIRED_SAS_TOKEN]]
              (started 3 21) eq_refl eq_refl eq_refl eq_refl)
    as (s1 & Hsetup & _ & _ & _ & Hloop).
  exists s1. split; [exact Hsetup | exact Hloop].
Defined.

Lemma keeps_poll_period_invariant_refl (s : State) : keeps_poll_period_invariant s s.
Proof. intros H. exact H. Qed.

Lemma keeps_poll_period_invariant_trans (s1 s2 s3 : State) :
  keeps_poll_period_invariant s1 s2 -> keeps_poll_period_invariant s2 s3 ->
  keeps_poll_period_invariant s1 s3.
Proof. unfold keeps_poll_period_invariant. auto. Qed.

Ltac poll_period_steps :=
  preservation keeps_poll_period_invariant_refl keeps_poll_period_invariant_trans;
  try assumption;
  try (unfold keeps_poll_period_invariant, poll_period_invariant; cbn; auto; fail).

Lemma SetupAzureClient_poll_period (o : ProvisioningOutcome) :
  preserves keeps_poll_period_invariant (SetupAzureClient o).
Proof.
  intros s s' Hs' [Htimer Hperiod].
  destruct (prov_result o) eqn:Hr.
  1: destruct (SetupAzureClient_success o s Hr) as (s1 & Hrun & Hp & Ht & _);
     rewrite Hrun in Hs'; injection Hs' as <-;
     split; [congruence | right; exact Hp].
  all: assert (Hf : failed o) by (unfold failed; rewrite Hr; discriminate);
    destruct (SetupAzureClient_failure o s Hf) as (s1 & Hrun & Hp & Ht & _);
    rewrite Hrun in Hs'; injection Hs' as <-;
    (split; [exact Ht |]);
    rewrite Hp; destruct Hperiod as [-> | ->]; [right | left]; reflexivity.
Qed.

Lemma deliver_all_poll_period (json_parse_string : string -> option JSON_Value)
    (cbs : list SdkCallback) :
  preserves keeps_poll_period_invariant (deliver_all json_parse_string cbs).
Proof.
  apply deliver_all_preserves;
    first [ exact keeps_poll_period_invariant_trans
          | left; intros; unfold keeps_poll_period_invariant, poll_period_invariant;
            cbn; auto; fail
          | intros; unfold keeps_poll_period_invariant, poll_period_invariant;
            cbn; auto; fail ].
Qed.

Lemma main_loop_poll_period (json_parse_string : string -> option JSON_Value)
    (script : list Dispatch) :
  preserves keeps_poll_period_invariant (main_loop json_parse_string script).
Proof.
  induction script as [| d rest IH]; cbn [main_loop].
  - poll_period_steps.
  - unfold WaitForEventAndCallHandler.
    generalize dependent (main_loop json_parse_string rest). intros loop Hloop.
    destruct d as [| sigterm | i | c n r p cbs].
    + poll_period_steps.
    + poll_period_steps.
    + unfold ButtonPollTimerEventHandler, SendTelemetryButtonHandler, IsButtonPressed,
        SendTelemetry, call.
      poll_period_steps.
    + unfold AzureTimerEventHandler, IoTHubDeviceClient_LL_DoWork, call.
      generalize (SetupAzureClient_poll_period p).
      generalize (SetupAzureClient p) as setup.
      generalize (deliver_all_poll_period json_parse_string cbs).
      generalize (deliver_all json_parse_string cbs) as work.
      intros work Hwork setup Hsetup.
      poll_period_steps.
Qed.

Lemma keeps_poll_period_bounded_refl (s : State) : keeps_poll_period_bounded s s.
Proof. intros H. exact H. Qed.

Lemma keeps_poll_period_bounded_trans (s1 s2 s3 : State) :
  keeps_poll_period_bounded s1 s2 -> keeps_poll_period_bounded s2 s3 ->
  keeps_poll_period_bounded s1 s3.
Proof. unfold keeps_poll_period_bounded. auto. Qed.

Ltac poll_bounded_steps :=
  preservation keeps_poll_period_bounded_refl keeps_poll_period_bounded_trans;
  try assumption;
  try (unfold keeps_poll_period_bounded, poll_period_bounded; cbn; auto; fail).

Lemma SetupAzureClient_poll_bounded (o : ProvisioningOutcome) :
  preserves keeps_poll_period_bounded (SetupAzureClient o).
Proof.
  intros s s' Hs' Hperiod. unfold poll_period_bounded.
  destruct (prov_result o) eqn:Hr.
  1: destruct (SetupAzureClient_success o s Hr) as (s1 & Hrun & Hp & _);
     rewrite Hrun in Hs'; injection Hs' as <-; right; exact Hp.
  all: assert (Hf : failed o) by (unfold failed; rewrite Hr; discriminate);
    destruct (SetupAzureClient_failure o s Hf) as (s1 & Hrun & Hp & _);
    rewrite Hrun in Hs'; injection Hs' as <-;
    rewrite Hp; destruct Hperiod as [-> | ->]; [right | left]; reflexivity.
Qed.

Lemma deliver_all_poll_bounded (json_parse_string : string -> option JSON_Value)
    (cbs : list SdkCallback) :
  preserves keeps_poll_period_bounded (deliver_all json_parse_string cbs).
Proof.
  apply deliver_all_preserves;
    first [ exact keeps_poll_period_bounded_trans
          | left; intros; unfold keeps_poll_period_bounded, poll_period_bounded;
            cbn; auto; fail
          | intros; unfold keeps_poll_period_bounded, poll_period_bounded;
            cbn; auto; fail ].
Qed.

Lemma main_loop_poll_bounded (json_parse_string : string -> option JSON_Value)
    (script : list Dispatch) :
  preserves keeps_poll_period_bounded (main_loop json_parse_string script).
Proof.
  induction script as [| d rest IH]; cbn [main_loop].
  - poll_bounded_steps.
  - unfold WaitForEventAndCallHandler.
    generalize dependent (main_loop json_parse_string rest). intros loop Hloop.
    destruct d as [| sigterm | i | c n r p cbs].
    + poll_bounded_steps.
    + poll_bounded_steps.
    + unfold ButtonPollTimerEventHandler, SendTelemetryButtonHandler, IsButtonPressed,
        SendTelemetry, call.
      poll_bounded_steps.
    + unfold AzureTimerEventHandler, IoTHubDeviceClient_LL_DoWork, call.
      generalize (SetupAzureClient_poll_bounded p).
      generalize (SetupAzureClient p) as setup.
      generalize (deliver_all_poll_bounded json_parse_string cbs).
      generalize (deliver_all json_parse_string cbs) as work.
      intros work Hwork setup Hsetup.
      poll_bounded_steps.
Qed.

(** A start-up that succeeds leaves the poll period at the default, and
    the period of the Azure timer too when that timer was created. *)
Lemma InitPeripheralsAndHandlers_periods (a : InitAnswers) (p p0 : Peripherals)
    (s0 : State) :
  InitPeripheralsAndHandlers a initial_globals p = (0, s0, p0) ->
  azureIoTPollPeriodSeconds s0 = AzureIoTDefaultPollPeriodSeconds
  /\ (0 <= CreateTimerFdAndAddToEpoll_azure a ->
      azureTimerPeriodSeconds s0 = AzureIoTDefaultPollPeriodSeconds).
Proof.
  unfold InitPeripheralsAndHandlers, InitHR4.
  cbn [fd set_fd io_call Descriptor_eqb].
  destruct (CreateEpollFd a <? 0); [discriminate |].
  destruct (GPIO_OpenAsInput_SAMPLE_BUTTON_1 a <? 0); [discriminate |].
  destruct (GPIO_OpenAsInput_SAMPLE_BUTTON_2 a <? 0); [discriminate |].
  destruct (GPIO_OpenAsOutput_SAMPLE_LED a <? 0); [discriminate |].
  destruct (I2CMaster_Open a <? 0);
    [| destruct (I2CMaster_SetBusSpeed a =? 0); cbn [negb fd io_call]];
    (destruct (CreateTimerFdAndAddToEpoll_buttonPoll a <? 0); [discriminate |]);
    destruct (Z.ltb_spec (CreateTimerFdAndAddToEpoll_azure a) 0);
    intros Hinit; injection Hinit as <- _;
    (split; [reflexivity | intros Hazure; first [lia | reflexivity]]).
Qed.

(** X16: after a start-up that succeeds, whatever happens in the main
    loop, the poll period is 10 s or 20 s: no sequence of events brings it
    above the default.  When start-up has created the Azure timer, the
    period programmed into that timer is the poll period between any two
    turns of the loop. *)
Theorem X16_poll_period_invariant (json_parse_string : string -> option JSON_Value)
    (a : InitAnswers) (p p0 : Peripherals) (s0 : State)
    (script : list Dispatch) (s' : State) :
  InitPeripheralsAndHandlers a initial_globals p = (0, s0, p0) ->
  final_state (main_loop json_parse_string script s0) = Some s' ->
  (azureIoTPollPeriodSeconds s' = 10 \/ azureIoTPollPeriodSeconds s' = 20)
  /\ (0 <= CreateTimerFdAndAddToEpoll_azure a ->
      azureTimerPeriodSeconds s' = azureIoTPollPeriodSeconds s').
Proof.
  intros Hinit Hs'.
  destruct (InitPeripheralsAndHandlers_periods a p p0 s0 Hinit) as [Hpoll Htimer].
  split.
  - apply (main_loop_poll_bounded json_parse_string script _ _ Hs').
    right. exact Hpoll.
  - intros Hazure.
    apply (main_loop_poll_period json_parse_string script _ _ Hs').
    split; [rewrite Hpoll; apply Htimer; exact Hazure | right; exact Hpoll].
Qed.

Lemma X16_poll_period_invariant_witness :
  exists p0 s',
    InitPeripheralsAndHandlers (good_answers 3 21) initial_globals initial_peripherals
    = (0, started 3 21, p0)
    /\ final_state (main_loop no_parser
                      [Ready_azureTimer 0 0 true generic_failure [];
                       Ready_azureTimer 0 0 true generic_failure [];
                       Ready_azureTimer 0 0 true generic_failure []]
                      (started 3 21)) = Some s'
    /\ azureIoTPollPeriodSeconds s' = 10
    /\ azureTimerPeriodSeconds s' = 10.
Proof.
  eassert (Hinit : InitPeripheralsAndHandlers (good_answers 3 21) initial_globals
                     initial_peripherals = (0, started 3 21, _))
    by (vm_compute; reflexivity).
  eassert (Hs' : final_state (main_loop no_parser
                   [Ready_azureTimer 0 0 true generic_failure [];
                    Ready_azureTimer 0 0 true generic_failure [];
                    Ready_azureTimer 0 0 true generic_failure []]
                   (started 3 21)) = Some _) by (vm_compute; reflexivity).
  do 2 eexists. split; [exact Hinit |]. split; [exact Hs' |].
  destruct (X16_poll_period_invariant _ _ _ _ _ _ _ Hinit Hs') as [_ Htimer].
  assert (Hazure : 0 <= CreateTimerFdAndAddToEpoll_azure (good_answers 3 21))
    by (cbn; lia).
  split; [reflexivity |].
  rewrite (Htimer Hazure). reflexivity.
Defined.

(** ** More on the main loop *)

Lemma main_loop_append (json_parse_string : string -> option JSON_Value)
    (script later : list Dispatch) :
  forall s,
    match main_loop json_parse_string script s with
    | Returned rest s' =>
        main_loop json_parse_string (script ++ later) s
        = Returned (rest ++ later)%list s'
    | Aborted s' => main_loop json_parse_string (script ++ later) s = Aborted s'
    | Undefined => main_loop json_parse_string (script ++ later) s = Undefined
    | Waiting _ => True
    end.
Proof.
  induction script as [| d rest IH]; intros s.
  - destruct (terminationRequired s) eqn:Hstop.
    + rewrite !main_loop_stops by exact Hstop. reflexivity.
    + cbn [main_loop]. step. rewrite Hstop. exact I.
  - destruct (terminationRequired s) eqn:Hstop.
    + rewrite !main_loop_stops by exact Hstop. reflexivity.
    + cbn [app]. rewrite !main_loop_cons by exact Hstop.
      destruct (WaitForEventAndCallHandler json_parse_string d s)
        as [r s1 | s1 | | s1]; try reflexivity; try exact I.
      apply IH.
Qed.

(** X17: once the main loop has ended, by termination, by abort or by
    leaving the defined behaviour, events that come later are not looked
    at: a longer script gives the same end, the later turns left untaken. *)
Theorem X17_main_loop_ignores_later_events
    (json_parse_string : string -> option JSON_Value)
    (script later : list Dispatch) (s : State) :
  (forall rest s',
      main_loop json_parse_string script s = Returned rest s' ->
      main_loop json_parse_string (script ++ later) s = Returned (rest ++ later)%list s')
  /\ (forall s',
        main_loop json_parse_string script s = Aborted s' ->
        main_loop json_parse_string (script ++ later) s = Aborted s')
  /\ (main_loop json_parse_string script s = Undefined ->
      main_loop json_parse_string (script ++ later) s = Undefined).
Proof.
  pose proof (main_loop_append json_parse_string script later s) as H.
  repeat split; intros; match goal with
                        | E : main_loop _ _ _ = _ |- _ => rewrite E in H; exact H
                        end.
Qed.

(** X18: a failed wait, a SIGTERM, and a timer event that its handler
    cannot consume each end the main loop with that turn and change
    nothing but the termination flag; a wait interrupted by another signal
    changes nothing at all and the loop goes on. *)
Theorem X18_fatal_turns (json_parse_string : string -> option JSON_Value)
    (d : Dispatch) (rest : list Dispatch) (s : State) :
  terminationRequired s = false ->
  (fatal_turn d = true ->
   main_loop json_parse_string (d :: rest) s
   = Returned rest (set_terminationRequired true s))
  /\ (d = Wait_interrupted false ->
      main_loop json_parse_string (d :: rest) s = main_loop json_parse_string rest s).
Proof.
  intros Hrun. split.
  - intros Hfatal. rewrite main_loop_cons by exact Hrun.
    destruct d as [| sigterm | i | c n r p cbs]; cbn [fatal_turn] in Hfatal.
    + cbn. apply main_loop_stops. reflexivity.
    + subst sigterm. cbn. apply main_loop_stops. reflexivity.
    + cbn [WaitForEventAndCallHandler]. unfold bind at 1.
      unfold ButtonPollTimerEventHandler. rewrite Hfatal.
      cbn. apply main_loop_stops. reflexivity.
    + cbn [WaitForEventAndCallHandler]. unfold bind at 1.
      unfold AzureTimerEventHandler. rewrite Hfatal.
      cbn. apply main_loop_stops. reflexivity.
  - intros ->. rewrite main_loop_cons by exact Hrun. reflexivity.
Qed.

Lemma X18_fatal_turns_witness :
  terminationRequired (started 3 21) = false
  /\ main_loop no_parser
       [Ready_azureTimer (-1) 0 true (provisioned 2%positive) [];
        Ready_buttonPollTimer example_press] (started 3 21)
     = Returned [Ready_buttonPollTimer example_press]
         (set_terminationRequired true (started 3 21)).
Proof.
  split; [reflexivity |].
  exact (proj1 (X18_fatal_turns no_parser
                  (Ready_azureTimer (-1) 0 true (provisioned 2%positive) [])
                  [Ready_buttonPollTimer example_press] (started 3 21) eq_refl)
           eq_refl).
Defined.

Lemma X17_main_loop_ignores_later_events_witness :
  main_loop no_parser [Wait_failed] (started 3 21)
  = Returned [] (set_terminationRequired true (started 3 21))
  /\ main_loop no_parser ([Wait_failed] ++ [Ready_buttonPollTimer example_press])%list
       (started 3 21)
     = Returned ([] ++ [Ready_buttonPollTimer example_press])%list
         (set_terminationRequired true (started 3 21)).
Proof.
  split; [reflexivity |].
  exact (proj1 (X17_main_loop_ignores_later_events no_parser [Wait_failed]
                  [Ready_buttonPollTimer example_press] (started 3 21))
           [] (set_terminationRequired true (started 3 21)) eq_refl).
Defined.

(** ** More on the button poll *)

(** X19: a button poll ends in one of four ways, whatever it reads: the
    termination flag is set and nothing else; only the level read is
    stored; the sensor is started and the run waits for its windows; or
    the sensor is started, at most two telemetry messages are handed to
    the current client handle, each a whole message of one of the two keys
    with a value of one to nine characters, and the sensor is shut down.
    It never aborts and never leaves a finished run with the sensor on. *)
Theorem X19_button_poll_outcomes (i : ButtonPollInput) (s : State) :
  let s0 := set_sendTelemetryButtonState (gpio_value i) s in
  let r := ButtonPollTimerEventHandler i s in
  r = Returned tt (set_terminationRequired true s)
  \/ r = Returned tt s0
  \/ r = Waiting (add_call Call_max30102_init s0)
  \/ exists sends,
       (List.length sends <= 2)%nat
       /\ Forall (is_telemetry_send (iothubClientHandle s)) sends
       /\ r = Returned tt
                (log_calls (Call_max30102_init :: sends ++ [Call_max30102_shut_down])%list
                   s0).
Proof.
  intros s0 r.
  assert (Hr : r = ButtonPollTimerEventHandler i s) by reflexivity.
  clearbody r.
  unfold ButtonPollTimerEventHandler, SendTelemetryButtonHandler in Hr.
  destruct (Z.eqb_spec (consume_buttonPollTimerFd i) 0) as [_ |]; cbn [negb] in Hr;
    [| left; exact Hr].
  destruct (Z.eqb_spec (gpio_result i) 0) as [Hresult | Hresult].
  2: { left. unfold IsButtonPressed in Hr. apply Z.eqb_neq in Hresult.
       rewrite Hresult in Hr. exact Hr. }
  rewrite Hresult in Hr.
  unfold bind at 1 in Hr. rewrite IsButtonPressed_read in Hr. fold s0 in Hr.
  destruct (button_edge (sendTelemetryButtonState s) (gpio_value i));
    cbn [when] in Hr; [| right; left; exact Hr].
  unfold bind at 1, call at 1, modify at 1 in Hr.
  destruct (acquisition_loop (time_start i) (time_start i) (windows i) _) as [acc |];
    [| right; right; left; exact Hr].
  right; right; right.
  unfold snprintf in Hr. rewrite fmt_d_nonempty, fmt_3_2f_nonempty in Hr.
  cbn [when Nat.pred] in Hr.
  set (hr := take 9 (fmt_d (Z.quot (average_hr acc) (nbr_readings acc)))) in Hr.
  set (spo2 := take 9 (fmt_3_2f (f32_div (average_spo2 acc)
                                   (f32_of_int32 (nbr_readings acc))))) in Hr.
  assert (Hhr : (1 <= String.length hr <= 9)%nat).
  { split; [apply take_nonempty | apply take_length].
    pose proof (fmt_d_nonempty (Z.quot (average_hr acc) (nbr_readings acc))) as H.
    apply Z.gtb_lt in H. lia. }
  assert (Hspo2 : (1 <= String.length spo2 <= 9)%nat).
  { split; [apply take_nonempty | apply take_length].
    pose proof (fmt_3_2f_nonempty (f32_div (average_spo2 acc)
                                     (f32_of_int32 (nbr_readings acc)))) as H.
    apply Z.gtb_lt in H. lia. }
  clearbody hr spo2.
  set (s1 := add_call Call_max30102_init s0) in Hr.
  assert (Hh : iothubClientHandle s1 = iothubClientHandle s) by reflexivity.
  assert (Hsend1 : is_telemetry_send (iothubClientHandle s)
                     (Call_SendEventAsync (iothubClientHandle s)
                        (code_telemetry_message "Heart_rate" hr)))
    by (exists "Heart_rate", hr; auto).
  assert (Hsend2 : is_telemetry_send (iothubClientHandle s)
                     (Call_SendEventAsync (iothubClientHandle s)
                        (code_telemetry_message "SpO2" spo2)))
    by (exists "SpO2", spo2; auto).
  destruct (nbr_readings acc >? 0); cbn [when] in Hr.
  - unfold bind in Hr.
    rewrite (SendTelemetry_short "Heart_rate" hr (heart_rate_message_created i) s1) in Hr
      by (cbn [String.length]; lia).
    rewrite Hh in Hr.
    destruct (heart_rate_message_created i).
    + rewrite SendTelemetry_short in Hr by (cbn [String.length]; lia).
      destruct (spo2_message_created i).
      * eexists [_; _]. split; [cbn; lia |].
        split; [repeat constructor; [exact Hsend1 | exact Hsend2] |].
        exact Hr.
      * eexists [_]. split; [cbn; lia |].
        split; [repeat constructor; exact Hsend1 | exact Hr].
    + rewrite SendTelemetry_short in Hr by (cbn [String.length]; lia).
      rewrite Hh in Hr.
      destruct (spo2_message_created i).
      * eexists [_]. split; [cbn; lia |].
        split; [repeat constructor; exact Hsend2 | exact Hr].
      * exists []. split; [cbn; lia |]. split; [constructor | exact Hr].
  - exists []. split; [cbn; lia |]. split; [constructor | exact Hr].
Qed.

(** ** More on the acquisition loop *)

Lemma acquisition_loop_late (start now : Z) (script : list Window) (acc : Accumulator) :
  run_time <= now - start ->
  acquisition_loop start now script acc = Some acc.
Proof.
  intros Hlate.
  destruct script; cbn [acquisition_loop];
    destruct (Z.ltb_spec (now - start) run_time); first [lia | reflexivity].
Qed.

Lemma acquisition_loop_cons (start now : Z) (w : Window) (rest : list Window)
    (acc : Accumulator) :
  now - start < run_time ->
  acquisition_loop start now (w :: rest) acc
  = acquisition_loop start (time_now w) rest (accumulate acc w).
Proof.
  intros Hnow. cbn [acquisition_loop].
  apply Z.ltb_lt in Hnow. rewrite Hnow. reflexivity.
Qed.

Lemma acquisition_loop_ends (start : Z) (script : list Window) :
  forall now acc acc',
    now - start < run_time ->
    acquisition_loop start now script acc = Some acc' ->
    exists ws wl rest,
      script = (ws ++ wl :: rest)%list
      /\ Forall (in_time start) ws
      /\ ~ in_time start wl
      /\ acc' = fold_left accumulate (ws ++ [wl]) acc.
Proof.
  induction script as [| w script IH]; intros now acc acc' Hnow Hloop.
  - cbn [acquisition_loop] in Hloop. apply Z.ltb_lt in Hnow. rewrite Hnow in Hloop.
    discriminate Hloop.
  - rewrite acquisition_loop_cons in Hloop by exact Hnow.
    destruct (Z.lt_ge_cases (time_now w - start) run_time) as [Hw | Hw].
    + destruct (IH _ _ _ Hw Hloop) as (ws & wl & rest & -> & Hws & Hwl & ->).
      exists (w :: ws), wl, rest.
      split; [reflexivity |]. split; [constructor; assumption |].
      split; [exact Hwl | reflexivity].
    + rewrite acquisition_loop_late in Hloop by exact Hw.
      injection Hloop as <-.
      exists [], w, script.
      split; [reflexivity |]. split; [constructor |].
      split; [unfold in_time; lia | reflexivity].
Qed.

Lemma acquisition_loop_runs (start : Z) (ws : list Window) (wl : Window)
    (rest : list Window) :
  Forall (in_time start) ws ->
  ~ in_time start wl ->
  forall now acc,
    now - start < run_time ->
    acquisition_loop start now (ws ++ wl :: rest) acc
    = Some (fold_left accumulate (ws ++ [wl]) acc).
Proof.
  intros Hws Hwl. induction Hws as [| w ws Hw _ IH]; intros now acc Hnow.
  - cbn [app]. rewrite acquisition_loop_cons by exact Hnow.
    apply acquisition_loop_late. unfold in_time in Hwl. lia.
  - cbn [app]. rewrite acquisition_loop_cons by exact Hnow.
    cbn [fold_left]. apply IH. exact Hw.
Qed.

Lemma acquisition_loop_starves (start : Z) (script : list Window) :
  forall now acc,
    now - start < run_time ->
    acquisition_loop start now script acc = None ->
    Forall (in_time start) script.
Proof.
  induction script as [| w script IH]; intros now acc Hnow Hloop; [constructor |].
  rewrite acquisition_loop_cons in Hloop by exact Hnow.
  destruct (Z.lt_ge_cases (time_now w - start) run_time) as [Hw | Hw].
  - constructor; [exact Hw | exact (IH _ _ Hw Hloop)].
  - rewrite acquisition_loop_late in Hloop by exact Hw. discriminate Hloop.
Qed.

(** X20: the acquisition loop, entered with the clock at the start time,
    always takes at least one window; it ends exactly when a window comes
    after which the clock is [run_time] seconds or more past the start,
    with all windows up to and including that one accumulated in their
    order and none of the later ones looked at; as long as every window
    leaves the clock within the run time the loop does not end. *)
Theorem X20_acquisition_loop_ends_at_first_late_window (start : Z)
    (script : list Window) (acc : Accumulator) :
  (forall acc',
      acquisition_loop start start script acc = Some acc'
      <-> exists ws wl rest,
            script = (ws ++ wl :: rest)%list
            /\ Forall (in_time start) ws
            /\ ~ in_time start wl
            /\ acc' = fold_left accumulate (ws ++ [wl]) acc)
  /\ (acquisition_loop start start script acc = None
      <-> Forall (in_time start) script).
Proof.
  assert (Hstart : start - start < run_time) by (unfold run_time; lia).
  split.
  - intros acc'. split.
    + apply acquisition_loop_ends. exact Hstart.
    + intros (ws & wl & rest & -> & Hws & Hwl & ->).
      apply acquisition_loop_runs; assumption.
  - split.
    + apply acquisition_loop_starves. exact Hstart.
    + intros Hall. apply acquisition_loop_waits; assumption.
Qed.

(** ** Replacing the client *)

(** X21: setting up the client always returns; it releases the client
    held before, if and only if there is one, as its first call and exactly
    once, then asks for a new client, and holds whatever handle that
    request left; the connection counts as authenticated afterwards when
    provisioning succeeded and is as it was when it failed. *)
Theorem X21_setup_replaces_client (o : ProvisioningOutcome) (s : State) :
  exists s' later,
    SetupAzureClient o s = Returned tt s'
    /\ calls s'
       = (calls s ++ release_of (iothubClientHandle s)
            ++ Call_CreateWithAzureSphereDeviceAuthProvisioning :: later)%list
    /\ filter is_Destroy_call later = []
    /\ iothubClientHandle s' = prov_handle o
    /\ iothubAuthenticated s'
       = (is_PROV_RESULT_OK (prov_result o) || iothubAuthenticated s)%bool.
Proof.
  unfold SetupAzureClient, IoTHubDeviceClient_LL_CreateWithAzureSphereDeviceAuthProvisioning,
    IoTHubDeviceClient_LL_Destroy, SetTimerFdToPeriod_azureTimerFd,
    IoTHubDeviceClient_LL_SetOption_KEEP_ALIVE, IoTHubDeviceClient_LL_SetDeviceTwinCallback,
    IoTHubDeviceClient_LL_SetConnectionStatusCallback.
  destruct o as [r ph so].
  cbn [prov_result prov_handle setoption_ok].
  destruct (is_PROV_RESULT_OK r) eqn:Hok.
  - destruct s as [t h a l g p tp n b rv pid tc cc cs].
    destruct r; try discriminate Hok.
    destruct h as [h |], so, ph as [ph |].
    all: eexists; eexists; split; [lazy -[app]; reflexivity |].
    all: lazy -[app].
    all: split; [rewrite <- ?app_assoc; cbn [app]; reflexivity |].
    all: repeat split; reflexivity.
  - destruct s as [t h a l g p tp n b rv pid tc cc cs].
    destruct r; try discriminate Hok.
    all: destruct h as [h |].
    all: lazy -[app wrap32 Z.mul Z.gtb Z.eqb].
    all: destruct (p =? _); lazy -[app wrap32 Z.mul Z.gtb Z.eqb].
    all: try destruct (wrap32 _ >? _); lazy -[app wrap32 Z.mul Z.gtb Z.eqb].
    all: eexists; eexists; split; [reflexivity |].
    all: split; [rewrite <- ?app_assoc; cbn [app]; reflexivity |].
    all: repeat split; reflexivity.
Qed.

(** ** Where the main loop can abort *)

Lemma never_aborts_ret {A : Type} (a : A) : never_aborts (ret a).
Proof. intros s s' H. discriminate H. Qed.

Lemma never_aborts_gets {A : Type} (f : State -> A) : never_aborts (gets f).
Proof. intros s s' H. discriminate H. Qed.

Lemma never_aborts_modify (f : State -> State) : never_aborts (modify f).
Proof. intros s s' H. discriminate H. Qed.

Lemma never_aborts_still_running {A : Type} : never_aborts (@still_running A).
Proof. intros s s' H. discriminate H. Qed.

Lemma never_aborts_undefined {A : Type} : never_aborts (@undefined_behaviour A).
Proof. intros s s' H. discriminate H. Qed.

Lemma never_aborts_bind {A B : Type} (c : M A) (k : A -> M B) :
  never_aborts c -> (forall a, never_aborts (k a)) -> never_aborts (bind c k).
Proof.
  intros Hc Hk s s' H. unfold bind in H.
  destruct (c s) as [a s1 | s1 | | s1] eqn:E.
  - exact (Hk a s1 s' H).
  - exact (Hc s s1 E).
  - discriminate H.
  - discriminate H.
Qed.

Lemma never_aborts_when (b : bool) (c : M unit) :
  never_aborts c -> never_aborts (when b c).
Proof. intros Hc. destruct b; [exact Hc | apply never_aborts_ret]. Qed.

Ltac never_aborts_steps :=
  repeat first
    [ apply never_aborts_ret
    | apply never_aborts_gets
    | apply never_aborts_modify
    | apply never_aborts_still_running
    | apply never_aborts_undefined
    | apply never_aborts_bind
    | apply never_aborts_when
    | progress intros
    | match goal with
      | |- never_aborts (match ?x with _ => _ end) => destruct x
      | |- never_aborts (let '(_, _) := ?x in _) => destruct x
      end ].

Lemma TwinReportBoolState_never_aborts (name : string) (v : bool) :
  never_aborts (TwinReportBoolState name v).
Proof.
  unfold TwinReportBoolState, IoTHubDeviceClient_LL_SendReportedState, call.
  never_aborts_steps.
Qed.

Lemma TwinReportStringState_never_aborts (name v : string) :
  never_aborts (TwinReportStringState name v).
Proof.
  unfold TwinReportStringState, IoTHubDeviceClient_LL_SendReportedState, call.
  never_aborts_steps.
Qed.

Lemma HubConnectionStatusCallback_never_aborts
    (result : IOTHUB_CLIENT_CONNECTION_STATUS)
    (reason : IOTHUB_CLIENT_CONNECTION_STATUS_REASON) :
  never_aborts (HubConnectionStatusCallback result reason).
Proof.
  unfold HubConnectionStatusCallback.
  pose proof TwinReportStringState_never_aborts as Hreport.
  generalize dependent TwinReportStringState. intros report Hreport.
  never_aborts_steps; apply Hreport.
Qed.

Lemma apply_StatusLED_never_aborts (desiredProperties : JSON_Object) :
  never_aborts (apply_StatusLED desiredProperties).
Proof.
  unfold apply_StatusLED, GPIO_SetValue_deviceTwinStatusLedGpioFd, call.
  pose proof TwinReportBoolState_never_aborts as Hreport.
  generalize dependent TwinReportBoolState. intros report Hreport.
  never_aborts_steps; apply Hreport.
Qed.

Lemma apply_nprId_never_aborts (desiredProperties : JSON_Object) :
  never_aborts (apply_nprId desiredProperties).
Proof.
  unfold apply_nprId, strcpy_nprId.
  pose proof TwinReportStringState_never_aborts as Hreport.
  generalize dependent TwinReportStringState. intros report Hreport.
  never_aborts_steps; apply Hreport.
Qed.

Lemma deliver_never_aborts (json_parse_string : string -> option JSON_Value)
    (cb : SdkCallback) :
  allocated cb = true ->
  never_aborts (deliver json_parse_string cb).
Proof.
  intros Hcb. destruct cb as [result reason | payload malloc_ok];
    cbn [deliver allocated] in *.
  - apply never_aborts_bind; [apply never_aborts_gets |]. intros registered.
    apply never_aborts_when. apply HubConnectionStatusCallback_never_aborts.
  - subst malloc_ok.
    apply never_aborts_bind; [apply never_aborts_gets |]. intros registered.
    apply never_aborts_when. unfold TwinCallback. cbn [negb]. cbv zeta.
    destruct (json_parse_string (c_str payload)) as [rootProperties |];
      [| apply never_aborts_ret].
    apply never_aborts_bind; [apply apply_StatusLED_never_aborts |]. intros _.
    apply apply_nprId_never_aborts.
Qed.

Lemma deliver_all_never_aborts (json_parse_string : string -> option JSON_Value)
    (cbs : list SdkCallback) :
  forallb allocated cbs = true ->
  never_aborts (deliver_all json_parse_string cbs).
Proof.
  induction cbs as [| cb rest IH]; cbn [forallb deliver_all]; intros Hcbs.
  - apply never_aborts_ret.
  - apply andb_prop in Hcbs. destruct Hcbs as [Hcb Hrest].
    apply never_aborts_bind; [apply deliver_never_aborts; exact Hcb |].
    intros _. apply IH. exact Hrest.
Qed.

Lemma SetupAzureClient_never_aborts (o : ProvisioningOutcome) :
  never_aborts (SetupAzureClient o).
Proof.
  intros s s' H. destruct (prov_result o) eqn:Hr.
  1: destruct (SetupAzureClient_success o s Hr) as (s1 & Hrun & _);
     rewrite Hrun in H; discriminate H.
  all: assert (Hf : failed o) by (unfold failed; rewrite Hr; discriminate);
    destruct (SetupAzureClient_failure o s Hf) as (s1 & Hrun & _);
    rewrite Hrun in H; discriminate H.
Qed.

Lemma ButtonPollTimerEventHandler_never_aborts (i : ButtonPollInput) :
  never_aborts (ButtonPollTimerEventHandler i).
Proof.
  unfold ButtonPollTimerEventHandler, SendTelemetryButtonHandler, IsButtonPressed,
    SendTelemetry, call.
  never_aborts_steps.
Qed.

Lemma main_loop_never_aborts (json_parse_string : string -> option JSON_Value)
    (script : list Dispatch) :
  forallb allocated_turn script = true ->
  never_aborts (main_loop json_parse_string script).
Proof.
  induction script as [| d rest IH]; cbn [forallb main_loop]; intros Hscript.
  - never_aborts_steps.
  - apply andb_prop in Hscript. destruct Hscript as [Hd Hrest].
    specialize (IH Hrest).
    generalize dependent (main_loop json_parse_string rest). intros loop Hloop.
    unfold WaitForEventAndCallHandler.
    destruct d as [| sigterm | i | c n r p cbs]; cbn [allocated_turn] in Hd.
    + never_aborts_steps; exact Hloop.
    + never_aborts_steps; exact Hloop.
    + pose proof (ButtonPollTimerEventHandler_never_aborts i) as Hpoll.
      generalize dependent (ButtonPollTimerEventHandler i). intros poll Hpoll.
      never_aborts_steps; first [exact Hloop | exact Hpoll].
    + unfold AzureTimerEventHandler, IoTHubDeviceClient_LL_DoWork, call.
      pose proof (SetupAzureClient_never_aborts p) as Hsetup.
      generalize dependent (SetupAzureClient p). intros setup Hsetup.
      pose proof (deliver_all_never_aborts json_parse_string cbs Hd) as Hwork.
      generalize dependent (deliver_all json_parse_string cbs). intros work Hwork.
      never_aborts_steps; first [exact Hloop | exact Hsetup | exact Hwork].
Qed.

(** X22: the program calls [abort] in one place, where [TwinCallback]
    cannot allocate the copy of the payload: a twin update without its
    buffer aborts, and as long as every twin update that the SDK delivers
    gets its buffer no run of the main loop reaches [abort], whatever the
    button, the timers, the network, provisioning and the notifications
    do. *)
Theorem X22_abort_only_on_failed_allocation
    (json_parse_string : string -> option JSON_Value) :
  (forall payload s, TwinCallback json_parse_string payload false s = Aborted s)
  /\ (forall script s s',
        forallb allocated_turn script = true ->
        main_loop json_parse_string script s <> Aborted s').
Proof.
  split.
  - intros payload s. reflexivity.
  - intros script s s' Hscript.
    apply main_loop_never_aborts. exact Hscript.
Qed.

Lemma X22_abort_only_on_failed_allocation_witness :
  forallb allocated_turn
    [Ready_azureTimer 0 0 true (provisioned 2%positive)
       [ConnectionStatus IOTHUB_CLIENT_CONNECTION_AUTHENTICATED
          IOTHUB_CLIENT_CONNECTION_OK;
        TwinUpdate (nprId_payload "01019012345") true];
     Ready_buttonPollTimer example_press] = true
  /\ forall s',
       main_loop nprId_parser
         [Ready_azureTimer 0 0 true (provisioned 2%positive)
            [ConnectionStatus IOTHUB_CLIENT_CONNECTION_AUTHENTICATED
               IOTHUB_CLIENT_CONNECTION_OK;
             TwinUpdate (nprId_payload "01019012345") true];
          Ready_buttonPollTimer example_press]
         (started 3 21) <> Aborted s'.
Proof.
  split; [vm_compute; reflexivity |].
  intros s'.
  apply (proj2 (X22_abort_only_on_failed_allocation nprId_parser)).
  vm_compute. reflexivity.
Defined.
